(** * IOTA Canvas and its AI marketplace: a shallow embedding

    The development follows the Python sources:
    - [Num]       : the numbers of Python and SQLite that the code computes
                    with (integers, binary64 floats, the 64-bit limit of
                    SQLite);
    - [Schema]    : the tables read and written by [aimarket];
    - [Iotautil]  : [ai-marketplace/aimarket/iotautil.py] (address index,
                    balance query);
    - [Artist]    : [ai-marketplace/aimarket/artist.py] (cost formula, job
                    lookup, status query, the payment watcher
                    [art_generator]);
    - [Canvas]    : [iota/iotacanvas/iotacanvas.py] ([choose_artist]);
    - [Synchro]   : [iota/iotacanvas/common/synchro.py] ([EventQueue]);
    - [Requests]  : [artist.py] again ([retrieve_art], [request_art],
                    [artist_list]), with the invariants of [Ledger];
    - [Monitor]   : [iotacanvas.py] ([manage_monitor]);
    - [Settings]  : [iota/iotacanvas/common/settings.py] ([get], [setval],
                    [_merge_recursive], [save] with [_collapse_paths] and
                    [_expand_paths]);
    - [Webapp]    : [iota/iotacanvas/webapp/__init__.py] (the settings
                    routes);
    - [ClientIota]: [iota/iotacanvas/common/iotautil.py]
                    ([generate_address], [send_iota]);
    - [Refresh]   : [iotacanvas.py] ([_refresh_artwork],
                    [is_refresh_time]).

    Python integers are unbounded and are modelled by [Z]; Python floats
    are the binary64 values of [SpecFloat].  Time is counted in whole
    seconds: the time that passes in calls to the outside world is supplied
    by the environment as a [nat] number of seconds, and what
    [datetime.datetime.now()] shows at a given time is a function [wall] of
    the environment, because the naive local time that the code reads can
    be stepped (daylight saving time, an adjustment of the system clock).
    SQL tables are finite maps from the integer primary key to a record of
    the columns that the statements of the sources mention ([schema.sql]
    itself is not part of the sources). *)

From Stdlib Require Import ZArith Lia Sorted SpecFloat.
From stdpp Require Import base option list gmap strings pretty.

Open Scope string_scope.
Open Scope list_scope.
Open Scope Z_scope.

(** ** Python exceptions and results *)

Module Py.

(** The exceptions that the modelled code raises itself, and one
    constructor for failures of the IOTA node adapter or of an artist
    plugin (external collaborators). *)
Inductive exn : Type :=
| HTTPException (code : Z)   (* werkzeug [abort(code)] *)
| ValueError
| TypeError                  (* subscripting [None] *)
| OverflowError              (* an [int] that SQLite or a float cannot hold *)
| QueueEmpty                 (* [queue.Empty] *)
| External (what : string).

Inductive result (A : Type) : Type :=
| Ok (a : A)
| Raise (e : exn).
Arguments Ok {A} a.
Arguments Raise {A} e.

(** Sequencing: an exception aborts what follows. *)
#[global] Instance result_bind : MBind result := fun A B k r =>
  match r with
  | Ok a => k a
  | Raise e => Raise e
  end.

#[global] Instance exn_eq_dec : EqDecision exn.
Proof. solve_decision. Defined.

End Py.

Import Py.

(** ** Numbers *)

Module Num.

(** A Python [int] or [float]; the [sqlite3] module delivers an INTEGER as
    the one and a REAL as the other.  A float is an IEEE 754 binary64
    value. *)
Inductive number : Type :=
| Int (z : Z)
| Float (f : spec_float).

#[global] Instance spec_float_eq_dec : EqDecision spec_float.
Proof. solve_decision. Defined.

#[global] Instance number_eq_dec : EqDecision number.
Proof. solve_decision. Defined.

Definition prec : Z := 53.
Definition emax : Z := 1024.

(** The float nearest to [m * 2^e], ties to even; an infinity when that is
    out of range. *)
Definition float_of (m e : Z) : spec_float :=
  binary_normalize prec emax m e false.

(** The conversion of an operand in mixed arithmetic: an [int] too large
    for a float raises. *)
Definition to_float (n : number) : result spec_float :=
  match n with
  | Float f => Ok f
  | Int z =>
      match float_of z 0 with
      | S754_infinity _ => Raise OverflowError
      | f => Ok f
      end
  end.

(** [a + b], [a - b] and [a * b]: exact on two integers, in binary64
    otherwise. *)
Definition add (a b : number) : result number :=
  match a, b with
  | Int x, Int y => Ok (Int (x + y))
  | _, _ => x ← to_float a; y ← to_float b; Ok (Float (SFadd prec emax x y))
  end.

Definition sub (a b : number) : result number :=
  match a, b with
  | Int x, Int y => Ok (Int (x - y))
  | _, _ => x ← to_float a; y ← to_float b; Ok (Float (SFsub prec emax x y))
  end.

Definition mul (a b : number) : result number :=
  match a, b with
  | Int x, Int y => Ok (Int (x * y))
  | _, _ => x ← to_float a; y ← to_float b; Ok (Float (SFmul prec emax x y))
  end.

(** [int(n)]: a float is truncated towards zero; an infinity and a NaN
    raise. *)
Definition int (n : number) : result Z :=
  match n with
  | Int z => Ok z
  | Float (S754_zero _) => Ok 0
  | Float (S754_finite s m e) => Ok (cond_Zopp s (Z.shiftl (Z.pos m) e))
  | Float (S754_infinity _) => Raise OverflowError
  | Float S754_nan => Raise ValueError
  end.

(** The integers that SQLite stores. *)
Definition INT64_MIN : Z := - 2 ^ 63.
Definition INT64_MAX : Z := 2 ^ 63 - 1.

(** An [int] passed as a parameter of an SQL statement: [sqlite3] raises
    when it does not fit in 64 bits. *)
Definition bind (z : Z) : result Z :=
  if bool_decide (INT64_MIN <= z <= INT64_MAX) then Ok z
  else Raise OverflowError.

Definition bind_number (n : number) : result number :=
  match n with
  | Int z => z ← bind z; Ok (Int z)
  | Float _ => Ok n
  end.

(** The SQL expression [x + 1]: the sum of two integers is an integer
    when it fits in 64 bits; otherwise, and for a REAL [x], both operands
    are added as binary64 values and the result is a REAL. *)
Definition sql_incr (x : number) : number :=
  match x with
  | Int z =>
      if bool_decide (INT64_MIN <= z + 1 <= INT64_MAX) then Int (z + 1)
      else Float (SFadd prec emax (float_of z 0) (float_of 1 0))
  | Float f => Float (SFadd prec emax f (float_of 1 0))
  end.

(** [0 <= n]: of a float, neither a NaN nor below zero. *)
Definition float_nonneg (f : spec_float) : bool :=
  match f with
  | S754_zero _ => true
  | S754_infinity s | S754_finite s _ _ => negb s
  | S754_nan => false
  end.

Definition nonneg (n : number) : Prop :=
  match n with
  | Int z => 0 <= z
  | Float f => float_nonneg f = true
  end.

End Num.

(** ** [aimarket]: the marketplace server *)

(** *** Tables *)

Module Schema.
Import Num.

(** The columns [surcharge], [average_time] and [addr_index] hold numbers:
    an INTEGER or a REAL. *)
Record ArtistRow : Type := {
  code : string;
  surcharge : number;
  average_time : option number     (* seconds, [NULL] when unknown *)
}.

Record JobRow : Type := {
  access_key : string;
  addr_index : number;
  ai_id : Z;
  completed : option Z;       (* timestamp, [NULL] while pending *)
  filename : option string
}.

Record IotaRow : Type := {
  seed : string;
  iota_addr_index : number    (* column [addr_index] of table [iota] *)
}.

Record Db : Type := {
  artist : gmap Z ArtistRow;
  job : gmap Z JobRow;
  iota : gmap Z IotaRow
}.

End Schema.

(** *** [aimarket/iotautil.py] *)

Module Iotautil.
Import Num Schema.

(** An [IotaUtil] object: the primary key of the seed row it was built
    from.  Its [iotaapi] is the IOTA node, which belongs to the
    environment: every use takes the node's answer as an argument. *)
Record IotaUtil : Type := { id : Z }.

(** The counter stored in the seed row of [self], if the row exists. *)
Definition counter (self : IotaUtil) (db : Db) : option number :=
  iota_addr_index <$> iota db !! id self.

(** [UPDATE iota SET addr_index = addr_index + 1 WHERE id = ?] *)
Definition update_addr_index (db : Db) (id : Z) : Db :=
  {| artist := artist db;
     job := job db;
     iota := alter (fun r => {| seed := seed r;
                                iota_addr_index :=
                                  sql_incr (iota_addr_index r) |})
                   id (iota db) |}.

(** [generate_address(self)].  [get_new_addresses index] is the node's
    answer to [self.iotaapi.get_new_addresses(index=index)]: the first
    address, or an exception.  The database that is returned is the
    committed one; it is returned in the failing case as well, because
    [db.commit()] precedes the call to the node. *)
Definition generate_address (self : IotaUtil)
    (get_new_addresses : number -> result string) (db : Db)
    : Db * result (string * number) :=
  let db' := update_addr_index db (id self) in
  match iota db' !! id self with
  | None => (db, Raise TypeError)
  | Some row =>
      (* fetch the address index and subtract 1 since 1 was added above *)
      match sub (iota_addr_index row) (Int 1) with
      | Raise e => (db, Raise e)
      | Ok addr_index =>
          (db',
           address ← get_new_addresses addr_index;
           Ok (address, addr_index))
      end
  end.

(** [get_balance(self, index)]; [get_account_data start stop] is the
    node's answer (the field [balance], or an exception). *)
Definition get_balance (get_account_data : number -> number -> result Z)
    (index : number) : result Z :=
  stop_index ← add index (Int 1);
  get_account_data index stop_index.

(** A sequence of allocations, one node answer per call; the results are
    listed in call order. *)
Fixpoint generate_addresses (self : IotaUtil)
    (nodes : list (number -> result string)) (db : Db)
    : Db * list (result (string * number)) :=
  match nodes with
  | [] => (db, [])
  | node :: nodes =>
      let '(db, r) := generate_address self node db in
      let '(db, rs) := generate_addresses self nodes db in
      (db, r :: rs)
  end.

(** The indices handed out by the calls that returned. *)
Definition returned_indices (rs : list (result (string * number)))
    : list number :=
  omap (fun r => match r with Ok (_, i) => Some i | Raise _ => None end) rs.

End Iotautil.

(** *** [aimarket/artist.py] *)

Module Artist.
Import Num Schema.

(** The entries of [app.config] that [artist.py] reads. *)
Record Config : Type := {
  TIME_COST : Z;      (* IOTAs per second *)
  DEFAULT_COST : Z;   (* IOTA cost if the running time is unknown *)
  WAIT_PAYMENT : Z    (* minutes to wait for payment before cancelling *)
}.

(** The mapping installed by [create_app] in [__init__.py]. *)
Definition create_app : Config :=
  {| TIME_COST := 100; DEFAULT_COST := 1000; WAIT_PAYMENT := 10 |}.

Definition BALANCE_CHECK_INTERVAL : Z := 30.  (* seconds *)

(** [calc_cost(average_time, surcharge=0, config=None)].  [current_app] is
    the configuration of the running application; [average_time] is a
    nullable column. *)
Definition calc_cost (current_app : Config)
    (average_time : option number) (surcharge : number)
    (config : option Config) : result Z :=
  let config := match config with None => current_app | Some c => c end in
  time_cost ←
    match average_time with
    | None => Ok (Int (DEFAULT_COST config))
    | Some average_time => mul average_time (Int (TIME_COST config))
    end;
  total ← add surcharge time_cost;
  cost ← int total;
  Ok cost.

(** What the specification gives as the cost, before any conversion:
    [surcharge + (DEFAULT_COST if average_time is None else
    average_time * TIME_COST)]. *)
Definition cost_formula (config : Config)
    (average_time : option number) (surcharge : number) : result number :=
  time_cost ←
    match average_time with
    | None => Ok (Int (DEFAULT_COST config))
    | Some average_time => mul average_time (Int (TIME_COST config))
    end;
  add surcharge time_cost.

(** The three columns selected by [get_job]. *)
Record JobView : Type := {
  v_access_key : string;
  v_completed : option Z;
  v_filename : option string
}.

Definition select_job (j : JobRow) : JobView :=
  {| v_access_key := access_key j;
     v_completed := completed j;
     v_filename := filename j |}.

(** [get_job(jobid, key)].  The id is a parameter of the query. *)
Definition get_job (db : Db) (jobid : Z) (key : string) : result JobView :=
  jobid ← bind jobid;
  match select_job <$> job db !! jobid with
  | None => Raise (HTTPException 404)          (* job doesn't exist *)
  | Some job =>
      if bool_decide (key <> v_access_key job)
      then Raise (HTTPException 403)
      else Ok job
  end.

(** A Flask response: status code and the JSON field [status]. *)
Record Response : Type := {
  status_code : Z;
  body_status : string
}.

(** [retrieve_status(jobid)], with the [key] of the request body. *)
Definition retrieve_status (db : Db) (jobid : Z) (key : string)
    : result Response :=
  job ← get_job db jobid key;
  match v_completed job with
  | None => Ok {| status_code := 409; body_status := "in_progress" |}
  | Some _ => Ok {| status_code := 200; body_status := "completed" |}
  end.

(** [DELETE FROM job WHERE id = ?] *)
Definition delete_job (db : Db) (job_id : Z) : Db :=
  {| artist := artist db; job := delete job_id (job db); iota := iota db |}.

(** [UPDATE job SET completed = ?, filename = ? WHERE id = ?] *)
Definition update_job (db : Db) (now : Z) (fname : string) (job_id : Z) : Db :=
  {| artist := artist db;
     job := alter (fun j => {| access_key := access_key j;
                               addr_index := addr_index j;
                               ai_id := ai_id j;
                               completed := Some now;
                               filename := Some fname |})
                  job_id (job db);
     iota := iota db |}.

(** What a run of the watcher meets outside the process. *)
Record World : Type := {
  start_time : Z;
    (* the time at which [start_time] is read *)
  wall : Z -> Z;
    (* what [datetime.datetime.now()] shows at a given time *)
  elapsed : nat -> nat;
    (* iteration [k] of the polling loop takes [BALANCE_CHECK_INTERVAL]
       seconds of sleep and [elapsed k] more (the query to the node) *)
  get_account_data : nat -> number -> number -> result Z;
    (* the node's answer to the query of iteration [k] *)
  run : result string;
    (* importing the artist's module and calling its [run(store_path)]:
       the file name it returns or the exception it raises; the artist's
       code is taken to leave the tables alone *)
  run_elapsed : nat
}.

(** The wall clock is not stepped while the watcher runs: its readings
    differ by the time that has passed. *)
Definition unstepped (w : World) : Prop :=
  forall s t, wall w t - wall w s = t - s.

(** The polling loop of [art_generator]: [k] queries were made so far, the
    time is [now]; [deadline] is the value of [start_time + wait_time],
    which the loop compares with the reading of the clock.  The result is
    the last balance (or the exception of a query), the number of queries
    and the time at the exit.  Without fuel the loop is still running. *)
Fixpoint poll (fuel : nat) (w : World) (addr_index : number)
    (required_balance : Z) (deadline : Z) (k : nat) (now balance : Z)
    : option (result Z * nat * Z) :=
  if bool_decide (balance < required_balance)
     && bool_decide (wall w now < deadline) then
    match fuel with
    | O => None
    | S fuel =>
        (* time.sleep(BALANCE_CHECK_INTERVAL), then the query *)
        let now := now + BALANCE_CHECK_INTERVAL + Z.of_nat (elapsed w k) in
        match Iotautil.get_balance (get_account_data w k) addr_index with
        | Raise e => Some (Raise e, S k, now)
        | Ok balance =>
            poll fuel w addr_index required_balance deadline (S k) now balance
        end
    end
  else Some (Ok balance, k, now).

(** The time of the [k]-th evaluation of the loop condition, as long as
    the loop runs. *)
Fixpoint clock_at (w : World) (k : nat) : Z :=
  match k with
  | O => start_time w
  | S k => clock_at w k + BALANCE_CHECK_INTERVAL + Z.of_nat (elapsed w k)
  end.

Inductive Ending : Type :=
| Cancelled                   (* the job timed out and its row was deleted *)
| Finished (fname : string)   (* the art was generated and recorded *)
| Failed (e : exn).           (* the thread died with an exception *)

Record Outcome : Type := {
  final : Db;
  ending : Ending;
  polls : nat;      (* balance queries made *)
  clock : Z         (* the time of the last statement *)
}.

(** [art_generator(job_id, iota, config)], with the fuel of its polling
    loop. *)
Definition art_generator (fuel : nat) (job_id : Z) (w : World)
    (config : Config) (db : Db) : option Outcome :=
  let failed e :=
    Some {| final := db; ending := Failed e;
            polls := 0; clock := start_time w |} in
  (* get the job info *)
  match bind job_id with
  | Raise e => failed e
  | Ok job_id =>
  match job db !! job_id ≫= fun j => pair j <$> artist db !! ai_id j with
  | None => failed TypeError
  | Some (j, ai) =>
      let addr_index := addr_index j in
      match calc_cost config (average_time ai) (surcharge ai) (Some config) with
      | Raise e => failed e
      | Ok required_balance =>
      let balance := 0 in
      let wait_time := 60 * WAIT_PAYMENT config in
      let start_time := start_time w in
      match poll fuel w addr_index required_balance
                 (wall w start_time + wait_time) 0 start_time balance with
      | None => None
      | Some (Raise e, k, now) =>
          Some {| final := db; ending := Failed e; polls := k; clock := now |}
      | Some (Ok balance, k, now) =>
          if bool_decide (balance < required_balance) then
            (* job timed out - delete it *)
            Some {| final := delete_job db job_id; ending := Cancelled;
                    polls := k; clock := now |}
          else
            let now := now + Z.of_nat (run_elapsed w) in
            match run w with
            | Raise e =>
                Some {| final := db; ending := Failed e;
                        polls := k; clock := now |}
            | Ok fname =>
                Some {| final := update_job db (wall w now) fname job_id;
                        ending := Finished fname; polls := k; clock := now |}
            end
      end
      end
  end
  end.

End Artist.

(** ** [iotacanvas]: the client *)

(** *** [iotacanvas/iotacanvas.py] *)

Module Canvas.

(** An entry of the JSON list served by [/artist-list]. *)
Record Artist : Type := {
  id : Z;
  cost : Z;
  genre_name : string
}.

#[global] Instance Artist_eq_dec : EqDecision Artist.
Proof. solve_decision. Defined.

(** The body of the loop of [choose_artist]: [best_choice] is replaced
    only by a strictly cheaper artist. *)
Definition choose_step (best_choice artist : Artist) : Artist :=
  if bool_decide (cost best_choice > cost artist)
  then artist else best_choice.

(** [choose_artist(self, artist_list)]: the loop visits every element,
    the first one included. *)
Definition choose_artist (artist_list : option (list Artist)) : result Artist :=
  match artist_list with
  | None | Some [] => Raise ValueError
  | Some (first :: _ as artist_list) =>
      Ok (fold_left choose_step artist_list first)
  end.

(** [first_cheapest l i b]: [b] is the element of [l] at index [i], no
    element of [l] is cheaper, and every element before [i] costs more. *)
Definition first_cheapest (l : list Artist) (i : nat) (b : Artist) : Prop :=
  l !! i = Some b /\
  (forall a, a ∈ l -> cost b <= cost a) /\
  (forall j a, (j < i)%nat -> l !! j = Some a -> cost b < cost a).

End Canvas.

(** *** [iotacanvas/common/synchro.py] *)

Module Synchro.

Record IotaCanvasEvent : Type := {
  name : string;
  data : option string
}.

Record PrioritizedItem : Type := {
  priority : Z;
  p_data : IotaCanvasEvent      (* attribute [data] *)
}.

(** What travels through the notifier queue: the constant [True] posted by
    the callback of the stop event, or the event object of a [put]. *)
Inductive Notice : Type :=
| PyTrue
| Item (e : IotaCanvasEvent).

(** An [EventQueue].  [_queue] lists the content of the unbounded
    [queue.PriorityQueue] in order of insertion; [_notifier] is the FIFO
    [queue.Queue], head first. *)
Record EventQueue : Type := {
  _queue : list PrioritizedItem;
  _notifier : list Notice
}.

Definition EventQueue_init : EventQueue := {| _queue := []; _notifier := [] |}.

(** A [threading.Event], with the attribute that
    [convert_to_callback_event] adds.  The callback installed by the queue
    is [lambda: self._cb_put(True)]. *)
Record Event : Type := {
  is_set : bool;
  is_callback : bool
}.

Definition _cb_put (self : EventQueue) (item : Notice) : EventQueue :=
  {| _queue := _queue self; _notifier := _notifier self ++ [item] |}.

(** [put(self, event_name, data=None, priority=100)] *)
Definition put (self : EventQueue) (event_name : string)
    (data : option string) (priority : Z) : EventQueue :=
  let item := {| name := event_name; data := data |} in
  let priority_item := {| priority := priority; p_data := item |} in
  let self := {| _queue := _queue self ++ [priority_item];
                 _notifier := _notifier self |} in
  _cb_put self (Item item).

Definition convert_to_callback_event (event : Event) : Event :=
  if is_callback event then event
  else {| is_set := is_set event; is_callback := true |}.

(** The methods [set] and [clear] of [threading.Event] itself.  The
    conversion keeps them as [event._set] and [event._clear]; a bound
    method [event.set] that was taken from the event before the conversion
    is this one as well, whatever happens to the event later. *)
Definition _set (event : Event) : Event :=
  {| is_set := true; is_callback := is_callback event |}.

Definition _clear (event : Event) : Event :=
  {| is_set := false; is_callback := is_callback event |}.

(** [event.set()] and [event.clear()], looked up on the event at the call:
    after the conversion they are [cb_set] and [cb_clear], which also call
    the callback. *)
Definition set (self : EventQueue) (event : Event) : EventQueue * Event :=
  let event' := _set event in
  (if is_callback event then _cb_put self PyTrue else self, event').

Definition clear (self : EventQueue) (event : Event) : EventQueue * Event :=
  let event' := _clear event in
  (if is_callback event then _cb_put self PyTrue else self, event').

Definition _clear_notifier (self : EventQueue) : EventQueue :=
  {| _queue := _queue self; _notifier := [] |}.

(** What the other threads do while the caller is inside
    [get_and_wait_on_event].  [DoBoundSet] is a call of a method [set]
    bound before the conversion: [start_webapp] subscribes
    [stop_flag.set] to the stop of the web server before the main loop
    makes its first call. *)
Inductive Action : Type :=
| DoPut (event_name : string) (data : option string) (priority : Z)
| DoSet
| DoClear
| DoBoundSet.

Definition act (s : EventQueue * Event) (a : Action) : EventQueue * Event :=
  match a with
  | DoPut event_name data priority => (put s.1 event_name data priority, s.2)
  | DoSet => set s.1 s.2
  | DoClear => clear s.1 s.2
  | DoBoundSet => (s.1, _set s.2)
  end.

(** What an action posts to the notifier of a converted event, and what
    it adds to the priority queue. *)
Definition notice_of (a : Action) : option Notice :=
  match a with
  | DoPut event_name data _ =>
      Some (Item {| name := event_name; data := data |})
  | DoSet | DoClear => Some PyTrue
  | DoBoundSet => None
  end.

Definition queued_by (a : Action) : option PrioritizedItem :=
  match a with
  | DoPut event_name data priority =>
      Some {| priority := priority;
              p_data := {| name := event_name; data := data |} |}
  | DoSet | DoClear | DoBoundSet => None
  end.

(** [get_and_wait_on_event(self, event, timeout)].  [early] are the
    actions of the other threads between the test of [event.is_set()] and
    the moment the notifier is found empty by [_clear_notifier]; [others]
    are their actions from then on until the blocked [self._notifier.get]
    returns; when these post nothing the timeout expires. *)
Definition get_and_wait_on_event (self : EventQueue) (event : Event)
    (early others : list Action) : EventQueue * Event * result Notice :=
  let event := convert_to_callback_event event in
  if is_set event then (self, event, Ok PyTrue)
  else
    let '(self, event) := fold_left act early (self, event) in
    let self := _clear_notifier self in
    let '(self, event) := fold_left act others (self, event) in
    match _notifier self with
    | [] => (self, event, Raise QueueEmpty)
    | item :: rest =>
        ({| _queue := _queue self; _notifier := rest |}, event, Ok item)
    end.

End Synchro.

(** ** Sample data *)

Module Samples.
Import Num Schema.

(** An artist of unknown running time and one that asks for nothing. *)
Definition painter : ArtistRow :=
  {| code := "3f2a9c1e/painter"; surcharge := Int 0; average_time := None |}.

Definition free_painter : ArtistRow :=
  {| code := "77b0e4d2/sketch"; surcharge := Int 0;
     average_time := Some (Int 0) |}.

Definition pending_job (ai : Z) : JobRow :=
  {| access_key := "9f86d081884c7d65"; addr_index := Int 7; ai_id := ai;
     completed := None; filename := None |}.

(** Job 1 is for [painter], job 2 for [free_painter]; there is no job 3. *)
Definition db1 : Db :=
  {| artist := {[ 1 := painter; 2 := free_painter ]};
     job := {[ 1 := pending_job 1; 2 := pending_job 2 ]};
     iota := {[ 1 := {| seed := "SEED9"; iota_addr_index := Int 7 |} ]} |}.

(** Nobody pays; the node answers each query after [seconds]; the clock
    shows the time. *)
Definition unpaid (seconds : nat) : Artist.World :=
  {| Artist.start_time := 0;
     Artist.wall := fun t => t;
     Artist.elapsed := fun _ => seconds;
     Artist.get_account_data := fun _ _ _ => Ok 0;
     Artist.run := Ok "a41c09be.png";
     Artist.run_elapsed := 5%nat |}.


Definition three_artists : list Canvas.Artist :=
  [ {| Canvas.id := 10; Canvas.cost := 5; Canvas.genre_name := "cubism" |};
    {| Canvas.id := 11; Canvas.cost := 3; Canvas.genre_name := "pop art" |};
    {| Canvas.id := 12; Canvas.cost := 3; Canvas.genre_name := "fauvism" |} ].

(** A stop flag that is not set, and the two events of the main loop. *)
Definition stop_flag : Synchro.Event :=
  {| Synchro.is_set := false; Synchro.is_callback := false |}.

Definition LOW_BALANCE : Synchro.IotaCanvasEvent :=
  {| Synchro.name := "LOW_BALANCE"; Synchro.data := None |}.

Definition REFRESH_ARTWORK : Synchro.IotaCanvasEvent :=
  {| Synchro.name := "REFRESH_ARTWORK"; Synchro.data := None |}.

(** The floats 0.015 (the nearest binary64 value) and 1.5. *)
Definition f0_015 : spec_float :=
  SFdiv prec emax (float_of 15 0) (float_of 1000 0).

Definition f1_5 : spec_float := float_of 3 (-1).

(** An artist whose average time is a float. *)
Definition quick_painter : ArtistRow :=
  {| code := "c0ffee12/quick"; surcharge := Int 0;
     average_time := Some (Float f0_015) |}.

End Samples.

(** ** [aimarket/artist.py]: the request handlers *)

Module Requests.
Import Num Schema Artist.

Definition RETRIEVE_URL : string := "retrieve-art".

(** Flask's [send_from_directory(directory, filename)] for the directory
    [ART_DIR]: [is_file name] tells whether the name, joined to the
    directory, is a regular file inside it.  The answer is the file,
    or [NotFound]; a name that is [None] cannot be joined. *)
Definition send_from_directory (is_file : string -> bool)
    (filename : option string) : result string :=
  match filename with
  | None => Raise TypeError
  | Some filename =>
      if is_file filename then Ok filename else Raise (HTTPException 404)
  end.

(** [retrieve_art(jobid)], with the [key] of the request body.  The result
    names the file that is served. *)
Definition retrieve_art (is_file : string -> bool) (db : Db) (jobid : Z)
    (key : string) : result string :=
  job ← get_job db jobid key;
  match v_completed job with
  | None => Raise (HTTPException 409)
  | Some _ =>
      (* if the job is completed and the key is correct, serve the file *)
      send_from_directory is_file (v_filename job)
  end.

(** The JSON body of the 202 response of [request_art]. *)
Record Accepted : Type := {
  iota_addr : string;
  job_id : Z;
  key : string;
  status_addr : string;
  retrieve_addr : string
}.

(** [INSERT INTO job (access_key, addr_index, ai_id) VALUES (?, ?, ?)];
    [rowid] is the key that SQLite gives to the new row. *)
Definition insert_job (db : Db) (rowid : Z) (key : string)
    (addr_index : number) (aiid : Z) : Db :=
  {| artist := artist db;
     job := <[rowid := {| access_key := key; addr_index := addr_index;
                          ai_id := aiid; completed := None;
                          filename := None |}]> (job db);
     iota := iota db |}.

(** [request_art(aiid)].  The environment supplies the node's answer
    [get_new_addresses], the fresh [uuid.uuid4().hex] and the
    [cursor.lastrowid] of the insertion.  The numbers among the
    parameters of the insertion have to fit in 64 bits.  The watcher
    thread that is started for the job is [art_generator]. *)
Definition request_art (aiid : Z) (iota : Iotautil.IotaUtil)
    (get_new_addresses : number -> result string)
    (uuid4_hex : string) (lastrowid : Z) (db : Db) : Db * result Accepted :=
  (* generate new IOTA address specifically for this client *)
  match Iotautil.generate_address iota get_new_addresses db with
  | (db, Raise e) => (db, Raise e)
  | (db, Ok (addr, addr_index)) =>
      let key := uuid4_hex in
      match (addr_index ← bind_number addr_index;
             aiid ← bind aiid;
             Ok (addr_index, aiid)) with
      | Raise e => (db, Raise e)
      | Ok (addr_index, aiid) =>
          let db := insert_job db lastrowid key addr_index aiid in
          let job_id := lastrowid in
          (db,
           Ok {| iota_addr := addr;
                 job_id := job_id;
                 key := key;
                 status_addr := "/" +:+ pretty job_id +:+ "/status";
                 retrieve_addr :=
                   "/" +:+ pretty job_id +:+ "/" +:+ RETRIEVE_URL |})
      end
  end.

(** A row of the join of [artist] and [genre] that [artist_list] reads. *)
Record Listed : Type := {
  l_id : Z;
  l_surcharge : number;
  l_average_time : option number;
  l_genre_name : string
}.

(** [artist_list()]: the JSON list, as the client reads it back.  The
    request fails when the cost of a row cannot be computed. *)
Fixpoint artist_list (current_app : Config) (ais : list Listed)
    : result (list Canvas.Artist) :=
  match ais with
  | [] => Ok []
  | row :: ais =>
      cost ← calc_cost current_app (l_average_time row) (l_surcharge row)
                       None;
      response ← artist_list current_app ais;
      Ok ({| Canvas.id := l_id row;
             Canvas.cost := cost;
             Canvas.genre_name := l_genre_name row |} :: response)
  end.

End Requests.

(** ** Invariants of the job ledger *)

Module Ledger.
Import Num Schema.

(** The counter of [self] is an integer of SQLite, every address index
    recorded in a job is an integer below it, and no two jobs share one. *)
Definition indices_allocated (self : Iotautil.IotaUtil) (db : Db) : Prop :=
  exists c, Iotautil.counter self db = Some (Int c) /\
    INT64_MIN <= c <= INT64_MAX /\
    forall i j, job db !! i = Some j ->
      exists a, addr_index j = Int a /\ a < c.

Definition indices_distinct (db : Db) : Prop :=
  forall i1 i2 j1 j2,
    job db !! i1 = Some j1 -> job db !! i2 = Some j2 ->
    addr_index j1 = addr_index j2 -> i1 = i2.

(** A row of the listing that was read from the table [artist]. *)
Definition listed_from (db : Db) (row : Requests.Listed) : Prop :=
  INT64_MIN <= Requests.l_id row <= INT64_MAX /\
  exists ai, artist db !! Requests.l_id row = Some ai /\
    surcharge ai = Requests.l_surcharge row /\
    average_time ai = Requests.l_average_time row.

End Ledger.
(** ** [iotacanvas]: the monitor schedule *)

Module Monitor.

Definition MINUTES_IN_DAY : Z := 24 * 60.

(** The fields of a [datetime.time] that [manage_monitor] reads, from
    [strptime(s, "%H:%M")] or from [datetime.now()]. *)
Record TimeOfDay : Type := {
  hour : Z;
  minute : Z
}.

(** What [strptime] and [now] deliver. *)
Definition valid (t : TimeOfDay) : Prop :=
  0 <= hour t < 24 /\ 0 <= minute t < 60.

(** convert the time into the number of minutes since midnight *)
Definition convert_time_minutes (t : TimeOfDay) : Z :=
  hour t * 60 + minute t.

(** [manage_monitor(self)].  [turn_on] and [turn_off] tell whether
    [display.turn_on()] and [display.turn_off()] succeed if called; the
    result is the new value of [self._monitor_state]. *)
Definition manage_monitor (display_off_enabled : bool)
    (display_off_time display_on_time now : TimeOfDay)
    (turn_on turn_off : bool) (_monitor_state : bool) : bool :=
  if display_off_enabled then
    let off_time := convert_time_minutes display_off_time in
    let on_time := convert_time_minutes display_on_time in
    let now := convert_time_minutes now in
    let monitor_should_be_on :=
      bool_decide ((now - on_time) `mod` MINUTES_IN_DAY
                   < (off_time - on_time) `mod` MINUTES_IN_DAY) in
    if monitor_should_be_on && negb _monitor_state then
      (* turn screen on *)
      if turn_on then true else _monitor_state
    else if _monitor_state && negb monitor_should_be_on then
      (* turn screen off *)
      if turn_off then false else _monitor_state
    else _monitor_state
  else _monitor_state.

End Monitor.


(** ** [iotacanvas/common/settings.py] *)

Module Settings.

(** The exceptions of the client code that is modelled below. *)
Inductive exc : Type :=
| AttributeError        (* [.get] on something that is not a dict *)
| UnboundLocalError     (* [get([])]: [value] was never assigned *)
| KeyError
| IndexError
| TypeError
| ValueError            (* also: insufficient balance, from pyota *)
| ConnectionError       (* [requests.exceptions.ConnectionError] *)
| Other (what : string).

Inductive res (A : Type) : Type :=
| Done (a : A)
| Throw (e : exc).
Arguments Done {A} a.
Arguments Throw {A} e.

(** The values of the settings tree: what [json.load] delivers, numbers
    with a fraction left out, and the [Path] objects that [_expand_paths]
    puts in, each represented by its string.  A dict has one item per key
    and lists its items in insertion order. *)
#[local] Set Warnings "-register-all".
Inductive value : Type :=
| VNone
| VBool (b : bool)
| VInt (n : Z)
| VStr (s : string)
| VPath (p : string)
| VList (l : list value)
| VDict (d : dict)
with dict : Type :=
| DNil
| DItem (key : string) (val : value) (rest : dict).

(** [d.get(key)] *)
Fixpoint dict_get (d : dict) (key : string) : option value :=
  match d with
  | DNil => None
  | DItem k v rest => if bool_decide (k = key) then Some v else dict_get rest key
  end.

(** [d[key] = val]: an existing item keeps its place, a new one goes to
    the end. *)
Fixpoint dict_set (d : dict) (key : string) (val : value) : dict :=
  match d with
  | DNil => DItem key val DNil
  | DItem k v rest =>
      if bool_decide (k = key) then DItem k val rest
      else DItem k v (dict_set rest key val)
  end.

(** The item of [key] taken out ([del d[key]], given that a dict has one
    item per key). *)
Fixpoint dict_del (d : dict) (key : string) : dict :=
  match d with
  | DNil => DNil
  | DItem k v rest =>
      if bool_decide (k = key) then dict_del rest key
      else DItem k v (dict_del rest key)
  end.

(** [_merge_recursive(self, destination, source)].  The destination is
    changed in place, so it is returned also when the merge stops with an
    exception: a value that is not a dict, met where the source has a
    non-empty dict, supports neither [in] nor item assignment. *)
Fixpoint _merge_recursive (destination source : dict) {struct source}
    : dict * option exc :=
  match source with
  | DNil => (destination, None)
  | DItem key val rest =>
      match val with
      | VDict sub =>
          match dict_get destination key with
          | Some (VDict inner) =>
              let '(inner, raised) := _merge_recursive inner sub in
              let destination := dict_set destination key (VDict inner) in
              match raised with
              | Some e => (destination, Some e)
              | None => _merge_recursive destination rest
              end
          | Some _ =>
              match sub with
              | DNil => _merge_recursive destination rest
              | DItem _ _ _ => (destination, Some TypeError)
              end
          | None => _merge_recursive (dict_set destination key val) rest
          end
      | _ => _merge_recursive (dict_set destination key val) rest
      end
  end.

(** The loop of [get]: [assigned] is the variable [value], unbound
    before the first iteration. *)
Fixpoint get_loop (settings_dict : value) (keys : list string)
    (assigned : option value) : res value :=
  match keys with
  | [] =>
      match assigned with
      | None => Throw UnboundLocalError
      | Some v => Done v
      end
  | key :: keys =>
      match settings_dict with
      | VDict d =>
          let v := default VNone (dict_get d key) in
          get_loop v keys (Some v)
      | _ => Throw AttributeError
      end
  end.

(** [get(self, keys)], [self._settings] being the dict [settings]. *)
Definition get (settings : dict) (keys : list string) : res value :=
  get_loop (VDict settings) keys None.

(** [setval(self, settings_update)]; [setval_and_save] does the same to
    the settings and then starts the timer that runs [save]. *)
Definition setval (settings settings_update : dict) : dict * option exc :=
  _merge_recursive settings settings_update.

(** The dict [{k1: {k2: ... {kn: v}}}] for the keys [k1 .. kn]. *)
Fixpoint nested (keys : list string) (v : value) : value :=
  match keys with
  | [] => v
  | key :: keys => VDict (DItem key (nested keys v) DNil)
  end.

Definition is_dict (v : value) : bool :=
  match v with VDict _ => true | _ => false end.

(** Neither a dict nor a [Path]. *)
Definition is_leaf (v : value) : bool :=
  match v with VDict _ | VPath _ => false | _ => true end.

(** What [pathlib] computes, on paths represented by their strings. *)
Record Pathlib : Type := {
  Path : string -> string;
    (* [Path(s)] for a string [s] *)
  is_absolute : string -> bool;
  under_root : string -> string;
    (* [ROOT_DIR / p] *)
  relative_to_root : string -> option string
    (* [p.relative_to(ROOT_DIR)], which raises [ValueError] for a path
       outside [ROOT_DIR] *)
}.

(** [key.endswith(ext)] *)
Definition endswith (key ext : string) : bool :=
  bool_decide (String.length ext <= String.length key)%nat &&
  String.eqb
    (String.substring (String.length key - String.length ext)
                      (String.length ext) key)
    ext.

(** values ending with these strings are paths *)
Definition PATH_EXT : list string := ["dir"; "image"].

Definition is_path_key (key : string) : bool :=
  existsb (endswith key) PATH_EXT.

(** The new value of an entry whose path is expanded: [Path(val)] when
    that is absolute and [ROOT_DIR / val] otherwise; [Path(val)] raises
    unless [val] is a string or a path. *)
Definition expand_path (lib : Pathlib) (val : value) : res value :=
  match val with
  | VStr s =>
      if is_absolute lib (Path lib s) then Done (VPath (Path lib s))
      else Done (VPath (under_root lib s))
  | VPath p =>
      if is_absolute lib p then Done (VPath p)
      else Done (VPath (under_root lib p))
  | _ => Throw TypeError
  end.

(** [_expand_paths(settings_dict)].  The dict is changed in place, entry
    after entry, so the entries before an exception stay expanded and
    those after it stay as they were. *)
Fixpoint _expand_paths (lib : Pathlib) (settings_dict : dict)
    : dict * option exc :=
  match settings_dict with
  | DNil => (DNil, None)
  | DItem key val rest =>
      match val with
      | VDict sub =>
          (* if the value is a dictionary, recursively process it *)
          let '(sub, raised) := _expand_paths lib sub in
          match raised with
          | Some e => (DItem key (VDict sub) rest, Some e)
          | None =>
              let '(rest, raised) := _expand_paths lib rest in
              (DItem key (VDict sub) rest, raised)
          end
      | _ =>
          if is_path_key key then
            (* this entry needs it's path expanded *)
            match expand_path lib val with
            | Throw e => (DItem key val rest, Some e)
            | Done val =>
                let '(rest, raised) := _expand_paths lib rest in
                (DItem key val rest, raised)
            end
          else
            let '(rest, raised) := _expand_paths lib rest in
            (DItem key val rest, raised)
      end
  end.

(** [_collapse_paths(settings_dict)]: every [Path] becomes a string,
    relative to [ROOT_DIR] where that is possible. *)
Fixpoint _collapse_paths (lib : Pathlib) (settings_dict : dict) : dict :=
  match settings_dict with
  | DNil => DNil
  | DItem key val rest =>
      let val :=
        match val with
        | VDict sub => VDict (_collapse_paths lib sub)
        | VPath p => VStr (default p (relative_to_root lib p))
        | _ => val
        end in
      DItem key val (_collapse_paths lib rest)
  end.

(** [save(self)].  [dump settings] is the outcome of opening the file and
    of [json.dump]. *)
Definition save (lib : Pathlib) (dump : dict -> res unit) (settings : dict)
    : dict * option exc :=
  (* turn paths back into strings *)
  let settings := _collapse_paths lib settings in
  match dump settings with
  | Throw e => (settings, Some e)
  | Done _ =>
      (* turn paths into Paths objects *)
      _expand_paths lib settings
  end.

(** [Settings.DEFAULT_SETTINGS] *)
Definition DEFAULT_SETTINGS : dict :=
  DItem "user" (VDict (
    DItem "art_refresh_rate" (VInt 240) (
    DItem "art_refresh_enabled" (VBool true) (
    DItem "ai_marketplace_url" (VStr "http://127.0.0.1:5000") (
    DItem "timezone" (VStr "") (
    DItem "display_off_enabled" (VBool false) (
    DItem "display_off_time" (VStr "22:30") (
    DItem "display_on_time" (VStr "08:00") (
    DItem "gpio_skip" (VInt 16) (
    DItem "gpio_like" (VInt 20) (
    DItem "gpio_setup" (VInt 21) DNil))))))))))) (
  DItem "art" (VDict (
    DItem "preferred_genres" (VList []) (
    DItem "last_refresh_time" VNone (
    DItem "artwork_dir" (VStr "artwork") (
    DItem "current_artwork" VNone DNil))))) (
  DItem "display" (VDict (
    DItem "default_background_image"
      (VStr "resources/default_background.jpg") (
    DItem "default_image" (VStr "resources/default_image.png") DNil))) (
  DItem "server" (VDict (DItem "port" (VInt 8080) DNil)) (
  DItem "iota" (VDict (
    DItem "node" (VStr "https://nodes.devnet.iota.org:443") (
    DItem "addr_index" (VInt 0) (
    DItem "receive_address" VNone (
    DItem "seed" VNone DNil))))) DNil)))).

(** [Settings.__init__]: the default settings with their paths expanded. *)
Definition Settings_init (lib : Pathlib) : dict * option exc :=
  _expand_paths lib DEFAULT_SETTINGS.

End Settings.

(** ** [iotacanvas/webapp]: the settings routes *)

Module Webapp.
Import Settings.

(** [iota_settings(self)].  [dict_of v] is what [dict(v)] makes of a value
    that is not a dict (an exception for most, a dict for some strings
    and lists); [save_address_qr] is the outcome of writing the QR code of
    the receiving address. *)
Definition iota_settings (settings : dict) (dict_of : value -> res dict)
    (save_address_qr : res unit) : res dict :=
  match get settings ["iota"] with
  | Throw e => Throw e
  | Done section =>
      match match section with VDict d => Done d | v => dict_of v end with
      | Throw e => Throw e
      | Done iota_config =>
          (* don't send seed *)
          match dict_get iota_config "seed" with
          | None => Throw KeyError
          | Some _ =>
              let iota_config := dict_del iota_config "seed" in
              match save_address_qr with
              | Throw e => Throw e
              | Done _ => Done iota_config
              end
          end
      end
  end.

(** What a call of [update_settings] leaves behind: the settings when the
    request returns, with the exception that ended it if there is one, and
    the settings once the timer that [setval_and_save] started has run
    [save] (if it was started, is not cancelled by a later call, and the
    settings are not changed in between), with the exception that ended
    [save]. *)
Record Updated : Type := {
  at_return : dict * option exc;
  after_save : option (dict * option exc)
}.

(** [update_settings(self)] with the JSON body [data]. *)
Definition update_settings (lib : Pathlib) (dump : dict -> res unit)
    (settings : dict) (data : value) : Updated :=
  let data_wrapper := DItem "user" data DNil in
  (* self.app_settings.setval_and_save(data_wrapper, save_delay=15) *)
  let '(settings, raised) := setval settings data_wrapper in
  {| at_return := (settings, raised);
     after_save :=
       match raised with
       | Some _ => None
       | None => Some (save lib dump settings)
       end |}.

End Webapp.
(** ** [iotacanvas/common/iotautil.py] *)

Module ClientIota.
Import Settings.

(** The update [{k1: {k2: v}}]. *)
Definition update2 (k1 k2 : string) (v : value) : dict :=
  DItem k1 (VDict (DItem k2 v DNil)) DNil.

(** [index + n] and [index - n] for a settings value [index]. *)
Definition py_add (index : value) (n : Z) : res value :=
  match index with
  | VInt i => Done (VInt (i + n))
  | VBool b => Done (VInt (Z.b2z b + n))
  | _ => Throw TypeError
  end.

Definition py_sub (index : value) (n : Z) : res value :=
  match index with
  | VInt i => Done (VInt (i - n))
  | VBool b => Done (VInt (Z.b2z b - n))
  | _ => Throw TypeError
  end.

(** [setval_and_save] as a step that may raise. *)
Definition setval_and_save (settings settings_update : dict)
    : dict * res unit :=
  let '(settings, raised) := setval settings settings_update in
  (settings, match raised with Some e => Throw e | None => Done tt end).

(** [generate_address(self, num_addrs=1)].  [get_new_addresses index count]
    is the node's answer: the list of addresses, or an exception.  The
    index is advanced after the node has answered. *)
Definition generate_address (settings : dict)
    (get_new_addresses : value -> Z -> res (list string)) (num_addrs : Z)
    : dict * res string :=
  match get settings ["iota"; "addr_index"] with
  | Throw e => (settings, Throw e)
  | Done index =>
      match get_new_addresses index num_addrs with
      | Throw e => (settings, Throw e)
      | Done [] => (settings, Throw IndexError)
      | Done (address :: _) =>
          (* update the index in the settings *)
          match py_add index num_addrs with
          | Throw e => (settings, Throw e)
          | Done new_index =>
              let '(settings, saved) :=
                setval_and_save settings
                  (update2 "iota" "addr_index" new_index) in
              match saved with
              | Throw e => (settings, Throw e)
              | Done _ => (settings, Done address)
              end
          end
      end
  end.

(** [send_iota(self, amount, destination_address, message)].
    [proposed] is the outcome of building the [ProposedTransaction];
    [transfer stop_index change_address] is the outcome of the node calls
    inside the [try] ([get_inputs], [prepare_transfer], [send_trytes]): the
    first exception among them, if any. *)
Definition send_iota (settings : dict) (proposed : res unit)
    (get_new_addresses : value -> Z -> res (list string))
    (transfer : value -> string -> res unit) : dict * res unit :=
  match proposed with
  | Throw e => (settings, Throw e)
  | Done _ =>
      match generate_address settings get_new_addresses 1 with
      | (settings, Throw e) => (settings, Throw e)
      | (settings, Done change_address) =>
          match get settings ["iota"; "addr_index"] with
          | Throw e => (settings, Throw e)
          | Done stop_index =>
              let '(settings, tried) :=
                match transfer stop_index change_address with
                | Throw e => (settings, Throw e)
                | Done _ =>
                    setval_and_save settings
                      (update2 "iota" "receive_address" (VStr change_address))
                end in
              match tried with
              | Done _ => (settings, Done tt)
              | Throw e =>
                  (* rollback the address index that was used to generate
                     the change address (so it can be reused) *)
                  match py_sub stop_index 1 with
                  | Throw e' => (settings, Throw e')
                  | Done old_index =>
                      let '(settings, saved) :=
                        setval_and_save settings
                          (update2 "iota" "addr_index" old_index) in
                      match saved with
                      | Throw e' => (settings, Throw e')
                      | Done _ => (settings, Throw e)      (* [raise] *)
                      end
                  end
              end
          end
      end
  end.

End ClientIota.
(** ** [iotacanvas/iotacanvas.py]: refreshing the artwork *)

Module Refresh.
Import Settings.

(** seconds *)
Definition ART_CHECK_INTERVAL : Z := 30.
Definition MAX_CHECK_TIME : Z := 15 * 60.
(** amount of IOTA that is considered a low balance *)
Definition LOW_BALANCE_AMOUNT : Z := 100.

(** The JSON body that [request-art] answers with. *)
Record ArtRequest : Type := {
  iota_addr : string;
  status_addr : string;
  retrieve_addr : string;
  key : string
}.

(** What a run of [_refresh_artwork] meets outside its thread.  Time is
    counted in seconds. *)
Record World : Type := {
  attempt_time : Z;
    (* what the clock shows at the start of the run *)
  wall : Z -> Z;
    (* what [datetime.datetime.now()] shows at a given time *)
  get_balance : res Z;
    (* [self.iota_interface.get_balance()] *)
  get_artist_list : string -> res (option (list Canvas.Artist));
    (* [requests.get(url).json()] for the artist list *)
  get_request_art : string -> res ArtRequest;
    (* [requests.get(url).json()] for the request of art *)
  send_iota : Z -> string -> dict -> dict * res unit;
    (* [self.iota_interface.send_iota(amount, address)], on the settings *)
  start_check : Z;
    (* the time at which [start_check] is read *)
  stop_set : nat -> bool;
    (* [self.stop_flag.is_set()] at the [k]-th test of the loop *)
  early : nat -> nat;
    (* seconds that the wait of iteration [k] lasts when the flag is set
       by the next test *)
  latency : nat -> nat;
    (* seconds that the status request of iteration [k] takes *)
  post_status : nat -> string -> string -> res string;
    (* the field [status] of the answer to the status request of
       iteration [k], given the URL and the key *)
  post_retrieve : string -> string -> res string;
    (* the content served by the retrieval route, given URL and key *)
  what : string -> option string;
    (* [imghdr.what(None, h=artwork)] *)
  uuid4_hex8 : string;
  write_file : value -> string -> string -> res unit;
    (* writing the content under the file name in the directory *)
  refresh_time : string
    (* the formatted clock at the end *)
}.

(** The state that a run reads and leaves behind; [sent] and [checks]
    record the calls of [send_iota] and the number of status requests. *)
Record State : Type := {
  app_settings : dict;
  _event_q : Synchro.EventQueue;
  _last_refresh_attempt : option Z;
  sent : list (Z * string);
  checks : nat
}.

Definition put (st : State) (event_name : string) (data : option string)
    : State :=
  {| app_settings := app_settings st;
     _event_q := Synchro.put (_event_q st) event_name data 100;
     _last_refresh_attempt := _last_refresh_attempt st;
     sent := sent st;
     checks := checks st |}.

(** The wall clock is not stepped while the refresh runs: its readings
    differ by the time that has passed. *)
Definition unstepped (w : World) : Prop :=
  forall s t, wall w t - wall w s = t - s.

(** The loop that waits for the commissioned artwork: [k] status requests
    were made so far, the time is [now].  The result is the last status,
    or the exception of a status request, with the number of requests
    made.  Without fuel the loop is still running. *)
Fixpoint check_loop (fuel : nat) (w : World) (url key : string)
    (k : nat) (now : Z) (last : string) : option (res string * nat) :=
  if bool_decide (last <> "completed")
     && bool_decide (wall w (start_check w) + MAX_CHECK_TIME > wall w now)
     && negb (stop_set w k) then
    match fuel with
    | O => None
    | S fuel =>
        (* self.stop_flag.wait(ART_CHECK_INTERVAL) *)
        let waited :=
          if stop_set w (S k) then Z.of_nat (early w k)
          else ART_CHECK_INTERVAL in
        let now := now + waited + Z.of_nat (latency w k) in
        match post_status w k url key with
        | Throw e => Some (Throw e, S k)
        | Done last => check_loop fuel w url key (S k) now last
        end
    end
  else Some (Done last, k).

Definition could_not_contact : option string :=
  Some "Could not contact AI Marketplace.".


(** Steps 5 and 6 of [_refresh_artwork], after the payment. *)
Definition await_artwork (fuel : nat) (w : World) (marketplace : string)
    (art_request : ArtRequest) (st : State) : option (State * res unit) :=
  (* 5. check if the artwork is ready yet *)
  match check_loop fuel w
          (marketplace +:+ status_addr art_request) (key art_request)
          0 (start_check w) "unknown" with
  | None => None
  | Some (outcome, k) =>
  let st := {| app_settings := app_settings st; _event_q := _event_q st;
               _last_refresh_attempt := _last_refresh_attempt st;
               sent := sent st; checks := checks st + k |} in
  match outcome with
  | Throw ConnectionError => Some (put st "ERROR" could_not_contact, Done tt)
  | Throw e => Some (st, Throw e)
  | Done last =>
  if bool_decide (last <> "completed") then
    (* request timed out *)
    Some (st, Done tt)
  else
  (* 6. get artwork *)
  match post_retrieve w (marketplace +:+ retrieve_addr art_request)
                      (key art_request) with
  | Throw ConnectionError => Some (put st "ERROR" could_not_contact, Done tt)
  | Throw e => Some (st, Throw e)
  | Done artwork =>
  (* check what type of file the artwork is *)
  let ext := what w artwork in
  match get (app_settings st) ["art"; "artwork_dir"] with
  | Throw e => Some (st, Throw e)
  | Done artwork_dir =>
  match ext with
  | None => Some (st, Throw TypeError)       (* ['.' + None] *)
  | Some ext =>
  let filename := uuid4_hex8 w +:+ "." +:+ ext in
  match write_file w artwork_dir filename artwork with
  | Throw e => Some (st, Throw e)
  | Done _ =>
  let '(settings, saved) :=
    ClientIota.setval_and_save (app_settings st)
      (DItem "art"
         (VDict (DItem "last_refresh_time" (VStr (refresh_time w))
                   (DItem "current_artwork" (VStr filename) DNil)))
         DNil) in
  let st := {| app_settings := settings; _event_q := _event_q st;
               _last_refresh_attempt := _last_refresh_attempt st;
               sent := sent st; checks := checks st |} in
  match saved with
  | Throw e => Some (st, Throw e)
  | Done _ =>
      (* send event to main loop to display new artwork *)
      Some (put st "ARTWORK_UPDATED" None, Done tt)
  end end end end end end end.

(** [_refresh_artwork(self)], with the fuel of its waiting loop: the state
    afterwards and the way the call ends.  The marketplace URL is
    concatenated with a string at the first request, which raises
    [TypeError] unless it is a string itself. *)
Definition _refresh_artwork (fuel : nat) (w : World) (st : State)
    : option (State * res unit) :=
  let st := {| app_settings := app_settings st; _event_q := _event_q st;
               _last_refresh_attempt := Some (attempt_time w);
               sent := sent st; checks := checks st |} in
  (* 0. check the current balance is not too low *)
  match get_balance w with
  | Throw e => Some (st, Throw e)
  | Done balance =>
  if bool_decide (balance < LOW_BALANCE_AMOUNT) then
    Some (put st "LOW_BALANCE" None, Done tt)
  else
  (* 1. get the artist list *)
  match get (app_settings st) ["user"; "ai_marketplace_url"] with
  | Throw e => Some (st, Throw e)
  | Done (VStr marketplace) =>
  match get_artist_list w (marketplace +:+ "/artist-list") with
  | Throw ConnectionError => Some (put st "ERROR" could_not_contact, Done tt)
  | Throw e => Some (st, Throw e)
  | Done artist_list =>
  (* 2. choose an artist *)
  match Canvas.choose_artist artist_list with
  | Raise _ => Some (st, Throw ValueError)
  | Ok artist =>
  (* 3. request art from the selected artist *)
  match get_request_art w
          (marketplace +:+ "/" +:+ pretty (Canvas.id artist)
           +:+ "/request-art") with
  | Throw ConnectionError => Some (put st "ERROR" could_not_contact, Done tt)
  | Throw e => Some (st, Throw e)
  | Done art_request =>
  (* 4. send iota to AI Marketplace *)
  let '(settings, paid) :=
    send_iota w (Canvas.cost artist) (iota_addr art_request)
              (app_settings st) in
  let st := {| app_settings := settings; _event_q := _event_q st;
               _last_refresh_attempt := _last_refresh_attempt st;
               sent := sent st ++ [(Canvas.cost artist, iota_addr art_request)];
               checks := checks st |} in
  match paid with
  | Throw ValueError =>
      (* balance too low - send event to show settings page *)
      Some (put st "LOW_BALANCE" None, Done tt)
  | Throw e => Some (st, Throw e)
  | Done _ => await_artwork fuel w marketplace art_request st
  end end end end
  | Done _ => Some (st, Throw TypeError)
  end end.



End Refresh.

(** ** More sample data *)

Module MoreSamples.
Import Num Schema.

(** The payment of 1000 is seen at the first query. *)
Definition paid (run : result string) : Artist.World :=
  {| Artist.start_time := 0;
     Artist.wall := fun t => t;
     Artist.elapsed := fun _ => 2%nat;
     Artist.get_account_data := fun _ _ _ => Ok 1000;
     Artist.run := run;
     Artist.run_elapsed := 5%nat |}.

(** Nobody pays, the node answers at once, and the clock is set back by
    an hour five minutes after the start (the end of daylight saving
    time). *)
Definition set_back : Artist.World :=
  {| Artist.start_time := 0;
     Artist.wall := fun t => if bool_decide (t < 300) then t else t - 3600;
     Artist.elapsed := fun _ => 0%nat;
     Artist.get_account_data := fun _ _ _ => Ok 0;
     Artist.run := Ok "a41c09be.png";
     Artist.run_elapsed := 5%nat |}.

Definition allocator : Iotautil.IotaUtil := {| Iotautil.id := 1 |}.

Definition node_up : number -> result string := fun _ => Ok "ADDR9".
Definition node_down : number -> result string :=
  fun _ => Raise (External "node unreachable").

Definition cubist : ArtistRow :=
  {| code := "5e1f0a77/cubist"; surcharge := Int 250;
     average_time := Some (Int 5) |}.

Definition fauvist : ArtistRow :=
  {| code := "9b2d4c10/fauvist"; surcharge := Int 50;
     average_time := Some (Int 7) |}.

Definition job_of (key : string) (index ai : Z) : JobRow :=
  {| access_key := key; addr_index := Int index; ai_id := ai;
     completed := None; filename := None |}.

(** Three artists, three pending jobs with the address indices 4, 5 and
    6, the counter at 7. *)
Definition db2 : Db :=
  {| artist := {[ 1 := Samples.painter; 3 := cubist; 4 := fauvist ]};
     job := {[ 2 := job_of "8277e0910d750195" 4 1;
               4 := job_of "5d41402abc4b2a76" 5 1;
               6 := job_of "e4da3b7fbbce2345" 6 3 ]};
     iota := {[ 1 := {| seed := "SEED9"; iota_addr_index := Int 7 |} ]} |}.

(** The counter at the largest integer of SQLite. *)
Definition db_full : Db :=
  {| artist := {[ 1 := Samples.painter ]};
     job := ∅;
     iota := {[ 1 := {| seed := "SEED9"; iota_addr_index := Int INT64_MAX |} ]} |}.

(** The artists of [db2] as [artist_list] reads them; their costs are
    1000, 750 and 750. *)
Definition listing : list Requests.Listed :=
  [ {| Requests.l_id := 1; Requests.l_surcharge := Int 0;
       Requests.l_average_time := None;
       Requests.l_genre_name := "cubism" |};
    {| Requests.l_id := 3; Requests.l_surcharge := Int 250;
       Requests.l_average_time := Some (Int 5);
       Requests.l_genre_name := "cubism" |};
    {| Requests.l_id := 4; Requests.l_surcharge := Int 50;
       Requests.l_average_time := Some (Int 7);
       Requests.l_genre_name := "fauvism" |} ].

(** The payment of 750 is seen at the first query. *)
Definition paid_750 : Artist.World :=
  {| Artist.start_time := 0;
     Artist.wall := fun t => t;
     Artist.elapsed := fun _ => 2%nat;
     Artist.get_account_data := fun _ _ _ => Ok 750;
     Artist.run := Ok "a41c09be.png";
     Artist.run_elapsed := 5%nat |}.

(** The art directory holds the one file. *)
Definition art_dir : string -> bool := fun name => String.eqb name "a41c09be.png".

(** Paths under the root directory [/home/pi/iotacanvas]. *)
Definition ROOT_DIR : string := "/home/pi/iotacanvas/".

Definition posix : Settings.Pathlib :=
  {| Settings.Path := fun s => s;
     Settings.is_absolute := String.prefix "/";
     Settings.under_root := fun s => ROOT_DIR +:+ s;
     Settings.relative_to_root := fun p =>
       if String.prefix ROOT_DIR p
       then Some (String.substring (String.length ROOT_DIR)
                    (String.length p - String.length ROOT_DIR) p)
       else None |}.

(** The client's settings once a seed is stored. *)
Definition settings : Settings.dict :=
  (Settings.setval (Settings.Settings_init posix).1
     (ClientIota.update2 "iota" "seed" (Settings.VStr "SEED9"))).1.

Definition node_addresses
    : Settings.value -> Z -> Settings.res (list string) :=
  fun _ _ => Settings.Done ["CHANGE9"].

Definition half_past_nine : Monitor.TimeOfDay :=
  {| Monitor.hour := 21; Monitor.minute := 30 |}.
Definition eight : Monitor.TimeOfDay :=
  {| Monitor.hour := 8; Monitor.minute := 0 |}.
Definition half_past_ten : Monitor.TimeOfDay :=
  {| Monitor.hour := 22; Monitor.minute := 30 |}.

(** A marketplace that lists [artists], accepts the request, and reports
    "in_progress" for ever; the payment goes through; what the clock shows
    at time [t] is [wall t]. *)
Definition marketplace (artists : list Canvas.Artist) (wall : Z -> Z)
    : Refresh.World :=
  {| Refresh.attempt_time := 0;
     Refresh.wall := wall;
     Refresh.get_balance := Settings.Done 5000;
     Refresh.get_artist_list := fun _ => Settings.Done (Some artists);
     Refresh.get_request_art := fun _ =>
       Settings.Done {| Refresh.iota_addr := "ADDR9";
                        Refresh.status_addr := "/4/status";
                        Refresh.retrieve_addr := "/4/retrieve-art";
                        Refresh.key := "5d41402abc4b2a76" |};
     Refresh.send_iota := fun _ _ s => (s, Settings.Done tt);
     Refresh.start_check := 10;
     Refresh.stop_set := fun _ => false;
     Refresh.early := fun _ => 0%nat;
     Refresh.latency := fun _ => 1%nat;
     Refresh.post_status := fun _ _ _ => Settings.Done "in_progress";
     Refresh.post_retrieve := fun _ _ => Settings.Throw Settings.ConnectionError;
     Refresh.what := fun _ => Some "png";
     Refresh.uuid4_hex8 := "0be5d7c3";
     Refresh.write_file := fun _ _ _ => Settings.Done tt;
     Refresh.refresh_time := "03-11-2019 10:00:00:000000" |}.

Definition idle : Refresh.State :=
  {| Refresh.app_settings := settings;
     Refresh._event_q := Synchro.EventQueue_init;
     Refresh._last_refresh_attempt := None;
     Refresh.sent := [];
     Refresh.checks := 0 |}.

End MoreSamples.

(** * Properties *)

(** ** Numbers *)

Section NumFacts.
Import Num.

(** Rounding keeps the sign. *)
Lemma binary_round_aux_sign s m e l :
  match binary_round_aux prec emax s m e l with
  | S754_zero s' | S754_infinity s' | S754_finite s' _ _ => s' = s
  | S754_nan => True
  end.
Proof.
  unfold binary_round_aux.
  destruct (shr_fexp prec emax m e l) as [mrs' e'].
  destruct (shr_fexp prec emax _ e' loc_Exact) as [mrs'' e''].
  destruct (shr_m mrs''); [done| |done].
  by destruct (Z.leb e'' (emax - prec)).
Qed.

Lemma binary_round_sign s m e :
  match binary_round prec emax s m e with
  | S754_zero s' | S754_infinity s' | S754_finite s' _ _ => s' = s
  | S754_nan => True
  end.
Proof.
  unfold binary_round. destruct (shl_align _ _ _) as [mz ez].
  apply binary_round_aux_sign.
Qed.

(** The sum and the product of two floats that are not negative is not
    negative, unless it is a NaN. *)
Lemma float_of_nonneg m e :
  0 <= m -> float_nonneg (float_of m e) = true \/ float_of m e = S754_nan.
Proof.
  intros Hm. unfold float_of, binary_normalize.
  destruct m as [|m|m]; [by left| |lia].
  pose proof (binary_round_sign false m e) as Hs.
  destruct (binary_round prec emax false m e); subst; auto.
Qed.

Lemma SFmul_nonneg x y :
  float_nonneg x = true \/ x = S754_nan ->
  float_nonneg y = true \/ y = S754_nan ->
  float_nonneg (SFmul prec emax x y) = true \/ SFmul prec emax x y = S754_nan.
Proof.
  intros [Hx| ->] [Hy| ->]; [|destruct x; auto|auto|auto].
  destruct x as [sx|sx| |sx mx ex], y as [sy|sy| |sy my ey];
    cbn in Hx, Hy |- *; try apply negb_true_iff in Hx;
    try apply negb_true_iff in Hy; subst; auto.
  pose proof (binary_round_aux_sign false (Z.pos (mx * my)) (ex + ey)
                loc_Exact) as Hs.
  destruct (binary_round_aux _ _ _ _ _ _); subst; auto.
Qed.

Lemma SFadd_nonneg x y :
  float_nonneg x = true \/ x = S754_nan ->
  float_nonneg y = true \/ y = S754_nan ->
  float_nonneg (SFadd prec emax x y) = true \/ SFadd prec emax x y = S754_nan.
Proof.
  intros [Hx| ->] [Hy| ->]; [|destruct x; auto|auto|auto].
  destruct x as [sx|sx| |sx mx ex], y as [sy|sy| |sy my ey];
    cbn in Hx, Hy |- *; try apply negb_true_iff in Hx;
    try apply negb_true_iff in Hy; subst; auto;
    try (destruct sx, sy; by auto); try (destruct sx; by auto);
    try (destruct sy; by auto).
  apply (float_of_nonneg _ (Z.min ex ey)). cbn. lia.
Qed.

Lemma to_float_nonneg n f :
  nonneg n -> to_float n = Ok f -> float_nonneg f = true \/ f = S754_nan.
Proof.
  destruct n as [z|g]; cbn.
  - intros Hz. pose proof (float_of_nonneg z 0 Hz) as Hf.
    destruct (float_of z 0); intros [= <-]; auto.
  - intros Hg [= <-]. auto.
Qed.

Lemma to_float_raise n e : to_float n = Raise e -> e = OverflowError.
Proof.
  destruct n as [z|g]; cbn; [|done].
  by destruct (float_of z 0); intros [= <-].
Qed.

(** [int] gives the integer part: what is left of the magnitude
    [m * 2^e] when the fraction is dropped. *)
Lemma int_truncates s m e :
  exists q,
    int (Float (S754_finite s m e)) = Ok (cond_Zopp s q) /\
    0 <= q /\
    q * 2 ^ Z.max 0 (- e) <= Z.pos m * 2 ^ Z.max 0 e
    < (q + 1) * 2 ^ Z.max 0 (- e).
Proof.
  exists (Z.shiftl (Z.pos m) e). split; [done|].
  destruct (Z.le_gt_cases 0 e) as [He|He].
  - rewrite Z.shiftl_mul_pow2 by done.
    rewrite (Z.max_l 0 (- e)), (Z.max_r 0 e) by lia.
    change (2 ^ 0) with 1. pose proof (Z.pow_pos_nonneg 2 e). nia.
  - rewrite Z.shiftl_div_pow2 by lia.
    rewrite (Z.max_r 0 (- e)), (Z.max_l 0 e) by lia.
    change (2 ^ 0) with 1. pose proof (Z.pow_pos_nonneg 2 (- e)) as Hp.
    pose proof (Z.div_mod (Z.pos m) (2 ^ (- e))) as Hdiv.
    pose proof (Z.mod_pos_bound (Z.pos m) (2 ^ (- e))) as Hmod.
    split; [apply Z.div_pos; lia|]. nia.
Qed.

Lemma int_nonneg f n :
  float_nonneg f = true \/ f = S754_nan -> int (Float f) = Ok n -> 0 <= n.
Proof.
  intros [Hf| ->]; [|done]. destruct f as [s|s| |s m e]; cbn in *; try done.
  - by intros [= <-].
  - apply negb_true_iff in Hf. subst s. intros [= <-]. cbn.
    apply Z.shiftl_nonneg. lia.
Qed.

Lemma int_raise n e : int n = Raise e -> e = OverflowError \/ e = ValueError.
Proof. destruct n as [z|[s|s| |s m x]]; cbn; intros [= <-]; auto. Qed.

Lemma bind_ok z : INT64_MIN <= z <= INT64_MAX -> bind z = Ok z.
Proof. intros Hz. unfold bind. by rewrite bool_decide_eq_true_2. Qed.

Lemma bind_raise z :
  ~ INT64_MIN <= z <= INT64_MAX -> bind z = Raise OverflowError.
Proof. intros Hz. unfold bind. by rewrite bool_decide_eq_false_2. Qed.

Lemma bind_inv z id : bind z = Ok id -> id = z.
Proof. unfold bind. case_bool_decide; by intros [= <-]. Qed.

Lemma sql_incr_int z :
  INT64_MIN <= z + 1 <= INT64_MAX -> sql_incr (Int z) = Int (z + 1).
Proof. intros Hz. unfold sql_incr. by rewrite bool_decide_eq_true_2. Qed.

(** The float of the samples: 0.015 is 8646911284551352 * 2^-59 in
    binary64, and a hundred times that is 1.5 exactly. *)
Example f0_015_value :
  Samples.f0_015 = S754_finite false 8646911284551352 (-59) /\
  Samples.f1_5 = S754_finite false 6755399441055744 (-52) /\
  SFmul prec emax Samples.f0_015 (float_of 100 0) = Samples.f1_5.
Proof. repeat split; by vm_compute. Qed.

End NumFacts.

(** ** The cost formula *)

Section CalcCostFacts.
Import Num Artist.

Example calc_cost_default_app :
  calc_cost create_app None (Int 0) None = Ok 1000 /\
  calc_cost create_app (Some (Int 7)) (Int 25) None = Ok 725 /\
  calc_cost create_app (Some (Float Samples.f1_5)) (Int 25) None = Ok 175.
Proof. repeat split; by vm_compute. Qed.

(** The cost is the formula of the specification followed by [int]. *)
Lemma calc_cost_unfold current_app average_time surcharge config :
  calc_cost current_app average_time surcharge config =
  cost_formula (default current_app config) average_time surcharge ≫= int.
Proof.
  unfold calc_cost, cost_formula. destruct config as [c|]; cbn [default];
    destruct (match average_time with
              | Some t => mul t _
              | None => _
              end) as [time_cost|e]; cbn; try done;
    destruct (add surcharge time_cost) as [total|e]; cbn; try done;
    by destruct (int total).
Qed.

(** The formula of two numbers that are not negative is not negative. *)
Lemma cost_formula_nonneg config average_time surcharge v :
  nonneg surcharge ->
  from_option nonneg True average_time ->
  0 <= TIME_COST config -> 0 <= DEFAULT_COST config ->
  cost_formula config average_time surcharge = Ok v ->
  match v with
  | Int z => 0 <= z
  | Float f => float_nonneg f = true \/ f = S754_nan
  end.
Proof.
  intros Hs Ht Hrate Hdef. unfold cost_formula.
  assert (forall a b c, nonneg a -> nonneg b -> add a b = Ok c ->
            match c with
            | Int z => 0 <= z
            | Float f => float_nonneg f = true \/ f = S754_nan
            end) as Hadd.
  { intros a b c Ha Hb. unfold add.
    destruct a as [x|x], b as [y|y]; cbn in Ha, Hb;
      [intros [= <-]; lia| | |].
    - destruct (to_float (Int x)) as [fx|e] eqn:Hx; cbn; [|done].
      intros [= <-]. apply SFadd_nonneg; [|by left].
      by apply (to_float_nonneg (Int x)).
    - destruct (to_float (Int y)) as [fy|e] eqn:Hy; cbn; [|done].
      intros [= <-]. apply SFadd_nonneg; [by left|].
      by apply (to_float_nonneg (Int y)).
    - cbn. intros [= <-]. apply SFadd_nonneg; by left. }
  assert (forall a b c, nonneg a -> nonneg b -> mul a b = Ok c ->
            match c with
            | Int z => 0 <= z
            | Float f => float_nonneg f = true \/ f = S754_nan
            end) as Hmul.
  { intros a b c Ha Hb. unfold mul.
    destruct a as [x|x], b as [y|y]; cbn in Ha, Hb;
      [intros [= <-]; nia| | |].
    - destruct (to_float (Int x)) as [fx|e] eqn:Hx; cbn; [|done].
      intros [= <-]. apply SFmul_nonneg; [|by left].
      by apply (to_float_nonneg (Int x)).
    - destruct (to_float (Int y)) as [fy|e] eqn:Hy; cbn; [|done].
      intros [= <-]. apply SFmul_nonneg; [by left|].
      by apply (to_float_nonneg (Int y)).
    - cbn. intros [= <-]. apply SFmul_nonneg; by left. }
  destruct average_time as [t|]; cbn in Ht |- *.
  - destruct (mul t (Int (TIME_COST config))) as [time_cost|e] eqn:Htc;
      cbn; [|done].
    pose proof (Hmul t (Int (TIME_COST config)) time_cost Ht Hrate Htc) as Hnn.
    destruct time_cost as [z|f].
    + by apply (Hadd surcharge (Int z)).
    + (* the product is a float: the sum is one as well *)
      unfold add. intros Hsum.
      assert (exists fs, to_float surcharge = Ok fs /\
                v = Float (SFadd prec emax fs f)) as (fs & Hfs & ->).
      { destruct surcharge as [s|s]; cbn in Hsum |- *.
        - destruct (match float_of s 0 with
                    | S754_infinity _ => Raise OverflowError
                    | g => Ok g
                    end) as [fs|e]; cbn in Hsum; [|done].
          injection Hsum as <-. by exists fs.
        - injection Hsum as <-. by exists s. }
      apply SFadd_nonneg; [|done]. by apply (to_float_nonneg surcharge).
  - by apply (Hadd surcharge (Int (DEFAULT_COST config))).
Qed.

Lemma arith_raise (op : spec_float -> spec_float -> spec_float) a b e :
  (x ← to_float a; y ← to_float b; Ok (Float (op x y))) = Raise e ->
  e = OverflowError.
Proof.
  destruct (to_float a) as [x|e1] eqn:Ha; cbn.
  - destruct (to_float b) as [y|e2] eqn:Hb; cbn; [done|].
    intros [= <-]. by apply to_float_raise in Hb.
  - intros [= <-]. by apply to_float_raise in Ha.
Qed.

Lemma add_raise a b e : add a b = Raise e -> e = OverflowError.
Proof.
  unfold add. destruct a, b; try done; apply (arith_raise (SFadd prec emax)).
Qed.

Lemma mul_raise a b e : mul a b = Raise e -> e = OverflowError.
Proof.
  unfold mul. destruct a, b; try done; apply (arith_raise (SFmul prec emax)).
Qed.

Lemma cost_formula_raise config average_time surcharge e :
  cost_formula config average_time surcharge = Raise e -> e = OverflowError.
Proof.
  unfold cost_formula. destruct average_time as [t|]; cbn.
  - destruct (mul t _) as [time_cost|e1] eqn:Hm; cbn.
    + apply add_raise.
    + intros [= <-]. by apply mul_raise in Hm.
  - apply add_raise.
Qed.

(** C1, as amended: [calc_cost] is a function of its arguments and of the
    configuration: it is [int] of [surcharge + DEFAULT_COST] when
    [average_time] is [None] and of [surcharge + average_time * TIME_COST]
    otherwise.  On integers that is the formula itself; when the formula
    gives a float [m * 2^e], the cost is its integer part, the fraction
    being dropped.  For a surcharge and an average time that are not
    negative (with rates that are not negative), a cost that is returned
    is a non-negative integer, and the call raises only where [int]
    refuses an infinity or a NaN or a float cannot hold an integer.
    [calc_cost(None, 0)] is [DEFAULT_COST]. *)
Theorem calc_cost_formula_and_sign
    (current_app : Config) (config : option Config)
    (average_time : option number) (surcharge : number) :
  nonneg surcharge ->
  from_option nonneg True average_time ->
  0 <= TIME_COST (default current_app config) ->
  0 <= DEFAULT_COST (default current_app config) ->
  calc_cost current_app average_time surcharge config
  = cost_formula (default current_app config) average_time surcharge ≫= int
  /\ (forall s, surcharge = Int s ->
        match average_time with
        | None =>
            calc_cost current_app average_time surcharge config
            = Ok (s + DEFAULT_COST (default current_app config))
        | Some (Int t) =>
            calc_cost current_app average_time surcharge config
            = Ok (s + t * TIME_COST (default current_app config))
        | Some (Float _) => True
        end)
  /\ (forall s m e,
        cost_formula (default current_app config) average_time surcharge
        = Ok (Float (S754_finite s m e)) ->
        exists q,
          calc_cost current_app average_time surcharge config
          = Ok (cond_Zopp s q) /\
          0 <= q /\
          q * 2 ^ Z.max 0 (- e) <= Z.pos m * 2 ^ Z.max 0 e
          < (q + 1) * 2 ^ Z.max 0 (- e))
  /\ (forall cost,
        calc_cost current_app average_time surcharge config = Ok cost ->
        0 <= cost)
  /\ (forall e,
        calc_cost current_app average_time surcharge config = Raise e ->
        e = OverflowError \/ e = ValueError)
  /\ calc_cost current_app None (Int 0) config
     = Ok (DEFAULT_COST (default current_app config)).
Proof.
  intros Hs Ht Hrate Hdef. rewrite !calc_cost_unfold.
  split; [done|]. split; [|split; [|split; [|split]]].
  - intros s ->. by destruct average_time as [[t|f]|].
  - intros s m e ->. apply int_truncates.
  - intros cost.
    destruct (cost_formula _ average_time surcharge) as [v|e] eqn:Hv;
      cbn; [|done].
    pose proof (cost_formula_nonneg _ _ _ _ Hs Ht Hrate Hdef Hv) as Hnn.
    destruct v as [z|f]; [by intros [= <-]|]. by apply int_nonneg.
  - intros e.
    destruct (cost_formula _ average_time surcharge) as [v|e'] eqn:Hv; cbn.
    + apply int_raise.
    + intros [= <-]. left. by apply cost_formula_raise in Hv.
  - done.
Qed.

Lemma calc_cost_formula_and_sign_witness :
  calc_cost create_app (Some (Int 7)) (Int 25) None = Ok (25 + 7 * 100)
  /\ (forall cost,
        calc_cost create_app (Some (Float Samples.f1_5)) (Int 25) None
        = Ok cost -> 0 <= cost)
  /\ calc_cost create_app None (Int 0) None = Ok 1000.
Proof.
  split; [|split].
  - apply (calc_cost_formula_and_sign create_app None (Some (Int 7)) (Int 25));
      cbn; (lia || reflexivity).
  - apply (calc_cost_formula_and_sign create_app None
             (Some (Float Samples.f1_5)) (Int 25));
      cbn; (lia || reflexivity).
  - apply (calc_cost_formula_and_sign create_app None (Some (Int 7)) (Int 25));
      cbn; (lia || reflexivity).
Defined.

(** C1, as stated, fails: for an average time of 0.015 seconds and no
    surcharge, the formula gives 1.5 under the default configuration and
    [calc_cost] returns 1, which is less. *)
Lemma calc_cost_truncates_fraction :
  nonneg (Int 0) /\
  nonneg (Float Samples.f0_015) /\
  cost_formula create_app (Some (Float Samples.f0_015)) (Int 0)
  = Ok (Float Samples.f1_5) /\
  calc_cost create_app (Some (Float Samples.f0_015)) (Int 0) None = Ok 1 /\
  SFltb (float_of 1 0) Samples.f1_5 = true.
Proof. repeat split; by vm_compute. Qed.

End CalcCostFacts.

(** ** Job lookup *)

Section GetJobFacts.
Import Num Schema Artist.

Lemma get_job_unfold db jobid key :
  INT64_MIN <= jobid <= INT64_MAX ->
  get_job db jobid key =
  match job db !! jobid with
  | None => Raise (HTTPException 404)
  | Some j =>
      if bool_decide (key = access_key j)
      then Ok {| v_access_key := access_key j;
                 v_completed := completed j;
                 v_filename := filename j |}
      else Raise (HTTPException 403)
  end.
Proof.
  intros Hid. unfold get_job. rewrite bind_ok by done. cbn.
  destruct (job db !! jobid) as [j|]; simpl; [|done].
  by repeat case_bool_decide.
Qed.

Lemma get_job_overflow db jobid key :
  ~ INT64_MIN <= jobid <= INT64_MAX ->
  get_job db jobid key = Raise OverflowError.
Proof. intros Hid. unfold get_job. by rewrite bind_raise. Qed.

(** C7, as amended: for a job id in the 64-bit range of SQLite, [get_job]
    aborts with 404 exactly when no job has the id, aborts with 403
    exactly when the job exists and the key differs from its
    [access_key], and otherwise returns the three selected columns of the
    stored row: its key, its completion time and its file name. *)
Theorem get_job_cases (db : Db) (jobid : Z) (key : string) :
  INT64_MIN <= jobid <= INT64_MAX ->
  (get_job db jobid key = Raise (HTTPException 404)
     <-> job db !! jobid = None) /\
  (get_job db jobid key = Raise (HTTPException 403)
     <-> exists j, job db !! jobid = Some j /\ key <> access_key j) /\
  (forall j, job db !! jobid = Some j -> key = access_key j ->
     get_job db jobid key
     = Ok {| v_access_key := access_key j;
             v_completed := completed j;
             v_filename := filename j |}) /\
  (forall v, get_job db jobid key = Ok v ->
     exists j, job db !! jobid = Some j /\ key = access_key j /\
       v_access_key v = access_key j /\
       v_completed v = completed j /\
       v_filename v = filename j).
Proof.
  intros Hid. rewrite get_job_unfold by done.
  destruct (job db !! jobid) as [j|] eqn:Hj.
  - case_bool_decide as Hk.
    + split; [done|]. split; [|split].
      * split; [done|]. by intros (j' & [= <-] & ?).
      * by intros ? [= <-].
      * intros v [= <-]. by exists j.
    + split; [split; [by intros [=]|done]|].
      split; [|split; [by intros ? [= <-]|done]].
      split; [|done]. by exists j.
  - split; [done|]. split; [|done]. split; [done|]. by intros (? & ? & ?).
Qed.

Lemma get_job_cases_witness :
  (get_job Samples.db1 3 "9f86d081884c7d65" = Raise (HTTPException 404)
     <-> job Samples.db1 !! 3 = None) /\
  get_job Samples.db1 1 "9f86d081884c7d65"
  = Ok {| v_access_key := "9f86d081884c7d65";
          v_completed := None; v_filename := None |} /\
  get_job (update_job Samples.db1 37 "a41c09be.png" 1) 1 "9f86d081884c7d65"
  = Ok {| v_access_key := "9f86d081884c7d65";
          v_completed := Some 37; v_filename := Some "a41c09be.png" |}.
Proof.
  split; [|split].
  - apply (get_job_cases Samples.db1 3 "9f86d081884c7d65"). by vm_compute.
  - destruct (get_job_cases Samples.db1 1 "9f86d081884c7d65")
      as (_ & _ & Hfound & _); [by vm_compute|].
    apply (Hfound (Samples.pending_job 1)); reflexivity.
  - destruct (get_job_cases (update_job Samples.db1 37 "a41c09be.png" 1) 1
                "9f86d081884c7d65")
      as (_ & _ & Hfound & _); [by vm_compute|].
    apply (Hfound {| access_key := "9f86d081884c7d65"; addr_index := Int 7;
                     ai_id := 1; completed := Some 37;
                     filename := Some "a41c09be.png" |}); reflexivity.
Defined.

(** C7, as stated, fails: no job has the id 2^63, and [get_job] does not
    abort with 404 for it: the query raises [OverflowError]. *)
Lemma get_job_huge_id :
  job Samples.db1 !! (2 ^ 63) = None /\
  get_job Samples.db1 (2 ^ 63) "9f86d081884c7d65" = Raise OverflowError /\
  get_job Samples.db1 (2 ^ 63) "9f86d081884c7d65"
  <> Raise (HTTPException 404).
Proof. repeat split; by vm_compute. Qed.

(** C9, as amended: a wrong key on an existing job is answered by the
    bare abort 403, the same for every content of the job row, and so
    reveals nothing of the job; the answer differs from the one to an
    unknown job id, which is the 404 for every id that SQLite can hold. *)
Theorem get_job_wrong_key (db : Db) (jobid : Z) (key : string) (j : JobRow) :
  INT64_MIN <= jobid <= INT64_MAX ->
  job db !! jobid = Some j ->
  key <> access_key j ->
  get_job db jobid key = Raise (HTTPException 403) /\
  (forall db' jobid', job db' !! jobid' = None ->
     (INT64_MIN <= jobid' <= INT64_MAX ->
      get_job db' jobid' key = Raise (HTTPException 404)) /\
     get_job db jobid key <> get_job db' jobid' key).
Proof.
  intros Hid Hj Hk. rewrite (get_job_unfold db) by done. rewrite Hj.
  rewrite bool_decide_eq_false_2 by done. split; [done|].
  intros db' jobid' Hnone.
  destruct (decide (INT64_MIN <= jobid' <= INT64_MAX)) as [Hid'|Hid'].
  - rewrite get_job_unfold, Hnone by done. by split.
  - rewrite get_job_overflow by done. by split.
Qed.

Lemma get_job_wrong_key_witness :
  get_job Samples.db1 1 "00000000" = Raise (HTTPException 403) /\
  get_job Samples.db1 3 "00000000" = Raise (HTTPException 404).
Proof.
  destruct (get_job_wrong_key Samples.db1 1 "00000000" (Samples.pending_job 1))
    as [H403 Hother]; [by vm_compute | reflexivity | discriminate |].
  split; [exact H403|]. apply (Hother Samples.db1 3); [reflexivity|].
  by vm_compute.
Defined.

(** C9, as stated, fails: job 1 exists, job 3 does not, and the same wrong
    key is answered by 403 for the one and by 404 for the other. *)
Lemma get_job_reveals_existence :
  job Samples.db1 !! 1 = Some (Samples.pending_job 1) /\
  "00000000" <> access_key (Samples.pending_job 1) /\
  job Samples.db1 !! 3 = None /\
  get_job Samples.db1 1 "00000000" = Raise (HTTPException 403) /\
  get_job Samples.db1 3 "00000000" = Raise (HTTPException 404) /\
  get_job Samples.db1 1 "00000000" <> get_job Samples.db1 3 "00000000".
Proof. repeat split; by vm_compute. Qed.

Example get_job_right_key :
  get_job Samples.db1 1 "9f86d081884c7d65"
  = Ok {| v_access_key := "9f86d081884c7d65";
          v_completed := None; v_filename := None |} /\
  retrieve_status Samples.db1 1 "9f86d081884c7d65"
  = Ok {| status_code := 409; body_status := "in_progress" |}.
Proof. split; reflexivity. Qed.

End GetJobFacts.
(** ** Choosing the artist *)

Section ChooseArtistFacts.
Import Canvas.

Lemma choose_loop_invariant (todo seen : list Artist) (i : nat) (b : Artist) :
  first_cheapest seen i b ->
  exists i', first_cheapest (seen ++ todo) i' (fold_left choose_step todo b).
Proof.
  revert seen i b.
  induction todo as [|a todo IH]; intros seen i b (Hi & Hmin & Hbefore).
  - exists i. by rewrite app_nil_r.
  - replace (seen ++ a :: todo) with ((seen ++ [a]) ++ todo)
      by by rewrite <- app_assoc.
    pose proof (lookup_lt_Some _ _ _ Hi) as Hlt.
    cbn [fold_left]. destruct (decide (cost b > cost a)) as [Hcmp|Hcmp];
      [replace (choose_step b a) with a
         by (unfold choose_step; by rewrite bool_decide_eq_true_2)
      |replace (choose_step b a) with b
         by (unfold choose_step; by rewrite bool_decide_eq_false_2)].
    + (* [a] is strictly cheaper: it becomes the best choice *)
      apply (IH (seen ++ [a]) (length seen) a). split; [|split].
      * by rewrite lookup_app_r, Nat.sub_diag by lia.
      * intros x [Hx | ->%list_elem_of_singleton]%elem_of_app; [|lia].
        specialize (Hmin x Hx). lia.
      * intros j x Hj Hx. rewrite lookup_app_l in Hx by lia.
        apply list_elem_of_lookup_2 in Hx. specialize (Hmin x Hx). lia.
    + (* [a] is not cheaper: the best choice stays *)
      apply (IH (seen ++ [a]) i b). split; [|split].
      * by rewrite lookup_app_l by lia.
      * intros x [Hx | ->%list_elem_of_singleton]%elem_of_app; [auto|lia].
      * intros j x Hj Hx. rewrite lookup_app_l in Hx by lia. eauto.
Qed.

(** C2: on a non-empty list [choose_artist] returns an element of minimal
    cost, and among the elements of minimal cost the first in listing
    order: every element before it costs strictly more. *)
Theorem choose_artist_first_cheapest (artist_list : list Artist) :
  artist_list <> [] ->
  exists i best,
    choose_artist (Some artist_list) = Ok best /\
    artist_list !! i = Some best /\
    (forall a, a ∈ artist_list -> cost best <= cost a) /\
    (forall j a, (j < i)%nat -> artist_list !! j = Some a ->
       cost best < cost a).
Proof.
  destruct artist_list as [|first rest]; [done|]. intros _.
  destruct (choose_loop_invariant rest [first] 0 first) as (i & H).
  { split; [done|]. split.
    - intros a ->%list_elem_of_singleton. lia.
    - intros j a Hj. lia. }
  exists i, (fold_left choose_step rest first). split; [|exact H].
  cbn [choose_artist fold_left].
  replace (choose_step first first) with first; [done|].
  unfold choose_step. by rewrite bool_decide_eq_false_2 by lia.
Qed.

Lemma choose_artist_first_cheapest_witness :
  exists i best,
    choose_artist (Some Samples.three_artists) = Ok best /\
    Samples.three_artists !! i = Some best /\
    (forall a, a ∈ Samples.three_artists -> cost best <= cost a) /\
    (forall j a, (j < i)%nat -> Samples.three_artists !! j = Some a ->
       cost best < cost a).
Proof.
  apply (choose_artist_first_cheapest Samples.three_artists). discriminate.
Defined.

(** On costs 5, 3, 3 the answer is the element at index 1. *)
Example choose_artist_three :
  choose_artist (Some Samples.three_artists) = Ok {| id := 11; cost := 3; genre_name := "pop art" |}
  /\ Samples.three_artists !! 1%nat
     = Some {| id := 11; cost := 3; genre_name := "pop art" |}.
Proof. split; reflexivity. Qed.

Example choose_artist_empty :
  choose_artist None = Raise ValueError /\
  choose_artist (Some []) = Raise ValueError.
Proof. split; reflexivity. Qed.

End ChooseArtistFacts.


(** ** Address allocation *)

Section AllocatorFacts.
Import Num Schema Iotautil.

(** A call while the counter is an integer below the largest one. *)
Lemma generate_address_row self node db c :
  counter self db = Some (Int c) ->
  INT64_MIN <= c < INT64_MAX ->
  generate_address self node db =
    (update_addr_index db (id self),
     address ← node (Int c); Ok (address, Int c))
  /\ counter self (update_addr_index db (id self)) = Some (Int (c + 1)).
Proof.
  unfold counter. intros Hc Hrange.
  destruct (iota db !! id self) as [row|] eqn:Hrow; [|done].
  injection Hc as Hc.
  unfold generate_address. cbn [update_addr_index iota].
  rewrite lookup_alter_eq, Hrow. cbn. rewrite Hc.
  rewrite sql_incr_int by (unfold INT64_MIN, INT64_MAX in *; lia). cbn.
  by replace (c + 1 - 1) with c by lia.
Qed.

Lemma generate_addresses_row self nodes :
  forall db c,
  counter self db = Some (Int c) ->
  INT64_MIN <= c ->
  c + Z.of_nat (length nodes) <= INT64_MAX ->
  (exists zs,
     returned_indices (generate_addresses self nodes db).2 = Int <$> zs /\
     StronglySorted Z.lt zs /\
     Forall (fun i => c <= i < c + Z.of_nat (length nodes)) zs)
  /\ counter self (generate_addresses self nodes db).1
     = Some (Int (c + Z.of_nat (length nodes))).
Proof.
  induction nodes as [|node nodes IH]; intros db c Hc Hmin Hmax.
  - cbn. rewrite Z.add_0_r. split; [|done].
    exists []. repeat split; constructor.
  - cbn [length] in Hmax.
    destruct (generate_address_row self node db c Hc) as [Hr Hc']; [lia|].
    cbn [generate_addresses]. rewrite Hr.
    destruct (IH (update_addr_index db (id self)) (c + 1) Hc')
      as ((zs & Hzs & Hsorted & Hall) & Hfinal); [lia|lia|].
    destruct (generate_addresses self nodes _) as [db2 rs].
    cbn [fst snd] in *. split.
    + unfold returned_indices in *. cbn [omap list_omap].
      destruct (node (Int c)) as [address|e]; cbn.
      * exists (c :: zs). cbn. rewrite <- Hzs. split; [done|]. split.
        -- constructor; [done|].
           eapply Forall_impl; [exact Hall|]. cbn. lia.
        -- constructor; [cbn [length]; lia|].
           eapply Forall_impl; [exact Hall|]. cbn. lia.
      * exists zs. split; [done|]. split; [done|].
        eapply Forall_impl; [exact Hall|]. cbn. lia.
    + rewrite Hfinal. do 2 f_equal. cbn [length]. lia.
Qed.

(** C8, as amended: in every sequence of calls to [generate_address] that
    keeps the counter within the 64-bit integers of SQLite, the indices
    that are returned are strictly increasing, hence pairwise distinct;
    and each call, whether the derivation of the address then succeeds or
    fails, hands the old value of the counter to the node after having
    stored the incremented value, so a failed derivation leaves a gap. *)
Theorem generate_address_fresh_indices
    (self : IotaUtil) (nodes : list (number -> result string)) (db : Db)
    (c : Z) :
  counter self db = Some (Int c) ->
  INT64_MIN <= c ->
  c + Z.of_nat (length nodes) <= INT64_MAX ->
  (exists zs,
     returned_indices (generate_addresses self nodes db).2 = Int <$> zs /\
     StronglySorted Z.lt zs /\
     Forall (fun i => c <= i < c + Z.of_nat (length nodes)) zs)
  /\ NoDup (returned_indices (generate_addresses self nodes db).2)
  /\ (forall node, c < INT64_MAX ->
        (generate_address self node db).2 =
          (address ← node (Int c); Ok (address, Int c))
        /\ counter self (generate_address self node db).1
           = Some (Int (c + 1)))
  /\ counter self (generate_addresses self nodes db).1
     = Some (Int (c + Z.of_nat (length nodes))).
Proof.
  intros Hc Hmin Hmax.
  destruct (generate_addresses_row self nodes db c Hc Hmin Hmax)
    as ((zs & Hzs & Hsorted & Hall) & Hfinal).
  split; [by exists zs|]. split; [|split; [|done]].
  - rewrite Hzs. assert (Inj eq eq Int) by (by intros x y [=]).
    apply (NoDup_fmap_2 Int).
    clear -Hsorted. induction Hsorted as [|i l _ IH Hlt]; constructor; [|done].
    intros Hin. rewrite Forall_forall in Hlt. specialize (Hlt i Hin). lia.
  - intros node Hlt.
    destruct (generate_address_row self node db c Hc) as [-> Hc']; [lia|].
    by split.
Qed.

(** Three calls from counter 7; the node fails at the second one: the
    indices 7 and 9 are returned, 8 is skipped, the counter ends at 10. *)
Example generate_addresses_gap :
  let ok := fun _ : number => Ok "ADDR9" in
  let down := fun _ : number => Raise (External "node unreachable") in
  let self := {| id := 1 |} in
  returned_indices (generate_addresses self [ok; down; ok] Samples.db1).2
  = [Int 7; Int 9] /\
  counter self (generate_addresses self [ok; down; ok] Samples.db1).1
  = Some (Int 10).
Proof. split; by vm_compute. Qed.

Lemma generate_address_fresh_indices_witness :
  NoDup (returned_indices
           (generate_addresses MoreSamples.allocator
              [MoreSamples.node_up; MoreSamples.node_down;
               MoreSamples.node_up] MoreSamples.db2).2) /\
  counter MoreSamples.allocator
    (generate_addresses MoreSamples.allocator
       [MoreSamples.node_up; MoreSamples.node_down; MoreSamples.node_up]
       MoreSamples.db2).1
  = Some (Int (7 + 3)).
Proof.
  destruct (generate_address_fresh_indices MoreSamples.allocator
              [MoreSamples.node_up; MoreSamples.node_down;
               MoreSamples.node_up] MoreSamples.db2 7)
    as (_ & Hnodup & _ & Hcounter);
    [reflexivity|by vm_compute|by vm_compute|].
  split; [exact Hnodup|exact Hcounter].
Defined.

(** C8, as stated, fails: when the counter holds the largest integer of
    SQLite, the incremented value is the REAL 2^63, which a further
    increment does not change; two calls in a row return the same index. *)
Lemma generate_address_repeats_index :
  counter MoreSamples.allocator MoreSamples.db_full = Some (Int (2 ^ 63 - 1)) /\
  returned_indices
    (generate_addresses MoreSamples.allocator
       [MoreSamples.node_up; MoreSamples.node_up] MoreSamples.db_full).2
  = [Float (float_of (2 ^ 63) 0); Float (float_of (2 ^ 63) 0)] /\
  ~ NoDup (returned_indices
             (generate_addresses MoreSamples.allocator
                [MoreSamples.node_up; MoreSamples.node_up]
                MoreSamples.db_full).2).
Proof.
  split; [by vm_compute|].
  assert (returned_indices
            (generate_addresses MoreSamples.allocator
               [MoreSamples.node_up; MoreSamples.node_up]
               MoreSamples.db_full).2
          = [Float (float_of (2 ^ 63) 0); Float (float_of (2 ^ 63) 0)]) as ->
    by by vm_compute.
  split; [done|]. intros Hnodup. apply NoDup_cons in Hnodup as [Hnotin _].
  apply Hnotin. by left.
Qed.

End AllocatorFacts.

(** ** The payment watcher *)

Section WatcherFacts.
Import Num Schema Artist.

Lemma poll_exit fuel w addr_index required deadline k now balance :
  ~ (balance < required /\ wall w now < deadline) ->
  poll fuel w addr_index required deadline k now balance
  = Some (Ok balance, k, now).
Proof.
  intros Hexit.
  assert (bool_decide (balance < required)
          && bool_decide (wall w now < deadline) = false) as Hcond.
  { apply andb_false_iff. rewrite !bool_decide_eq_false. lia. }
  destruct fuel; cbn [poll]; by rewrite Hcond.
Qed.

Lemma poll_iterate fuel w addr_index required deadline k now balance :
  balance < required -> wall w now < deadline ->
  poll (S fuel) w addr_index required deadline k now balance =
  let now' := now + BALANCE_CHECK_INTERVAL + Z.of_nat (elapsed w k) in
  match Iotautil.get_balance (get_account_data w k) addr_index with
  | Raise e => Some (Raise e, S k, now')
  | Ok balance => poll fuel w addr_index required deadline (S k) now' balance
  end.
Proof.
  intros Hb Hn. cbn [poll].
  by rewrite !bool_decide_eq_true_2 by done.
Qed.

(** A loop that has come to its end with some fuel comes to the same end
    with more. *)
Lemma poll_more_fuel w addr_index required deadline fuel :
  forall fuel' k now balance r,
  poll fuel w addr_index required deadline k now balance = Some r ->
  (fuel <= fuel')%nat ->
  poll fuel' w addr_index required deadline k now balance = Some r.
Proof.
  induction fuel as [|fuel IH]; intros fuel' k now balance r Hrun Hle.
  - destruct (decide (balance < required /\ wall w now < deadline))
      as [[Hb Hn]|Hexit].
    + cbn [poll] in Hrun. by rewrite !bool_decide_eq_true_2 in Hrun by done.
    + rewrite poll_exit in Hrun by done. by rewrite poll_exit by done.
  - destruct fuel' as [|fuel']; [lia|].
    destruct (decide (balance < required /\ wall w now < deadline))
      as [[Hb Hn]|Hexit].
    + rewrite poll_iterate in Hrun |- * by done. cbn zeta in *.
      destruct (Iotautil.get_balance _ _) as [b|e]; [|done].
      apply IH; [done|lia].
    + rewrite poll_exit in Hrun by done. by rewrite poll_exit by done.
Qed.


Lemma clock_at_mono w k k' : (k <= k')%nat -> clock_at w k <= clock_at w k'.
Proof.
  induction 1 as [|k' _ IH]; [lia|]. cbn [clock_at].
  unfold BALANCE_CHECK_INTERVAL. lia.
Qed.

(** With a clock that is not stepped, the loop compares the time that has
    passed with the waiting time. *)
Lemma unstepped_running w now wait_time :
  unstepped w ->
  wall w now < wall w (start_time w) + wait_time
  <-> now < start_time w + wait_time.
Proof. intros Hw. specialize (Hw (start_time w) now). lia. Qed.

(** The loop when no balance reaches the required amount and the clock
    is not stepped. *)
Lemma poll_never_paid fuel w addr_index required wait_time (D : nat) :
  unstepped w ->
  (forall i, exists b,
     Iotautil.get_balance (get_account_data w i) addr_index = Ok b /\
     b < required) ->
  (forall i, (elapsed w i <= D)%nat) ->
  forall k now balance,
  balance < required ->
  (Z.to_nat (start_time w + wait_time - now) <= fuel)%nat ->
  exists b n t,
    poll fuel w addr_index required (wall w (start_time w) + wait_time)
         k now balance = Some (Ok b, n, t)
    /\ b < required
    /\ (start_time w + wait_time <= now /\ t = now /\ n = k \/
        now < start_time w + wait_time /\ (k < n)%nat /\
        start_time w + wait_time <= t
        < start_time w + wait_time + BALANCE_CHECK_INTERVAL + Z.of_nat D).
Proof.
  intros Hw Hlow Hlat.
  induction fuel as [|fuel IH]; intros k now balance Hbal Hfuel.
  - exists balance, k, now.
    rewrite poll_exit by (rewrite unstepped_running by done; lia).
    split; [done|]. split; [done|]. left. lia.
  - destruct (decide (now < start_time w + wait_time)) as [Hnow|Hnow].
    + rewrite poll_iterate by (done || by apply unstepped_running).
      cbn zeta. destruct (Hlow k) as (b & -> & Hb).
      pose proof (Hlat k) as Hk.
      destruct (IH (S k)
                  (now + BALANCE_CHECK_INTERVAL + Z.of_nat (elapsed w k)) b Hb)
        as (b' & n & t & -> & Hb' & Hcase).
      { unfold BALANCE_CHECK_INTERVAL. lia. }
      exists b', n, t. split; [done|]. split; [done|]. right.
      unfold BALANCE_CHECK_INTERVAL in *. lia.
    + exists balance, k, now.
      rewrite poll_exit by (rewrite unstepped_running by done; lia).
      split; [done|]. split; [done|]. left. lia.
Qed.


(** The loop when the query of iteration [k] is the first to show the
    required balance. *)
Lemma poll_paid fuel w addr_index required deadline k b :
  (forall i, (i < k)%nat -> exists b',
     Iotautil.get_balance (get_account_data w i) addr_index = Ok b' /\
     b' < required) ->
  Iotautil.get_balance (get_account_data w k) addr_index = Ok b ->
  required <= b ->
  (forall i, (i <= k)%nat -> wall w (clock_at w i) < deadline) ->
  forall k0 balance,
  (k0 <= k)%nat ->
  balance < required ->
  (k - k0 < fuel)%nat ->
  poll fuel w addr_index required deadline k0 (clock_at w k0) balance
  = Some (Ok b, S k, clock_at w (S k)).
Proof.
  intros Hlow Hpaid Hb Hrunning.
  induction fuel as [|fuel IH]; intros k0 balance Hk0 Hbal Hfuel; [lia|].
  rewrite poll_iterate by (done || by apply Hrunning). cbn zeta.
  destruct (decide (k0 = k)) as [->|Hne].
  - rewrite Hpaid. change (clock_at w k + _ + _) with (clock_at w (S k)).
    by rewrite poll_exit by lia.
  - destruct (Hlow k0) as (b' & -> & Hb'); [lia|].
    apply (IH (S k0) b'); [lia|done|lia].
Qed.

(** The loop when no balance reaches the required amount and the clock
    shows the deadline, or more, at the test that follows [k] queries. *)
Lemma poll_unpaid fuel w addr_index required deadline k :
  (forall i, exists b,
     Iotautil.get_balance (get_account_data w i) addr_index = Ok b /\
     b < required) ->
  deadline <= wall w (clock_at w k) ->
  forall k0 balance,
  (k0 <= k)%nat ->
  balance < required ->
  (k - k0 <= fuel)%nat ->
  exists b n,
    poll fuel w addr_index required deadline k0 (clock_at w k0) balance
    = Some (Ok b, n, clock_at w n)
    /\ b < required /\ (n <= k)%nat.
Proof.
  intros Hlow Hreached.
  induction fuel as [|fuel IH]; intros k0 balance Hk0 Hbal Hfuel.
  - assert (k0 = k) as -> by lia. exists balance, k.
    by rewrite poll_exit by lia.
  - destruct (decide (wall w (clock_at w k0) < deadline)) as [Hnow|Hnow].
    + rewrite poll_iterate by done. cbn zeta.
      destruct (Hlow k0) as (b & -> & Hb).
      assert (k0 <> k) by (intros ->; lia).
      apply (IH (S k0) b); [lia|done|lia].
    + exists balance, k0. by rewrite poll_exit by lia.
Qed.




Lemma art_generator_info fuel job_id w config db j ai required :
  INT64_MIN <= job_id <= INT64_MAX ->
  job db !! job_id = Some j ->
  artist db !! ai_id j = Some ai ->
  calc_cost config (average_time ai) (surcharge ai) (Some config)
  = Ok required ->
  art_generator fuel job_id w config db =
  match poll fuel w (addr_index j) required
          (wall w (start_time w) + 60 * WAIT_PAYMENT config)
          0 (start_time w) 0 with
  | None => None
  | Some (Raise e, k, now) =>
      Some {| final := db; ending := Failed e; polls := k; clock := now |}
  | Some (Ok balance, k, now) =>
      if bool_decide (balance < required)
      then Some {| final := delete_job db job_id; ending := Cancelled;
                   polls := k; clock := now |}
      else
        match run w with
        | Raise e =>
            Some {| final := db; ending := Failed e; polls := k;
                    clock := now + Z.of_nat (run_elapsed w) |}
        | Ok fname =>
            Some {| final := update_job db
                               (wall w (now + Z.of_nat (run_elapsed w)))
                               fname job_id;
                    ending := Finished fname; polls := k;
                    clock := now + Z.of_nat (run_elapsed w) |}
        end
  end.
Proof.
  intros Hid Hj Hai Hcost. unfold art_generator.
  rewrite bind_ok by done. rewrite Hj. cbn [mbind option_bind].
  rewrite Hai. cbn [fmap option_fmap option_map]. by rewrite Hcost.
Qed.

(** However the watcher ends, its last word on the database is one of
    three. *)
Lemma art_generator_final fuel job_id w config db out :
  art_generator fuel job_id w config db = Some out ->
  final out = db \/ final out = delete_job db job_id \/
  exists t f, final out = update_job db t f job_id.
Proof.
  unfold art_generator.
  destruct (bind job_id) as [id|e] eqn:Hid; [|intros [= <-]; by left].
  apply bind_inv in Hid as ->.
  destruct (job db !! job_id ≫= _) as [[j ai]|]; [|intros [= <-]; by left].
  destruct (calc_cost _ _ _ _) as [required|e]; [|intros [= <-]; by left].
  destruct (poll _ _ _ _ _ _ _ _) as [[[[b|e] n] t]|]; [| |done].
  - case_bool_decide; [intros [= <-]; right; by left|].
    destruct (run w); intros [= <-]; [|by left].
    right; right. by eexists _, _.
  - intros [= <-]. by left.
Qed.

(** C4, as amended: when every observed balance stays below the required
    cost and the clock of the server is not stepped during the wait,
    [art_generator] deletes the job row; the deletion happens no earlier
    than the payment deadline after the start, and no later than the
    deadline plus one poll interval plus the longest time a balance query
    takes (so within one poll interval when the queries take no time); a
    status query for the job then aborts with 404. *)
Theorem art_generator_cancels_unpaid_job
    (job_id : Z) (w : World) (config : Config) (db : Db)
    (j : JobRow) (ai : ArtistRow) (required : Z) (D : nat) :
  INT64_MIN <= job_id <= INT64_MAX ->
  job db !! job_id = Some j ->
  artist db !! ai_id j = Some ai ->
  calc_cost config (average_time ai) (surcharge ai) (Some config)
  = Ok required ->
  0 <= WAIT_PAYMENT config ->
  0 < required ->
  (forall k, exists b,
     Iotautil.get_balance (get_account_data w k) (addr_index j) = Ok b /\
     b < required) ->
  unstepped w ->
  (forall k, (elapsed w k <= D)%nat) ->
  exists out,
    (forall fuel, (Z.to_nat (60 * WAIT_PAYMENT config) <= fuel)%nat ->
       art_generator fuel job_id w config db = Some out) /\
    ending out = Cancelled /\
    final out = delete_job db job_id /\
    job (final out) !! job_id = None /\
    start_time w + 60 * WAIT_PAYMENT config <= clock out /\
    clock out <= start_time w + 60 * WAIT_PAYMENT config
                 + BALANCE_CHECK_INTERVAL + Z.of_nat D /\
    (forall key,
       retrieve_status (final out) job_id key = Raise (HTTPException 404)).
Proof.
  intros Hid Hj Hai Hcost Hwait Hreq Hlow Hw Hlat.
  destruct (poll_never_paid (Z.to_nat (60 * WAIT_PAYMENT config)) w
              (addr_index j) required (60 * WAIT_PAYMENT config) D
              Hw Hlow Hlat 0%nat (start_time w) 0 Hreq)
    as (b & n & t & Hpoll & Hb & Hcase); [lia|].
  exists {| final := delete_job db job_id; ending := Cancelled;
            polls := n; clock := t |}.
  cbn [ending final clock].
  assert (job (delete_job db job_id) !! job_id = None) as Hgone
    by apply lookup_delete_eq.
  split; [|repeat split; try done].
  - intros fuel Hfuel.
    rewrite (art_generator_info _ _ _ _ _ _ _ _ Hid Hj Hai Hcost).
    rewrite (poll_more_fuel _ _ _ _ _ _ _ _ _ _ Hpoll Hfuel).
    by rewrite bool_decide_eq_true_2 by done.
  - lia.
  - unfold BALANCE_CHECK_INTERVAL in *. lia.
  - intros key. unfold retrieve_status.
    rewrite get_job_unfold by done. by rewrite Hgone.
Qed.



(** C5, as amended: the completion update sets [completed] to the time it
    is given and [filename] to the name it is given, keeping the other
    columns; it cannot fail, and a second one overwrites both columns;
    [art_generator] performs it at most once, with what the clock shows
    at that moment, and only when it ends as finished. *)
Theorem update_job_overwrites
    (db : Db) (job_id : Z) (j : JobRow) (now : Z) (fname : string) :
  job db !! job_id = Some j ->
  job (update_job db now fname job_id) !! job_id
  = Some {| access_key := access_key j; addr_index := addr_index j;
            ai_id := ai_id j;
            completed := Some now; filename := Some fname |}
  /\ (forall now' fname',
        update_job (update_job db now fname job_id) now' fname' job_id
        = update_job db now' fname' job_id)
  /\ (forall fuel w config out,
        art_generator fuel job_id w config db = Some out ->
        match ending out with
        | Finished fname' =>
            final out = update_job db (wall w (clock out)) fname' job_id
        | Cancelled => final out = delete_job db job_id
        | Failed _ => final out = db
        end).
Proof.
  intros Hj. split; [|split].
  - unfold update_job. cbn [job]. by rewrite lookup_alter_eq, Hj.
  - intros now' fname'. unfold update_job. cbn [artist job iota]. f_equal.
    apply map_eq. intros i. rewrite !lookup_alter.
    destruct (decide (job_id = i)); [|done].
    rewrite decide_True by done. by rewrite Hj.
  - intros fuel w config out. unfold art_generator.
    destruct (bind job_id) as [id|e] eqn:Hid; [|by intros [= <-]].
    apply bind_inv in Hid as ->.
    rewrite Hj. cbn.
    destruct (artist db !! ai_id j) as [ai|]; cbn; [|by intros [= <-]].
    destruct (calc_cost _ _ _ _) as [required|e]; [|by intros [= <-]].
    destruct (poll _ _ _ _ _ _ _ _) as [[[[b|e] n] t]|]; [| |done].
    + case_bool_decide; [by intros [= <-]|].
      destruct (run w); by intros [= <-].
    + by intros [= <-].
Qed.

Lemma art_generator_cancels_unpaid_job_witness :
  exists out,
    art_generator 600 1 (Samples.unpaid 0) create_app Samples.db1
    = Some out /\
    ending out = Cancelled /\
    job (final out) !! 1 = None /\
    600 <= clock out <= 630 /\
    retrieve_status (final out) 1 "9f86d081884c7d65"
    = Raise (HTTPException 404).
Proof.
  destruct (art_generator_cancels_unpaid_job 1 (Samples.unpaid 0) create_app
              Samples.db1 (Samples.pending_job 1) Samples.painter 1000 0)
    as (out & Hrun & Hend & _ & Hgone & Hlo & Hhi & Hstatus).
  - by vm_compute.
  - reflexivity.
  - reflexivity.
  - reflexivity.
  - vm_compute. discriminate.
  - reflexivity.
  - intros k. exists 0. split; reflexivity.
  - intros s t. reflexivity.
  - intros k. simpl. lia.
  - exists out. split; [apply Hrun; simpl; lia|]. split; [exact Hend|].
    split; [exact Hgone|]. split; [split; [exact Hlo|exact Hhi]|].
    apply Hstatus.
Defined.

(** C4, as stated, fails: under the default configuration (deadline 600
    seconds, poll interval 30 seconds), with a clock that is not stepped
    and a node that takes 16 seconds for each balance query, the unpaid
    job is deleted 644 seconds after the start. *)
Lemma art_generator_late_deletion :
  (forall k,
     Iotautil.get_balance (get_account_data (Samples.unpaid 16) k) (Int 7)
     = Ok 0) /\
  calc_cost create_app None (Int 0) (Some create_app) = Ok 1000 /\
  unstepped (Samples.unpaid 16) /\
  (ending <$> art_generator 600 1 (Samples.unpaid 16) create_app Samples.db1)
  = Some Cancelled /\
  (clock <$> art_generator 600 1 (Samples.unpaid 16) create_app Samples.db1)
  = Some 644 /\
  ~ 644 <= start_time (Samples.unpaid 16) + 60 * WAIT_PAYMENT create_app
           + BALANCE_CHECK_INTERVAL.
Proof.
  split; [done|]. split; [done|]. split; [by intros s t|].
  split; [by vm_compute|]. split; [by vm_compute|]. vm_compute. by intros H.
Qed.

(** A step of the clock alone delays the deletion as well: when the clock
    is set back by an hour five minutes after the start, the unpaid job
    is deleted 4200 seconds after the start, after 140 balance queries. *)
Example art_generator_clock_set_back :
  (ending <$> art_generator 600 1 MoreSamples.set_back create_app Samples.db1)
  = Some Cancelled /\
  (clock <$> art_generator 600 1 MoreSamples.set_back create_app Samples.db1)
  = Some 4200 /\
  (polls <$> art_generator 600 1 MoreSamples.set_back create_app Samples.db1)
  = Some 140%nat.
Proof. repeat split; by vm_compute. Qed.




Lemma update_job_overwrites_witness :
  job (update_job Samples.db1 100 "a41c09be.png" 1) !! 1
  = Some {| access_key := "9f86d081884c7d65"; addr_index := Int 7;
            ai_id := 1;
            completed := Some 100; filename := Some "a41c09be.png" |}.
Proof.
  apply (update_job_overwrites Samples.db1 1 (Samples.pending_job 1)
           100 "a41c09be.png").
  reflexivity.
Defined.

(** C5, as stated, fails: a second completion update of the same job is
    carried out like the first and replaces the time and the file name. *)
Lemma update_job_twice :
  (completed <$>
     job (update_job Samples.db1 100 "a41c09be.png" 1) !! 1)
  = Some (Some 100) /\
  job (update_job (update_job Samples.db1 100 "a41c09be.png" 1)
         200 "0be5d7c3.png" 1) !! 1
  = Some {| access_key := "9f86d081884c7d65"; addr_index := Int 7;
            ai_id := 1;
            completed := Some 200; filename := Some "0be5d7c3.png" |}.
Proof. split; by vm_compute. Qed.

End WatcherFacts.

(** ** The event queue *)

Section EventQueueFacts.
Import Synchro.

(** While the stop flag carries the callback, an action of another thread
    posts its notice, if it has one, and only [put] adds to the priority
    queue. *)
Lemma act_once (a : Action) (self : EventQueue) (event : Event) :
  is_callback event = true ->
  _notifier (act (self, event) a).1
  = _notifier self ++ option_list (notice_of a)
  /\ _queue (act (self, event) a).1
     = _queue self ++ option_list (queued_by a)
  /\ is_callback (act (self, event) a).2 = true.
Proof.
  intros Hcb.
  destruct a; cbn [act fst snd]; unfold set, clear; rewrite ?Hcb; cbn;
    by rewrite ?app_nil_r.
Qed.

Lemma act_posts (others : list Action) (s : EventQueue * Event) :
  is_callback s.2 = true ->
  _notifier (fold_left act others s).1
  = _notifier s.1 ++ omap notice_of others
  /\ _queue (fold_left act others s).1 = _queue s.1 ++ omap queued_by others
  /\ is_callback (fold_left act others s).2 = true.
Proof.
  revert s. induction others as [|a others IH]; intros [self event] Hcb.
  - cbn. by rewrite !app_nil_r.
  - cbn [fold_left].
    destruct (act_once a self event Hcb) as (Hn & Hq & Hcb').
    destruct (IH _ Hcb') as (-> & -> & ->). rewrite Hn, Hq. cbn [fst snd].
    rewrite <- !app_assoc. cbn [omap list_omap].
    by destruct (notice_of a), (queued_by a).
Qed.

Lemma convert_to_callback_event_spec event :
  is_set (convert_to_callback_event event) = is_set event /\
  is_callback (convert_to_callback_event event) = true.
Proof.
  unfold convert_to_callback_event. by destruct (is_callback event) eqn:?.
Qed.

(** What [get_and_wait_on_event] returns: [True] if the flag is set on
    entry, and otherwise the first notice that is posted once the
    notifier has been cleared, whatever the priorities. *)
Lemma get_and_wait_on_event_result self event early others :
  (get_and_wait_on_event self event early others).2 =
  if is_set event then Ok PyTrue
  else match omap notice_of others with
       | [] => Raise QueueEmpty
       | n :: _ => Ok n
       end.
Proof.
  unfold get_and_wait_on_event.
  destruct (convert_to_callback_event_spec event) as [-> Hcb].
  destruct (is_set event); [done|].
  destruct (act_posts early (self, convert_to_callback_event event) Hcb)
    as (_ & _ & Hcb1).
  destruct (fold_left act early _) as [self1 event1]. cbn [snd] in Hcb1.
  destruct (act_posts others (_clear_notifier self1, event1) Hcb1)
    as (Hn & _ & _).
  destruct (fold_left act others _) as [self2 event2].
  cbn [fst] in Hn. rewrite Hn. cbn. by destruct (omap notice_of others).
Qed.

(** C3, the failing run: [LOW_BALANCE] was queued with priority 1 before
    the call, [REFRESH_ARTWORK] arrives with priority 100 during the wait.
    The call returns [REFRESH_ARTWORK]; the priority queue still holds
    both items, [LOW_BALANCE] with the smaller priority among them. *)
Theorem get_and_wait_on_event_ignores_priority :
  let self := put EventQueue_init "LOW_BALANCE" None 1 in
  let r := get_and_wait_on_event self Samples.stop_flag []
             [DoPut "REFRESH_ARTWORK" None 100] in
  r.2 = Ok (Item Samples.REFRESH_ARTWORK)
  /\ is_set r.1.2 = false
  /\ _queue r.1.1
     = [ {| priority := 1; p_data := Samples.LOW_BALANCE |};
         {| priority := 100; p_data := Samples.REFRESH_ARTWORK |} ].
Proof. repeat split. Qed.

(** The stop flag: set on entry or set during the wait, the call returns
    [True]. *)
Example get_and_wait_on_event_stop :
  (get_and_wait_on_event EventQueue_init
     {| is_set := true; is_callback := false |} [] []).2 = Ok PyTrue /\
  (get_and_wait_on_event EventQueue_init Samples.stop_flag [] [DoSet]).2
  = Ok PyTrue /\
  (get_and_wait_on_event EventQueue_init Samples.stop_flag [] []).2
  = Raise QueueEmpty.
Proof. repeat split. Qed.

(** The stop of the web server calls a [set] that was bound before the
    conversion: the flag is set, and the call waits on until its timeout;
    a [set] that comes just after the test of the flag is lost in the
    same way. *)
Example get_and_wait_on_event_missed_stop :
  (get_and_wait_on_event EventQueue_init Samples.stop_flag [] [DoBoundSet]).2
  = Raise QueueEmpty /\
  is_set (get_and_wait_on_event EventQueue_init Samples.stop_flag []
            [DoBoundSet]).1.2 = true /\
  (get_and_wait_on_event EventQueue_init Samples.stop_flag [DoSet] []).2
  = Raise QueueEmpty /\
  is_set (get_and_wait_on_event EventQueue_init Samples.stop_flag
            [DoSet] []).1.2 = true.
Proof. repeat split. Qed.

End EventQueueFacts.

(** * Further properties *)

(** ** The request handlers and the watcher *)

Section RequestFacts.
Import Num Schema Artist Requests.

Lemma retrieve_both is_file db jobid key :
  INT64_MIN <= jobid <= INT64_MAX ->
  match job db !! jobid with
  | None =>
      retrieve_status db jobid key = Raise (HTTPException 404) /\
      retrieve_art is_file db jobid key = Raise (HTTPException 404)
  | Some j =>
      if bool_decide (key = access_key j) then
        match completed j with
        | None =>
            retrieve_status db jobid key
            = Ok {| status_code := 409; body_status := "in_progress" |} /\
            retrieve_art is_file db jobid key = Raise (HTTPException 409)
        | Some _ =>
            retrieve_status db jobid key
            = Ok {| status_code := 200; body_status := "completed" |} /\
            retrieve_art is_file db jobid key
            = send_from_directory is_file (filename j)
        end
      else
        retrieve_status db jobid key = Raise (HTTPException 403) /\
        retrieve_art is_file db jobid key = Raise (HTTPException 403)
  end.
Proof.
  intros Hid. unfold retrieve_status, retrieve_art.
  rewrite get_job_unfold by done.
  destruct (job db !! jobid) as [j|]; [|done].
  case_bool_decide; [|done]. cbn. by destruct (completed j).
Qed.

Lemma retrieve_overflow is_file db jobid key :
  ~ INT64_MIN <= jobid <= INT64_MAX ->
  retrieve_status db jobid key = Raise OverflowError /\
  retrieve_art is_file db jobid key = Raise OverflowError.
Proof.
  intros Hid. unfold retrieve_status, retrieve_art.
  by rewrite get_job_overflow by done.
Qed.

Lemma send_from_directory_ok is_file name f :
  send_from_directory is_file name = Ok f <->
  name = Some f /\ is_file f = true.
Proof.
  unfold send_from_directory. destruct name as [g|]; [|by split; [|intros []]].
  destruct (is_file g) eqn:Hg; split.
  - by intros [= <-].
  - by intros [[= <-] _].
  - done.
  - intros [[= <-] ?]. congruence.
Qed.

(** X1: the retrieval of the art of a job aborts with the same exception
    as the status query of the same job and key wherever that one aborts;
    it is refused with 409 exactly when the status query answers 409
    "in_progress"; and when the status query answers 200 "completed" the
    stored file name is handed to [send_from_directory], so that the file
    is served exactly when it is in the art directory, and the answer is
    404 when it is not. *)
Theorem retrieve_art_agrees_with_status
    (is_file : string -> bool) (db : Db) (jobid : Z) (key : string) :
  (forall e, retrieve_status db jobid key = Raise e ->
     retrieve_art is_file db jobid key = Raise e) /\
  (retrieve_status db jobid key
   = Ok {| status_code := 409; body_status := "in_progress" |}
   <-> retrieve_art is_file db jobid key = Raise (HTTPException 409)) /\
  (retrieve_status db jobid key
   = Ok {| status_code := 200; body_status := "completed" |} ->
   exists j, job db !! jobid = Some j /\
     retrieve_art is_file db jobid key
     = send_from_directory is_file (filename j)) /\
  (forall f, retrieve_art is_file db jobid key = Ok f <->
     retrieve_status db jobid key
     = Ok {| status_code := 200; body_status := "completed" |} /\
     is_file f = true /\
     exists j, job db !! jobid = Some j /\ filename j = Some f).
Proof.
  destruct (decide (INT64_MIN <= jobid <= INT64_MAX)) as [Hid|Hid].
  2: { destruct (retrieve_overflow is_file db jobid key Hid) as [-> ->].
       split; [by intros e [= <-]|]. split; [split; by intros [=]|].
       split; [by intros [=]|].
       intros f. split; [by intros [=]|]. by intros [[=] _]. }
  pose proof (retrieve_both is_file db jobid key Hid) as H.
  destruct (job db !! jobid) as [j|] eqn:Hj.
  - case_bool_decide.
    + destruct (completed j); destruct H as [-> ->].
      * split; [by intros e [=]|]. split.
        { split; [by intros [=]|]. unfold send_from_directory.
          destruct (filename j) as [g|]; [|by intros [=]].
          destruct (is_file g); by intros [=]. }
        split; [intros _; by exists j|].
        intros f. rewrite send_from_directory_ok. split.
        -- intros [Hname Hfile]. split; [done|]. split; [done|]. by exists j.
        -- by intros (_ & Hfile & j' & [= <-] & Hname).
      * split; [by intros e [=]|]. split; [done|]. split; [by intros [=]|].
        intros f. split; [by intros [=]|]. by intros [[=] _].
    + destruct H as [-> ->].
      split; [by intros e [= <-]|]. split; [split; by intros [=]|].
      split; [by intros [=]|].
      intros f. split; [by intros [=]|]. by intros [[=] _].
  - destruct H as [-> ->].
    split; [by intros e [= <-]|]. split; [split; by intros [=]|].
    split; [by intros [=]|].
    intros f. split; [by intros [=]|]. by intros [[=] _].
Qed.

(** The art directory of the samples holds the file of job 1 once that is
    completed; an empty directory answers 404 although the status is 200
    "completed". *)
Example retrieve_art_file_missing :
  let db := update_job Samples.db1 100 "a41c09be.png" 1 in
  retrieve_status db 1 "9f86d081884c7d65"
  = Ok {| status_code := 200; body_status := "completed" |} /\
  retrieve_art MoreSamples.art_dir db 1 "9f86d081884c7d65"
  = Ok "a41c09be.png" /\
  retrieve_art (fun _ => false) db 1 "9f86d081884c7d65"
  = Raise (HTTPException 404).
Proof. repeat split; by vm_compute. Qed.

End RequestFacts.

Section WatcherMoreFacts.
Import Num Schema Artist Requests.

Lemma art_generator_paid_run
    fuel job_id w config db j ai required k b fname :
  INT64_MIN <= job_id <= INT64_MAX ->
  job db !! job_id = Some j ->
  artist db !! ai_id j = Some ai ->
  calc_cost config (average_time ai) (surcharge ai) (Some config)
  = Ok required ->
  0 < required ->
  (forall i, (i < k)%nat -> exists b',
     Iotautil.get_balance (get_account_data w i) (addr_index j) = Ok b' /\
     b' < required) ->
  Iotautil.get_balance (get_account_data w k) (addr_index j) = Ok b ->
  required <= b ->
  (forall i, (i <= k)%nat ->
     wall w (clock_at w i)
     < wall w (start_time w) + 60 * WAIT_PAYMENT config) ->
  run w = Ok fname ->
  (k < fuel)%nat ->
  art_generator fuel job_id w config db
  = Some {| final := update_job db
                       (wall w (clock_at w (S k) + Z.of_nat (run_elapsed w)))
                       fname job_id;
            ending := Finished fname; polls := S k;
            clock := clock_at w (S k) + Z.of_nat (run_elapsed w) |}.
Proof.
  intros Hid Hj Hai Hcost Hreq Hlow Hpaid Hb Hrunning Hrun Hfuel.
  rewrite (art_generator_info _ _ _ _ _ _ _ _ Hid Hj Hai Hcost).
  change (start_time w) with (clock_at w 0) at 2.
  rewrite (poll_paid _ w (addr_index j) _ _ k b Hlow Hpaid Hb Hrunning);
    [|lia|done|lia].
  rewrite bool_decide_eq_false_2 by lia. by rewrite Hrun.
Qed.

(** A completed job answers its key with 200 "completed", and with the
    file when that is in the art directory. *)
Lemma update_job_retrievable db job_id j now fname :
  INT64_MIN <= job_id <= INT64_MAX ->
  job db !! job_id = Some j ->
  job (update_job db now fname job_id) !! job_id
  = Some {| access_key := access_key j; addr_index := addr_index j;
            ai_id := ai_id j;
            completed := Some now; filename := Some fname |} /\
  retrieve_status (update_job db now fname job_id) job_id (access_key j)
  = Ok {| status_code := 200; body_status := "completed" |} /\
  (forall is_file,
     retrieve_art is_file (update_job db now fname job_id) job_id
       (access_key j)
     = if is_file fname then Ok fname else Raise (HTTPException 404)).
Proof.
  intros Hid Hj.
  assert (job (update_job db now fname job_id) !! job_id
          = Some {| access_key := access_key j; addr_index := addr_index j;
                    ai_id := ai_id j;
                    completed := Some now; filename := Some fname |}) as Hrow.
  { unfold update_job. cbn [job]. by rewrite lookup_alter_eq, Hj. }
  split; [done|].
  assert (forall is_file,
            retrieve_status (update_job db now fname job_id) job_id
              (access_key j)
            = Ok {| status_code := 200; body_status := "completed" |} /\
            retrieve_art is_file (update_job db now fname job_id) job_id
              (access_key j)
            = send_from_directory is_file (Some fname)) as Hboth.
  { intros is_file.
    pose proof (retrieve_both is_file (update_job db now fname job_id)
                  job_id (access_key j) Hid) as Hboth.
    rewrite Hrow in Hboth. cbn in Hboth.
    by rewrite bool_decide_eq_true_2 in Hboth by done. }
  split; [apply (Hboth (fun _ => true))|].
  intros is_file. by destruct (Hboth is_file) as [_ ->].
Qed.

(** X2: when the balance first reaches the required cost at the query of
    iteration [k] of a loop that is still running, and the artist's code
    returns a file name, [art_generator] ends after [k + 1] queries, records
    what the clock shows and the file name in the job row, and from then
    on the status query with the job's key answers 200 "completed"; the
    art is served if the artist's code has put the file into the art
    directory, and the retrieval answers 404 if it has not.  The deadline
    may pass during that last query. *)
Theorem art_generator_finishes_paid_job
    (job_id : Z) (w : World) (config : Config) (db : Db)
    (j : JobRow) (ai : ArtistRow) (required : Z) (k : nat) (b : Z)
    (fname : string) :
  INT64_MIN <= job_id <= INT64_MAX ->
  job db !! job_id = Some j ->
  artist db !! ai_id j = Some ai ->
  calc_cost config (average_time ai) (surcharge ai) (Some config)
  = Ok required ->
  0 < required ->
  (forall i, (i < k)%nat -> exists b',
     Iotautil.get_balance (get_account_data w i) (addr_index j) = Ok b' /\
     b' < required) ->
  Iotautil.get_balance (get_account_data w k) (addr_index j) = Ok b ->
  required <= b ->
  (forall i, (i <= k)%nat ->
     wall w (clock_at w i)
     < wall w (start_time w) + 60 * WAIT_PAYMENT config) ->
  run w = Ok fname ->
  exists out,
    (forall fuel, (k < fuel)%nat ->
       art_generator fuel job_id w config db = Some out) /\
    ending out = Finished fname /\
    polls out = S k /\
    clock out = clock_at w (S k) + Z.of_nat (run_elapsed w) /\
    job (final out) !! job_id
    = Some {| access_key := access_key j; addr_index := addr_index j;
              ai_id := ai_id j;
              completed := Some (wall w (clock out));
              filename := Some fname |} /\
    retrieve_status (final out) job_id (access_key j)
    = Ok {| status_code := 200; body_status := "completed" |} /\
    (forall is_file,
       retrieve_art is_file (final out) job_id (access_key j)
       = if is_file fname then Ok fname else Raise (HTTPException 404)).
Proof.
  intros Hid Hj Hai Hcost Hreq Hlow Hpaid Hb Hrunning Hrun.
  eexists. split.
  { intros fuel Hfuel.
    by apply (art_generator_paid_run fuel job_id w config db j ai required
                k b fname). }
  cbn [ending polls clock final].
  destruct (update_job_retrievable db job_id j
              (wall w (clock_at w (S k) + Z.of_nat (run_elapsed w))) fname
              Hid Hj) as (Hrow & Hstatus & Hart).
  by do 3 (split; [done|]).
Qed.

(** X3: when the payment was seen but the artist's code raises, the
    watcher ends with that exception and leaves the database as it was:
    the paid job is neither completed nor deleted. *)
Theorem art_generator_keeps_paid_job_pending
    (job_id : Z) (w : World) (config : Config) (db : Db)
    (j : JobRow) (ai : ArtistRow) (required : Z) (k : nat) (b : Z)
    (e : exn) :
  INT64_MIN <= job_id <= INT64_MAX ->
  job db !! job_id = Some j ->
  artist db !! ai_id j = Some ai ->
  calc_cost config (average_time ai) (surcharge ai) (Some config)
  = Ok required ->
  0 < required ->
  (forall i, (i < k)%nat -> exists b',
     Iotautil.get_balance (get_account_data w i) (addr_index j) = Ok b' /\
     b' < required) ->
  Iotautil.get_balance (get_account_data w k) (addr_index j) = Ok b ->
  required <= b ->
  (forall i, (i <= k)%nat ->
     wall w (clock_at w i)
     < wall w (start_time w) + 60 * WAIT_PAYMENT config) ->
  run w = Raise e ->
  forall fuel, (k < fuel)%nat ->
  art_generator fuel job_id w config db
  = Some {| final := db; ending := Failed e; polls := S k;
            clock := clock_at w (S k) + Z.of_nat (run_elapsed w) |}.
Proof.
  intros Hid Hj Hai Hcost Hreq Hlow Hpaid Hb Hrunning Hrun fuel Hfuel.
  rewrite (art_generator_info _ _ _ _ _ _ _ _ Hid Hj Hai Hcost).
  change (start_time w) with (clock_at w 0) at 2.
  rewrite (poll_paid _ w (addr_index j) _ _ k b Hlow Hpaid Hb Hrunning);
    [|lia|done|lia].
  rewrite bool_decide_eq_false_2 by lia. by rewrite Hrun.
Qed.

(** X4: the statements of the watcher itself reach one row only.  Whenever
    a run of [art_generator] for a job ends, whatever the node answered,
    whatever the clock showed and however the call of the artist's code
    ended (that code being taken not to write to the tables itself), the
    tables [artist] and [iota] and every other row of [job] are as they
    were; if the row of the job is still there it has the same key,
    address index and artist. *)
Theorem art_generator_frame
    (fuel : nat) (job_id : Z) (w : World) (config : Config) (db : Db)
    (out : Outcome) :
  art_generator fuel job_id w config db = Some out ->
  artist (final out) = artist db /\
  iota (final out) = iota db /\
  (forall other, other <> job_id ->
     job (final out) !! other = job db !! other) /\
  (forall j', job (final out) !! job_id = Some j' ->
     exists j, job db !! job_id = Some j /\
       access_key j' = access_key j /\
       addr_index j' = addr_index j /\
       ai_id j' = ai_id j).
Proof.
  intros Hout.
  destruct (art_generator_final _ _ _ _ _ _ Hout) as [->|[->|(t & f & ->)]].
  - do 3 (split; [done|]). intros j' Hj'. by exists j'.
  - do 2 (split; [done|]). split.
    + intros other Hne. cbn. by rewrite lookup_delete_ne.
    + intros j'. cbn. by rewrite lookup_delete_eq.
  - do 2 (split; [done|]). split.
    + intros other Hne. cbn. by rewrite lookup_alter_ne.
    + intros j'. cbn. rewrite lookup_alter_eq.
      destruct (job db !! job_id) as [j|]; [|done].
      intros [= <-]. by exists j.
Qed.


End WatcherMoreFacts.

Section RequestArtFacts.
Import Num Schema Artist Requests Ledger.

Lemma request_art_ok aiid self node key lastrowid db c addr :
  Iotautil.counter self db = Some (Int c) ->
  INT64_MIN <= c < INT64_MAX ->
  INT64_MIN <= aiid <= INT64_MAX ->
  node (Int c) = Ok addr ->
  request_art aiid self node key lastrowid db =
  (insert_job (Iotautil.update_addr_index db (Iotautil.id self))
     lastrowid key (Int c) aiid,
   Ok {| iota_addr := addr; job_id := lastrowid; Requests.key := key;
         status_addr := "/" +:+ pretty lastrowid +:+ "/status";
         retrieve_addr :=
           "/" +:+ pretty lastrowid +:+ "/" +:+ RETRIEVE_URL |}).
Proof.
  intros Hc Hrange Haiid Hnode. unfold request_art.
  destruct (generate_address_row self node db c Hc Hrange) as [-> _].
  rewrite Hnode. cbn. rewrite (bind_ok c) by lia. cbn.
  by rewrite (bind_ok aiid) by done.
Qed.

Lemma request_art_raise aiid self node key lastrowid db c e :
  Iotautil.counter self db = Some (Int c) ->
  INT64_MIN <= c < INT64_MAX ->
  node (Int c) = Raise e ->
  request_art aiid self node key lastrowid db =
  (Iotautil.update_addr_index db (Iotautil.id self), Raise e).
Proof.
  intros Hc Hrange Hnode. unfold request_art.
  destruct (generate_address_row self node db c Hc Hrange) as [-> _].
  by rewrite Hnode.
Qed.

(** An artist id that SQLite cannot hold: the insertion raises, after the
    counter was advanced. *)
Lemma request_art_overflow aiid self node key lastrowid db c addr :
  Iotautil.counter self db = Some (Int c) ->
  INT64_MIN <= c < INT64_MAX ->
  ~ INT64_MIN <= aiid <= INT64_MAX ->
  node (Int c) = Ok addr ->
  request_art aiid self node key lastrowid db =
  (Iotautil.update_addr_index db (Iotautil.id self), Raise OverflowError).
Proof.
  intros Hc Hrange Haiid Hnode. unfold request_art.
  destruct (generate_address_row self node db c Hc Hrange) as [-> _].
  rewrite Hnode. cbn. rewrite (bind_ok c) by lia. cbn.
  by rewrite (bind_raise aiid) by done.
Qed.

Lemma counter_update_addr_index self db c :
  Iotautil.counter self db = Some (Int c) ->
  INT64_MIN <= c < INT64_MAX ->
  Iotautil.counter self (Iotautil.update_addr_index db (Iotautil.id self))
  = Some (Int (c + 1)).
Proof.
  intros Hc Hrange.
  by destruct (generate_address_row self (fun _ => Ok "") db c Hc Hrange).
Qed.

(** X6: a request for art that reaches the node stores one pending job
    under the returned id, with the returned key and the address index that
    the counter held, and advances the counter; the other jobs and the
    artists are untouched.  The new job answers its key with 409
    "in_progress" on the status route and 409 on the retrieval route, and
    any other key with 403.  The counter, the artist id and the row id are
    integers of SQLite. *)
Theorem request_art_creates_pending_job
    (aiid : Z) (self : Iotautil.IotaUtil) (node : number -> result string)
    (key : string) (lastrowid : Z) (db : Db) (c : Z) (addr : string) :
  Iotautil.counter self db = Some (Int c) ->
  INT64_MIN <= c < INT64_MAX ->
  INT64_MIN <= aiid <= INT64_MAX ->
  INT64_MIN <= lastrowid <= INT64_MAX ->
  node (Int c) = Ok addr ->
  exists db' r,
    request_art aiid self node key lastrowid db = (db', Ok r) /\
    iota_addr r = addr /\ job_id r = lastrowid /\ Requests.key r = key /\
    job db' !! lastrowid
    = Some {| access_key := key; addr_index := Int c;
              ai_id := aiid; completed := None; filename := None |} /\
    (forall other, other <> lastrowid -> job db' !! other = job db !! other) /\
    artist db' = artist db /\
    Iotautil.counter self db' = Some (Int (c + 1)) /\
    retrieve_status db' lastrowid key
    = Ok {| status_code := 409; body_status := "in_progress" |} /\
    (forall is_file,
       retrieve_art is_file db' lastrowid key = Raise (HTTPException 409)) /\
    (forall key', key' <> key ->
       retrieve_status db' lastrowid key' = Raise (HTTPException 403)).
Proof.
  intros Hc Hrange Haiid Hrow Hnode. eexists _, _.
  split; [by apply (request_art_ok _ _ _ _ _ _ c addr)|].
  cbn [iota_addr job_id Requests.key]. do 3 (split; [done|]).
  assert (job (insert_job (Iotautil.update_addr_index db (Iotautil.id self))
                 lastrowid key (Int c) aiid) !! lastrowid
          = Some {| access_key := key; addr_index := Int c;
                    ai_id := aiid; completed := None; filename := None |})
    as Hnew by (cbn; by rewrite lookup_insert_eq).
  split; [done|]. split; [|split; [done|split]].
  - intros other Hne. cbn. by rewrite lookup_insert_ne.
  - by apply counter_update_addr_index.
  - set (db' := insert_job _ _ _ _ _) in *.
    assert (forall is_file key',
              if bool_decide (key' = key) then
                retrieve_status db' lastrowid key'
                = Ok {| status_code := 409; body_status := "in_progress" |} /\
                retrieve_art is_file db' lastrowid key'
                = Raise (HTTPException 409)
              else
                retrieve_status db' lastrowid key' = Raise (HTTPException 403)
                /\ retrieve_art is_file db' lastrowid key'
                   = Raise (HTTPException 403)) as Hboth.
    { intros is_file key'.
      pose proof (retrieve_both is_file db' lastrowid key' Hrow) as Hboth.
      by rewrite Hnew in Hboth. }
    split; [|split].
    + pose proof (Hboth (fun _ => true) key) as H.
      rewrite bool_decide_eq_true_2 in H by done. apply H.
    + intros is_file. pose proof (Hboth is_file key) as H.
      rewrite bool_decide_eq_true_2 in H by done. apply H.
    + intros key' Hne. pose proof (Hboth (fun _ => true) key') as H.
      rewrite bool_decide_eq_false_2 in H by done. apply H.
Qed.

(** X7: when the node fails to derive the address, the request ends with
    the node's exception and stores no job, yet the counter stays
    advanced: the index is not handed out again. *)
Theorem request_art_node_failure
    (aiid : Z) (self : Iotautil.IotaUtil) (node : number -> result string)
    (key : string) (lastrowid : Z) (db : Db) (c : Z) (e : exn) :
  Iotautil.counter self db = Some (Int c) ->
  INT64_MIN <= c < INT64_MAX ->
  node (Int c) = Raise e ->
  exists db',
    request_art aiid self node key lastrowid db = (db', Raise e) /\
    job db' = job db /\
    artist db' = artist db /\
    Iotautil.counter self db' = Some (Int (c + 1)).
Proof.
  intros Hc Hrange Hnode. eexists.
  split; [by apply (request_art_raise _ _ _ _ _ _ c e)|].
  do 2 (split; [done|]). by apply counter_update_addr_index.
Qed.

(** X8: the requests keep the ledger's invariant: if the counter is an
    integer below the largest one of SQLite, every recorded address index
    lies below the counter and no two jobs share an index, then the
    counter is an integer above every recorded index and no two jobs
    share an index after [request_art], whether the node answers or not,
    provided the row id of the insertion is a new one. *)
Theorem request_art_keeps_indices_distinct
    (aiid : Z) (self : Iotautil.IotaUtil) (node : number -> result string)
    (key : string) (lastrowid : Z) (db : Db) :
  job db !! lastrowid = None ->
  indices_allocated self db ->
  Iotautil.counter self db <> Some (Int INT64_MAX) ->
  indices_distinct db ->
  indices_allocated self (request_art aiid self node key lastrowid db).1 /\
  indices_distinct (request_art aiid self node key lastrowid db).1.
Proof.
  intros Hfresh (c & Hc & Hrange & Hbelow) Hmax Hdistinct.
  assert (INT64_MIN <= c < INT64_MAX) as Hrange'.
  { split; [lia|]. destruct (decide (c = INT64_MAX)) as [->|]; [done|lia]. }
  assert (indices_allocated self
            (Iotautil.update_addr_index db (Iotautil.id self))) as Hadvanced.
  { exists (c + 1). split; [by apply counter_update_addr_index|].
    split; [lia|]. intros i j Hj.
    destruct (Hbelow i j Hj) as (a & Ha & Hlt). exists a. split; [done|lia]. }
  destruct (node (Int c)) as [addr|e] eqn:Hnode.
  - destruct (decide (INT64_MIN <= aiid <= INT64_MAX)) as [Haiid|Haiid].
    + rewrite (request_art_ok _ _ _ _ _ _ c addr) by done. cbn [fst]. split.
      * exists (c + 1). split; [by apply counter_update_addr_index|].
        split; [lia|]. intros i j. cbn. rewrite lookup_insert.
        case_decide; [intros [= <-]; cbn; exists c; split; [done|lia]|].
        intros Hj. destruct (Hbelow i j Hj) as (a & Ha & Hlt).
        exists a. split; [done|lia].
      * intros i1 i2 j1 j2. cbn. rewrite !lookup_insert.
        repeat case_decide; subst.
        -- done.
        -- intros [= <-] Hj2. cbn. destruct (Hbelow _ _ Hj2) as (a & -> & Hlt).
           intros [= ->]. lia.
        -- intros Hj1 [= <-]. cbn. destruct (Hbelow _ _ Hj1) as (a & -> & Hlt).
           intros [= ->]. lia.
        -- apply Hdistinct.
    + by rewrite (request_art_overflow _ _ _ _ _ _ c addr) by done.
  - by rewrite (request_art_raise _ _ _ _ _ _ c e) by done.
Qed.

End RequestArtFacts.

Section CommissionFacts.
Import Num Schema Artist Requests Ledger.

Lemma art_generator_unpaid_run job_id w config db j ai required k :
  INT64_MIN <= job_id <= INT64_MAX ->
  job db !! job_id = Some j ->
  artist db !! ai_id j = Some ai ->
  calc_cost config (average_time ai) (surcharge ai) (Some config)
  = Ok required ->
  0 < required ->
  (forall i, exists b,
     Iotautil.get_balance (get_account_data w i) (addr_index j) = Ok b /\
     b < required) ->
  wall w (start_time w) + 60 * WAIT_PAYMENT config
  <= wall w (clock_at w k) ->
  exists out,
    (forall fuel, (k <= fuel)%nat ->
       art_generator fuel job_id w config db = Some out) /\
    ending out = Cancelled /\ final out = delete_job db job_id.
Proof.
  intros Hid Hj Hai Hcost Hreq Hlow Hreached.
  destruct (poll_unpaid k w (addr_index j) required _ k Hlow Hreached
              0%nat 0 ltac:(lia) Hreq ltac:(lia))
    as (b & n & Hpoll & Hb & Hn).
  exists {| final := delete_job db job_id; ending := Cancelled;
            polls := n; clock := clock_at w n |}.
  split; [|split; reflexivity].
  intros fuel Hfuel.
  rewrite (art_generator_info _ _ _ _ _ _ _ _ Hid Hj Hai Hcost).
  change (start_time w) with (clock_at w 0) at 2.
  rewrite (poll_more_fuel _ _ _ _ _ _ _ _ _ _ Hpoll Hfuel).
  by rewrite bool_decide_eq_true_2 by done.
Qed.

(** X9: a request for art that is never paid leaves no trace in the job
    table: once the clock has shown the deadline to the watcher of the new
    job, that job is gone, and the table [job] is the one from before the
    request.  Only the address counter keeps its advance. *)
Theorem request_then_timeout_restores_jobs
    (aiid : Z) (self : Iotautil.IotaUtil) (node : number -> result string)
    (key : string) (lastrowid : Z) (db : Db) (c : Z) (addr : string)
    (ai : ArtistRow) (w : World) (config : Config) (required : Z) (k : nat) :
  Iotautil.counter self db = Some (Int c) ->
  INT64_MIN <= c < INT64_MAX ->
  INT64_MIN <= aiid <= INT64_MAX ->
  INT64_MIN <= lastrowid <= INT64_MAX ->
  node (Int c) = Ok addr ->
  job db !! lastrowid = None ->
  artist db !! aiid = Some ai ->
  calc_cost config (average_time ai) (surcharge ai) (Some config)
  = Ok required ->
  0 < required ->
  (forall i, exists b,
     Iotautil.get_balance (get_account_data w i) (Int c) = Ok b /\
     b < required) ->
  wall w (start_time w) + 60 * WAIT_PAYMENT config
  <= wall w (clock_at w k) ->
  exists db' r out,
    request_art aiid self node key lastrowid db = (db', Ok r) /\
    (forall fuel, (k <= fuel)%nat ->
       art_generator fuel (job_id r) w config db' = Some out) /\
    ending out = Cancelled /\
    job (final out) = job db /\
    artist (final out) = artist db /\
    Iotautil.counter self (final out) = Some (Int (c + 1)).
Proof.
  intros Hc Hrange Haiid Hrow Hnode Hfresh Hai Hcost Hreq Hlow Hreached.
  rewrite (request_art_ok _ _ _ _ _ _ c addr) by done.
  set (db' := insert_job _ _ _ _ _).
  destruct (art_generator_unpaid_run lastrowid w config db'
              {| access_key := key; addr_index := Int c;
                 ai_id := aiid; completed := None; filename := None |}
              ai required k)
    as (out & Hout & Hend & Hfinal).
  { done. }
  { subst db'. cbn. by rewrite lookup_insert_eq. }
  { done. }
  { done. }
  { done. }
  { exact Hlow. }
  { done. }
  eexists db', _, out. split; [reflexivity|]. cbn [job_id].
  split; [done|]. split; [done|]. rewrite Hfinal. subst db'. cbn.
  split; [by apply delete_insert_id|]. split; [done|].
  by apply counter_update_addr_index.
Qed.

(** The artist that [choose_artist] returns is an element of the list. *)
Lemma choose_artist_cheapest_element (l : list Canvas.Artist) :
  l <> [] ->
  exists best, Canvas.choose_artist (Some l) = Ok best /\
    best ∈ l /\ forall a, a ∈ l -> Canvas.cost best <= Canvas.cost a.
Proof.
  destruct l as [|first rest]; [done|]. intros _.
  destruct (choose_loop_invariant rest [first] 0 first) as (i & Hi & Hmin & _).
  { split; [done|]. split.
    - intros a ->%list_elem_of_singleton. lia.
    - intros j a Hj. lia. }
  eexists. split; [|split; [|exact Hmin]].
  - cbn [Canvas.choose_artist fold_left].
    replace (Canvas.choose_step first first) with first; [done|].
    unfold Canvas.choose_step. by rewrite bool_decide_eq_false_2 by lia.
  - by apply list_elem_of_lookup_2 in Hi.
Qed.

(** The served list has one entry per row, in the order of the rows. *)
Lemma artist_list_ok current_app ais :
  forall l,
  artist_list current_app ais = Ok l ->
  Forall2 (fun row a =>
             calc_cost current_app (l_average_time row) (l_surcharge row) None
             = Ok (Canvas.cost a) /\
             Canvas.id a = l_id row /\
             Canvas.genre_name a = l_genre_name row) ais l.
Proof.
  induction ais as [|row ais IH]; intros l; cbn.
  - intros [= <-]. constructor.
  - destruct (calc_cost _ _ _ _) as [cost|e] eqn:Hcost; cbn; [|done].
    destruct (artist_list current_app ais) as [response|e]; cbn; [|done].
    intros [= <-]. constructor; [done|]. by apply IH.
Qed.

(** X10: on the list that the marketplace serves, the client chooses a
    listed artist whose cost, as computed by [calc_cost] from the row's
    average time and surcharge, is the least of all rows. *)
Theorem choose_from_artist_list
    (current_app : Config) (ais : list Listed) (l : list Canvas.Artist) :
  ais <> [] ->
  artist_list current_app ais = Ok l ->
  exists row cost,
    row ∈ ais /\
    calc_cost current_app (l_average_time row) (l_surcharge row) None
    = Ok cost /\
    Canvas.choose_artist (Some l)
    = Ok {| Canvas.id := l_id row;
            Canvas.cost := cost;
            Canvas.genre_name := l_genre_name row |} /\
    forall row', row' ∈ ais ->
      exists cost',
        calc_cost current_app (l_average_time row') (l_surcharge row') None
        = Ok cost' /\
        cost <= cost'.
Proof.
  intros Hne Hlist. apply artist_list_ok in Hlist.
  destruct (choose_artist_cheapest_element l)
    as (best & Hbest & Hin & Hmin).
  { intros ->. apply Forall2_nil_inv_r in Hlist. done. }
  apply list_elem_of_lookup in Hin as [i Hi].
  destruct (Forall2_lookup_r _ _ _ _ _ Hlist Hi)
    as (row & Hrow & Hcost & Hid & Hgenre).
  exists row, (Canvas.cost best). split; [by eapply list_elem_of_lookup_2|].
  split; [done|]. split.
  { rewrite Hbest, <- Hid, <- Hgenre. by destruct best. }
  intros row' Hrow'. apply list_elem_of_lookup in Hrow' as [i' Hi'].
  destruct (Forall2_lookup_l _ _ _ _ _ Hlist Hi')
    as (a & Ha & Hcost' & _).
  exists (Canvas.cost a). split; [done|].
  apply Hmin. by eapply list_elem_of_lookup_2.
Qed.

(** X11: a whole commission.  The client chooses from the served list,
    requests art from the chosen artist and pays the advertised cost; if
    the first balance query of the watcher shows at least that amount and
    the artist's code returns a file name, the job is completed after one
    query, and the key of the response opens the status (200 "completed")
    and, if the file is in the art directory, the art. *)
Theorem commission_completes
    (config : Config) (ais : list Listed) (l : list Canvas.Artist) (db : Db)
    (a : Canvas.Artist)
    (self : Iotautil.IotaUtil) (node : number -> result string)
    (key : string) (lastrowid : Z) (c : Z) (addr : string)
    (w : World) (b : Z) (fname : string) :
  Forall (listed_from db) ais ->
  artist_list config ais = Ok l ->
  Canvas.choose_artist (Some l) = Ok a ->
  Iotautil.counter self db = Some (Int c) ->
  INT64_MIN <= c < INT64_MAX ->
  INT64_MIN <= lastrowid <= INT64_MAX ->
  node (Int c) = Ok addr ->
  0 < Canvas.cost a ->
  0 < WAIT_PAYMENT config ->
  Iotautil.get_balance (get_account_data w 0) (Int c) = Ok b ->
  Canvas.cost a <= b ->
  run w = Ok fname ->
  exists db' r out,
    request_art (Canvas.id a) self node key lastrowid db = (db', Ok r) /\
    iota_addr r = addr /\
    (forall fuel, (0 < fuel)%nat ->
       art_generator fuel (job_id r) w config db' = Some out) /\
    ending out = Finished fname /\
    polls out = 1%nat /\
    retrieve_status (final out) (job_id r) (Requests.key r)
    = Ok {| status_code := 200; body_status := "completed" |} /\
    (forall is_file,
       retrieve_art is_file (final out) (job_id r) (Requests.key r)
       = if is_file fname then Ok fname else Raise (HTTPException 404)).
Proof.
  intros Hlisted Hlist Hchoose Hc Hrange Hrow Hnode Hcost Hwait Hquery Hb Hrun.
  assert (INT64_MIN <= Canvas.id a <= INT64_MAX /\
          exists ai, artist db !! Canvas.id a = Some ai /\
            calc_cost config (average_time ai) (surcharge ai) (Some config)
            = Ok (Canvas.cost a)) as (Haiid & ai & Hai & Hreq).
  { apply artist_list_ok in Hlist.
    destruct (choose_artist_cheapest_element l) as (best & Hbest & Hin & _).
    { by intros ->. }
    rewrite Hchoose in Hbest. injection Hbest as <-.
    apply list_elem_of_lookup in Hin as [i Hi].
    destruct (Forall2_lookup_r _ _ _ _ _ Hlist Hi)
      as (lrow & Hlrow & Hcost' & Hid & _).
    rewrite Forall_forall in Hlisted.
    destruct (Hlisted lrow) as (Hrange' & ai & Hai & Hs & Ht);
      [by eapply list_elem_of_lookup_2|].
    rewrite Hid. split; [done|]. exists ai. split; [done|].
    by rewrite Hs, Ht. }
  rewrite (request_art_ok _ _ _ _ _ _ c addr) by done.
  set (db' := insert_job _ _ _ _ _).
  set (j := {| access_key := key; addr_index := Int c;
               ai_id := Canvas.id a; completed := None; filename := None |}).
  assert (job db' !! lastrowid = Some j) as Hj
    by (subst db'; cbn; by rewrite lookup_insert_eq).
  eexists db', _, _. split; [reflexivity|].
  cbn [iota_addr job_id Requests.key]. split; [done|]. split.
  { intros fuel Hfuel.
    apply (art_generator_paid_run fuel lastrowid w config db' j ai
             (Canvas.cost a) 0 b fname); try done.
    - intros i Hi. lia.
    - intros i Hi. assert (i = 0%nat) as -> by lia. cbn [clock_at]. lia. }
  cbn [ending polls final]. do 2 (split; [done|]).
  by destruct (update_job_retrievable db' lastrowid j
                 (wall w (clock_at w 1 + Z.of_nat (run_elapsed w))) fname
                 Hrow Hj) as (_ & Hstatus & Hart).
Qed.

End CommissionFacts.

Section LedgerFacts.
Import Num Schema Artist Requests Ledger.

(** X12: the watcher keeps the ledger's invariant: if the counter is an
    integer, every recorded address index lies below it and no two jobs
    share an index, the same holds when [art_generator] has ended, however
    it ends. *)
Theorem art_generator_keeps_indices_distinct
    (self : Iotautil.IotaUtil) (fuel : nat) (job_id : Z) (w : World)
    (config : Config) (db : Db) (out : Outcome) :
  indices_allocated self db ->
  indices_distinct db ->
  art_generator fuel job_id w config db = Some out ->
  indices_allocated self (final out) /\
  indices_distinct (final out).
Proof.
  intros (c & Hc & Hrange & Hbelow) Hdistinct Hout.
  destruct (art_generator_final _ _ _ _ _ _ Hout) as [->|[->|(t & f & ->)]].
  - split; [by exists c|done].
  - split.
    + exists c. split; [done|]. split; [done|]. intros i j. cbn.
      rewrite lookup_delete_Some. intros [_ Hj]. by apply (Hbelow i).
    + intros i1 i2 j1 j2. cbn. rewrite !lookup_delete_Some.
      intros [_ H1] [_ H2]. by apply Hdistinct.
  - assert (forall i j', job (update_job db t f job_id) !! i = Some j' ->
              exists j, job db !! i = Some j /\ addr_index j' = addr_index j)
      as Hsame.
    { intros i j'. cbn. rewrite lookup_alter.
      case_decide as Hi; [subst i|by exists j'].
      destruct (job db !! job_id) as [j|]; [|done].
      intros [= <-]. by exists j. }
    split.
    + exists c. split; [done|]. split; [done|]. intros i j' Hj'.
      destruct (Hsame i j' Hj') as (j & Hj & ->). by apply (Hbelow i).
    + intros i1 i2 j1 j2 H1 H2.
      destruct (Hsame _ _ H1) as (j1' & H1' & ->).
      destruct (Hsame _ _ H2) as (j2' & H2' & ->). by apply Hdistinct.
Qed.

End LedgerFacts.

(** ** The event queue, continued *)

Section EventQueueMoreFacts.
Import Synchro.

(** X13: what a call of [get_and_wait_on_event] returns.  If the flag is
    set on entry it returns [True] and leaves the queue as it is.
    Otherwise it returns the first notice that another thread posts once
    the notifier has been found empty: the event of a [put], [True] for a
    [set] or [clear] made through the converted event; a [set] through a
    method bound before the conversion posts nothing, and the call raises
    [queue.Empty] if nothing is posted.  What was put or set earlier,
    before the call or between its test of the flag and the clearing of
    the notifier, has no part in the result. *)
Theorem get_and_wait_on_event_first_notice
    (self : EventQueue) (event : Event) (early others : list Action) :
  (is_set event = true ->
     get_and_wait_on_event self event early others
     = (self, convert_to_callback_event event, Ok PyTrue)) /\
  (is_set event = false ->
     (get_and_wait_on_event self event early others).2
     = match omap notice_of others with
       | [] => Raise QueueEmpty
       | n :: _ => Ok n
       end /\
     (get_and_wait_on_event self event early others).2
     = (get_and_wait_on_event EventQueue_init event [] others).2) /\
  is_callback (get_and_wait_on_event self event early others).1.2 = true.
Proof.
  destruct (convert_to_callback_event_spec event) as [Hset Hcb].
  split; [|split].
  - intros Hs. unfold get_and_wait_on_event. by rewrite Hset, Hs.
  - intros Hs. rewrite !get_and_wait_on_event_result, Hs. done.
  - unfold get_and_wait_on_event. rewrite Hset.
    destruct (is_set event); [done|].
    destruct (act_posts early (self, convert_to_callback_event event) Hcb)
      as (_ & _ & Hcb1).
    destruct (fold_left act early _) as [self1 event1]. cbn [snd] in Hcb1.
    destruct (act_posts others (_clear_notifier self1, event1) Hcb1)
      as (_ & _ & Hcb2).
    destruct (fold_left act others _) as [self2 event2].
    cbn [snd] in Hcb2. by destruct (_notifier self2).
Qed.

(** X14: [get_and_wait_on_event] never takes anything out of the priority
    queue: after the call the queue holds what it held before, followed by
    the items put during the call, the returned one included. *)
Theorem get_and_wait_on_event_never_drains
    (self : EventQueue) (event : Event) (early others : list Action) :
  _queue (get_and_wait_on_event self event early others).1.1
  = _queue self ++
    (if is_set event then [] else omap queued_by (early ++ others)).
Proof.
  unfold get_and_wait_on_event.
  destruct (convert_to_callback_event_spec event) as [-> Hcb].
  destruct (is_set event); [cbn; by rewrite app_nil_r|].
  destruct (act_posts early (self, convert_to_callback_event event) Hcb)
    as (_ & Hq1 & Hcb1).
  destruct (fold_left act early _) as [self1 event1]. cbn [fst snd] in *.
  destruct (act_posts others (_clear_notifier self1, event1) Hcb1)
    as (_ & Hq2 & _).
  destruct (fold_left act others _) as [self2 event2].
  cbn [fst _clear_notifier _queue] in Hq2.
  rewrite omap_app, app_assoc, <- Hq1, <- Hq2.
  by destruct (_notifier self2).
Qed.

End EventQueueMoreFacts.
(** ** The monitor schedule *)

Section MonitorFacts.
Import Monitor.

(** X15: with the display schedule enabled and the screen commands
    succeeding, the monitor is on after [manage_monitor] exactly when the
    current time lies in the window from [display_on_time] up to, but not
    including, [display_off_time]; the window runs past midnight when the
    off time is the earlier of the two, and is empty when they are equal.
    The previous state of the monitor does not matter. *)
Theorem manage_monitor_window
    (display_off_time display_on_time now : TimeOfDay) (state : bool) :
  valid display_off_time -> valid display_on_time -> valid now ->
  manage_monitor true display_off_time display_on_time now true true state
  = true
  <->
  (convert_time_minutes display_on_time
   < convert_time_minutes display_off_time /\
   convert_time_minutes display_on_time <= convert_time_minutes now
   < convert_time_minutes display_off_time)
  \/
  (convert_time_minutes display_off_time
   < convert_time_minutes display_on_time /\
   (convert_time_minutes display_on_time <= convert_time_minutes now \/
    convert_time_minutes now < convert_time_minutes display_off_time)).
Proof.
  unfold valid, manage_monitor, convert_time_minutes, MINUTES_IN_DAY.
  intros Hoff Hon Hnow.
  set (f := hour display_off_time * 60 + minute display_off_time) in *.
  set (o := hour display_on_time * 60 + minute display_on_time) in *.
  set (n := hour now * 60 + minute now) in *.
  assert (0 <= f < 1440 /\ 0 <= o < 1440 /\ 0 <= n < 1440) as Hrange
    by (subst f o n; lia).
  clearbody f o n. clear Hoff Hon Hnow. cbn zeta.
  assert (bool_decide ((n - o) `mod` (24 * 60) < (f - o) `mod` (24 * 60))
          = true
          <-> (o < f /\ o <= n < f) \/ (f < o /\ (o <= n \/ n < f))) as Hwin.
  { rewrite bool_decide_eq_true.
    change (24 * 60) with 1440. Z.div_mod_to_equations. lia. }
  destruct (bool_decide _) eqn:Hshould; destruct state; cbn;
    rewrite <- Hwin; split; (done || by intros).
Qed.

End MonitorFacts.

(** ** Settings *)

Section SettingsFacts.
Import Settings.

Lemma dict_get_set_eq d key val : dict_get (dict_set d key val) key = Some val.
Proof.
  induction d as [|k v rest IH]; cbn.
  - by rewrite bool_decide_eq_true_2.
  - case_bool_decide as Hk; cbn.
    + by rewrite bool_decide_eq_true_2.
    + by rewrite bool_decide_eq_false_2.
Qed.

Lemma dict_get_set_ne d key key' val :
  key <> key' -> dict_get (dict_set d key val) key' = dict_get d key'.
Proof.
  intros Hne. induction d as [|k v rest IH]; cbn.
  - by rewrite bool_decide_eq_false_2.
  - case_bool_decide as Hk; cbn.
    + subst k. by rewrite !bool_decide_eq_false_2.
    + by rewrite IH.
Qed.

Lemma dict_get_set_is_Some d key key' val :
  is_Some (dict_get d key') -> is_Some (dict_get (dict_set d key val) key').
Proof.
  intros Hsome. destruct (decide (key = key')) as [->|Hne].
  - rewrite dict_get_set_eq. by eexists.
  - by rewrite dict_get_set_ne.
Qed.

Lemma dict_get_del_eq d key : dict_get (dict_del d key) key = None.
Proof.
  induction d as [|k v rest IH]; cbn; [done|].
  case_bool_decide as Hk; cbn; [done|]. by rewrite bool_decide_eq_false_2.
Qed.

Lemma dict_get_del_ne d key key' :
  key <> key' -> dict_get (dict_del d key) key' = dict_get d key'.
Proof.
  intros Hne. induction d as [|k v rest IH]; cbn; [done|].
  case_bool_decide as Hk; cbn.
  - subst k. by rewrite bool_decide_eq_false_2.
  - by rewrite IH.
Qed.

(** A merge reaches only the keys of its source, and removes none. *)
Lemma merge_frame source :
  forall destination key,
  dict_get source key = None ->
  dict_get (_merge_recursive destination source).1 key
  = dict_get destination key.
Proof.
  induction source as [|k v rest IH]; intros destination key Hkey; [done|].
  cbn in Hkey. case_bool_decide as Hk; [done|].
  cbn [_merge_recursive].
  assert (forall val,
            dict_get (_merge_recursive (dict_set destination k val) rest).1 key
            = dict_get destination key) as Hset.
  { intros val. rewrite IH by done. by rewrite dict_get_set_ne. }
  destruct v as [ | | | | | |sub]; try apply Hset.
  destruct (dict_get destination k) as [dv|]; [|apply Hset].
  destruct dv as [ | | | | | |inner];
    try (destruct sub; [by apply IH|done]).
  destruct (_merge_recursive inner sub) as [inner' [e|]]; cbn.
  - by rewrite dict_get_set_ne.
  - apply Hset.
Qed.

Lemma merge_keeps_keys source :
  forall destination key,
  is_Some (dict_get destination key) ->
  is_Some (dict_get (_merge_recursive destination source).1 key).
Proof.
  induction source as [|k v rest IH]; intros destination key Hsome; [done|].
  cbn [_merge_recursive].
  assert (forall val,
            is_Some (dict_get
                       (_merge_recursive (dict_set destination k val) rest).1
                       key)) as Hset.
  { intros val. apply IH. by apply dict_get_set_is_Some. }
  destruct v as [ | | | | | |sub]; try apply Hset.
  destruct (dict_get destination k) as [dv|]; [|apply Hset].
  destruct dv as [ | | | | | |inner];
    try (destruct sub; [by apply IH|done]).
  destruct (_merge_recursive inner sub) as [inner' [e|]]; cbn.
  - by apply dict_get_set_is_Some.
  - apply Hset.
Qed.

(** X16: [setval] changes the settings only under the top-level keys of
    the update, and never removes a top-level key, also when it stops with
    an exception. *)
Theorem setval_frame (settings settings_update : dict) :
  (forall key, dict_get settings_update key = None ->
     dict_get (setval settings settings_update).1 key
     = dict_get settings key) /\
  (forall key, is_Some (dict_get settings key) ->
     is_Some (dict_get (setval settings settings_update).1 key)).
Proof.
  split; intros key H; [by apply merge_frame|by apply merge_keeps_keys].
Qed.

Lemma get_loop_nested keys key v a :
  get_loop (nested (key :: keys) v) (key :: keys) a = Done v.
Proof.
  revert key a. induction keys as [|k keys IH]; intros key a.
  - cbn. by rewrite bool_decide_eq_true_2.
  - change (nested (key :: k :: keys) v)
      with (VDict (DItem key (nested (k :: keys) v) DNil)).
    cbn [get_loop dict_get]. rewrite bool_decide_eq_true_2 by done.
    cbn [default]. exact (IH k (Some (nested (k :: keys) v))).
Qed.

Lemma merge_leaf destination key v :
  is_dict v = false ->
  _merge_recursive destination (DItem key v DNil)
  = (dict_set destination key v, None).
Proof. by destruct v. Qed.

Lemma merge_section destination key sub :
  _merge_recursive destination (DItem key (VDict sub) DNil) =
  match dict_get destination key with
  | Some (VDict inner) =>
      (dict_set destination key (VDict (_merge_recursive inner sub).1),
       (_merge_recursive inner sub).2)
  | Some _ =>
      match sub with
      | DNil => (destination, None)
      | DItem _ _ _ => (destination, Some TypeError)
      end
  | None => (dict_set destination key (VDict sub), None)
  end.
Proof.
  cbn [_merge_recursive].
  destruct (dict_get destination key) as [[ | | | | | |inner]|]; try done.
  by destruct (_merge_recursive inner sub) as [inner' [e|]].
Qed.

(** X17: writing a value that is not a dict under a path of keys and
    reading the same path gives the value back, whenever the write goes
    through without an exception. *)
Theorem setval_get_roundtrip
    (keys : list string) (key : string) (v : value) (settings settings' : dict) :
  is_dict v = false ->
  setval settings (DItem key (nested keys v) DNil) = (settings', None) ->
  get settings' (key :: keys) = Done v.
Proof.
  unfold setval, get. intros Hleaf.
  revert key settings settings'.
  induction keys as [|k keys IH]; intros key settings settings'.
  - cbn [nested]. rewrite merge_leaf by done. intros [= <-].
    cbn. by rewrite dict_get_set_eq.
  - change (nested (k :: keys) v)
      with (VDict (DItem k (nested keys v) DNil)).
    rewrite merge_section.
    destruct (dict_get settings key) as [dv|] eqn:Hget.
    + destruct dv as [ | | | | | |inner]; try done.
      destruct (_merge_recursive inner (DItem k (nested keys v) DNil))
        as [inner' [e|]] eqn:Hinner; [done|].
      intros [= <-]. cbn [get_loop]. rewrite dict_get_set_eq. cbn [default].
      exact (IH k inner inner' Hinner).
    + intros [= <-]. cbn [get_loop]. rewrite dict_get_set_eq. cbn [default].
      exact (get_loop_nested keys k v None).
Qed.

End SettingsFacts.

(** ** Saving the settings *)

Section SaveFacts.
Import Settings.
Variable lib : Pathlib.

Lemma dict_get_collapse d key :
  dict_get (_collapse_paths lib d) key =
  (fun v => match v with
            | VDict sub => VDict (_collapse_paths lib sub)
            | VPath p => VStr (default p (relative_to_root lib p))
            | _ => v
            end) <$> dict_get d key.
Proof.
  induction d as [|k v rest IH]; [done|].
  cbn [_collapse_paths dict_get]. by case_bool_decide.
Qed.

Lemma get_loop_assigned v key keys a a' :
  get_loop v (key :: keys) a = get_loop v (key :: keys) a'.
Proof. done. Qed.

(** What a read delivers when it ends in a value that is neither a dict
    nor a path is not changed by [_collapse_paths]. *)
Lemma get_loop_collapse keys :
  forall d a v,
  keys <> [] ->
  get_loop (VDict d) keys a = Done v ->
  is_leaf v = true ->
  get_loop (VDict (_collapse_paths lib d)) keys a = Done v.
Proof.
  induction keys as [|key keys IH]; intros d a v Hne; [done|].
  cbn [get_loop]. rewrite dict_get_collapse.
  destruct keys as [|key2 keys].
  - cbn [get_loop]. intros [= <-] Hleaf.
    destruct (dict_get d key) as [v|]; [|done]. cbn in Hleaf |- *.
    by destruct v.
  - destruct (dict_get d key) as [v1|]; [|done]. cbn [default fmap option_fmap option_map].
    destruct v1 as [ | | | | | |sub]; try done.
    intros Hget Hleaf. rewrite (get_loop_assigned _ _ _ _ a).
    apply IH; [done| |done]. by rewrite (get_loop_assigned _ _ _ _ (Some (VDict sub))).
Qed.

Lemma dict_get_expand d key :
  (forall sub, dict_get d key = Some (VDict sub) ->
     dict_get (_expand_paths lib d).1 key = Some (VDict sub) \/
     dict_get (_expand_paths lib d).1 key
     = Some (VDict (_expand_paths lib sub).1)) /\
  (forall v, dict_get d key = Some v -> is_dict v = false ->
     is_path_key key = false ->
     dict_get (_expand_paths lib d).1 key = Some v) /\
  (dict_get d key = None -> dict_get (_expand_paths lib d).1 key = None).
Proof.
  induction d as [|k v rest (IHdict & IHleaf & IHnone)]; [done|].
  assert (forall v',
            (forall sub, v = VDict sub ->
               v' = VDict sub \/ v' = VDict (_expand_paths lib sub).1) ->
            (is_dict v = false -> is_path_key k = false -> v' = v) ->
            forall r,
            (r = rest \/ r = (_expand_paths lib rest).1) ->
            (forall sub, dict_get (DItem k v rest) key = Some (VDict sub) ->
               dict_get (DItem k v' r) key = Some (VDict sub) \/
               dict_get (DItem k v' r) key
               = Some (VDict (_expand_paths lib sub).1)) /\
            (forall x, dict_get (DItem k v rest) key = Some x ->
               is_dict x = false -> is_path_key key = false ->
               dict_get (DItem k v' r) key = Some x) /\
            (dict_get (DItem k v rest) key = None ->
             dict_get (DItem k v' r) key = None)) as Hitem.
  { intros v' Hsub Hsame r Hr. cbn [dict_get].
    case_bool_decide as Hk.
    - subst k. split; [|split; [|done]].
      + intros sub [= ->]. destruct (Hsub sub eq_refl) as [-> | ->]; auto.
      + intros x [= <-] Hx Hkey. by rewrite Hsame.
    - destruct Hr as [-> | ->]; [by auto|]. by auto. }
  cbn [_expand_paths].
  destruct v as [ |b|n|s|p|l|sub].
  7: { destruct (_expand_paths lib sub) as [sub' [e|]] eqn:Hsub; cbn [fst].
       - apply Hitem; [|done|by left].
         intros sub0 [= <-]. right. by rewrite Hsub.
       - destruct (_expand_paths lib rest) as [rest' raised] eqn:Hrest.
         cbn [fst]. apply Hitem; [|done|by right].
         intros sub0 [= <-]. right. by rewrite Hsub. }
  all: destruct (is_path_key k) eqn:Hpath;
    [destruct (expand_path lib _) as [v'|e]; cbn [fst] |];
    try (destruct (_expand_paths lib rest) as [rest' raised] eqn:Hrest;
         cbn [fst]);
    apply Hitem; try done; try (by left); try (by right).
Qed.

(** The same for [_expand_paths], also when it stops with an exception,
    unless the key of the value ends like the key of a path. *)
Lemma get_loop_expand keys :
  forall d a v,
  keys <> [] ->
  get_loop (VDict d) keys a = Done v ->
  is_leaf v = true ->
  (forall key, last keys = Some key -> is_path_key key = false) ->
  get_loop (VDict (_expand_paths lib d).1) keys a = Done v.
Proof.
  induction keys as [|key keys IH]; intros d a v Hne; [done|].
  cbn [get_loop].
  destruct (dict_get_expand d key) as (Hdict & Hleaf & Hnone).
  destruct keys as [|key2 keys].
  - cbn [get_loop]. intros [= <-] Hv Hlast.
    destruct (dict_get d key) as [v|] eqn:Hget.
    + rewrite (Hleaf v); [done|done| |by apply Hlast]. by destruct v.
    + by rewrite Hnone.
  - destruct (dict_get d key) as [v1|] eqn:Hget; [|done]. cbn [default].
    destruct v1 as [ | | | | | |sub]; try done.
    intros Hread Hv Hlast.
    destruct (Hdict sub eq_refl) as [-> | ->]; cbn [default]; [done|].
    rewrite (get_loop_assigned _ _ _ _ a).
    apply IH; [done| |done|].
    + by rewrite (get_loop_assigned _ _ _ _ (Some (VDict sub))).
    + intros k Hk. apply Hlast. by rewrite last_cons, Hk.
Qed.

(** [save] keeps every value that is neither a dict nor a path and whose
    key does not end like the key of a path, however it ends. *)
Lemma get_save dump settings keys v :
  keys <> [] ->
  get settings keys = Done v ->
  is_leaf v = true ->
  (forall key, last keys = Some key -> is_path_key key = false) ->
  get (save lib dump settings).1 keys = Done v.
Proof.
  unfold get, save. intros Hne Hget Hv Hlast.
  apply get_loop_collapse in Hget; [|done..].
  destruct (dump _); [|done]. by apply get_loop_expand.
Qed.

End SaveFacts.

(** ** The settings routes *)

Section WebappFacts.
Import Settings Webapp.

(** X18: the settings update of the web application keeps the settings
    outside the section ["user"], whatever the JSON body.  When the
    request returns, every read whose first key is another one gives the
    same result as before.  Once the [save] that the request has
    scheduled has run, however it ends, such a read still gives the same
    value if that is neither a dict nor a path and its key does not end in
    [dir] or [image]; the paths themselves may be left as strings when
    [save] is stopped by an exception.  In particular the IOTA seed
    cannot be changed through the update. *)
Theorem update_settings_only_user
    (lib : Pathlib) (dump : dict -> res unit)
    (settings : dict) (data : value) (key : string) (keys : list string) :
  key <> "user" ->
  get (at_return (update_settings lib dump settings data)).1 (key :: keys)
  = get settings (key :: keys) /\
  (forall saved v,
     after_save (update_settings lib dump settings data) = Some saved ->
     get settings (key :: keys) = Done v ->
     is_leaf v = true ->
     (forall k, last (key :: keys) = Some k -> is_path_key k = false) ->
     get saved.1 (key :: keys) = Done v).
Proof.
  intros Hne. unfold update_settings.
  assert (get (setval settings (DItem "user" data DNil)).1 (key :: keys)
          = get settings (key :: keys)) as Hmerge.
  { unfold get, setval. cbn [get_loop].
    rewrite merge_frame; [done|]. cbn. by rewrite bool_decide_eq_false_2. }
  destruct (setval settings (DItem "user" data DNil)) as [merged raised].
  cbn [at_return after_save fst] in *. split; [done|].
  intros saved v Hsaved Hget Hv Hlast.
  destruct raised; [done|]. injection Hsaved as <-.
  apply get_save; [done| |done|done]. by rewrite Hmerge.
Qed.

(** X19: a JSON body that is not an object replaces the whole section
    ["user"]: the update goes through, the section reads back as that
    value, and every read of a user setting then raises
    [AttributeError]. *)
Theorem update_settings_not_a_dict
    (lib : Pathlib) (dump : dict -> res unit)
    (settings : dict) (data : value) (key : string) (keys : list string) :
  is_dict data = false ->
  at_return (update_settings lib dump settings data)
  = (dict_set settings "user" data, None) /\
  after_save (update_settings lib dump settings data)
  = Some (save lib dump (dict_set settings "user" data)) /\
  get (at_return (update_settings lib dump settings data)).1 ["user"]
  = Done data /\
  get (at_return (update_settings lib dump settings data)).1
      ("user" :: key :: keys)
  = Throw AttributeError.
Proof.
  intros Hleaf. unfold update_settings, setval. rewrite merge_leaf by done.
  cbn [at_return after_save fst]. do 2 (split; [done|]).
  unfold get. cbn. rewrite dict_get_set_eq. cbn.
  split; [done|]. by destruct data.
Qed.

(** X20: the answer of [/iota_settings] never holds the seed; when the
    section ["iota"] of the settings is a dict, the answer agrees with it
    on every other key, and there is an answer only if the section has a
    seed entry. *)
Theorem iota_settings_hides_seed
    (settings : dict) (dict_of : value -> res dict)
    (save_address_qr : res unit) (iota_config : dict) :
  iota_settings settings dict_of save_address_qr = Done iota_config ->
  dict_get iota_config "seed" = None /\
  forall section,
    get settings ["iota"] = Done (VDict section) ->
    is_Some (dict_get section "seed") /\
    forall key, key <> "seed" ->
      dict_get iota_config key = dict_get section key.
Proof.
  unfold iota_settings.
  destruct (get settings ["iota"]) as [v|e]; [|done].
  destruct (match v with VDict d => Done d | _ => dict_of v end)
    as [d|e] eqn:Hd; [|done].
  destruct (dict_get d "seed") as [seed|] eqn:Hseed; [|done].
  destruct save_address_qr as [[]|e]; [|done]. intros [= <-].
  split; [apply dict_get_del_eq|].
  intros section [= ->]. injection Hd as <-.
  split; [by rewrite Hseed|].
  intros key Hne. by apply dict_get_del_ne.
Qed.

(** A body with an entry whose key ends in [dir] and whose value is a
    number: the request goes through; the [save] that follows writes the
    file and is then stopped by a [TypeError] inside the section
    ["user"], so that the artwork directory, a path before, is left a
    string.  The seed is as it was. *)
Example update_settings_breaks_paths :
  let data := VDict (DItem "x_dir" (VInt 5) DNil) in
  let u := update_settings MoreSamples.posix (fun _ => Done tt)
             MoreSamples.settings data in
  (at_return u).2 = None /\
  get MoreSamples.settings ["art"; "artwork_dir"]
  = Done (VPath "/home/pi/iotacanvas/artwork") /\
  (snd <$> after_save u) = Some (Some TypeError) /\
  (after_save u ≫= fun saved =>
     Some (get saved.1 ["art"; "artwork_dir"]))
  = Some (Done (VStr "artwork")) /\
  (after_save u ≫= fun saved => Some (get saved.1 ["iota"; "seed"]))
  = Some (Done (VStr "SEED9")).
Proof. repeat split; by vm_compute. Qed.

End WebappFacts.

(** ** The client's address index *)

Section ClientIotaFacts.
Import Settings ClientIota.

Lemma dict_set_set d key v v' :
  dict_set (dict_set d key v) key v' = dict_set d key v'.
Proof.
  induction d as [|k x rest IH]; cbn.
  - by rewrite bool_decide_eq_true_2.
  - case_bool_decide as Hk; cbn.
    + by rewrite bool_decide_eq_true_2.
    + rewrite bool_decide_eq_false_2 by done. by rewrite IH.
Qed.

Lemma dict_set_id d key v : dict_get d key = Some v -> dict_set d key v = d.
Proof.
  induction d as [|k x rest IH]; cbn; [done|].
  case_bool_decide as Hk; [by intros [= ->]|]. intros H. by rewrite IH.
Qed.

Lemma get2 settings k1 k2 section :
  dict_get settings k1 = Some (VDict section) ->
  get settings [k1; k2] = Done (default VNone (dict_get section k2)).
Proof. intros H. unfold get. cbn. by rewrite H. Qed.

Lemma get2_some settings k1 k2 section v :
  dict_get settings k1 = Some (VDict section) ->
  dict_get section k2 = Some v ->
  get settings [k1; k2] = Done v.
Proof. intros H1 H2. unfold get. cbn. by rewrite H1; cbn; rewrite H2. Qed.

Lemma setval_and_save_leaf settings k1 k2 section v :
  dict_get settings k1 = Some (VDict section) ->
  is_dict v = false ->
  setval_and_save settings (update2 k1 k2 v)
  = (dict_set settings k1 (VDict (dict_set section k2 v)), Done tt).
Proof.
  intros Hsec Hleaf. unfold setval_and_save, setval, update2.
  rewrite merge_section, Hsec. by rewrite merge_leaf by done.
Qed.

Lemma generate_address_ok settings node n section i address rest :
  dict_get settings "iota" = Some (VDict section) ->
  dict_get section "addr_index" = Some (VInt i) ->
  node (VInt i) n = Done (address :: rest) ->
  generate_address settings node n
  = (dict_set settings "iota"
       (VDict (dict_set section "addr_index" (VInt (i + n)))),
     Done address).
Proof.
  intros Hsec Hidx Hnode. unfold generate_address.
  rewrite (get2_some _ _ _ section (VInt i)) by done.
  rewrite Hnode. cbn [py_add]. cbv beta iota.
  by rewrite (setval_and_save_leaf _ _ _ section) by done.
Qed.

(** X21: the client advances its address index only after the node has
    delivered the address: a call that reaches the node returns the first
    address and leaves the index [num_addrs] higher, touching no other
    setting; a call at which the node fails leaves the settings as they
    were, so the same index is used again. *)
Theorem client_generate_address
    (settings section : dict) (i num_addrs : Z)
    (node : value -> Z -> res (list string)) :
  dict_get settings "iota" = Some (VDict section) ->
  dict_get section "addr_index" = Some (VInt i) ->
  match node (VInt i) num_addrs with
  | Done (address :: _) =>
      (generate_address settings node num_addrs).2 = Done address /\
      get (generate_address settings node num_addrs).1 ["iota"; "addr_index"]
      = Done (VInt (i + num_addrs)) /\
      (forall key, key <> "addr_index" ->
         get (generate_address settings node num_addrs).1 ["iota"; key]
         = get settings ["iota"; key]) /\
      (forall key, key <> "iota" ->
         dict_get (generate_address settings node num_addrs).1 key
         = dict_get settings key)
  | Done [] =>
      generate_address settings node num_addrs = (settings, Throw IndexError)
  | Throw e =>
      generate_address settings node num_addrs = (settings, Throw e)
  end.
Proof.
  intros Hsec Hidx.
  destruct (node (VInt i) num_addrs) as [[|address rest]|e] eqn:Hnode.
  - unfold generate_address.
    rewrite (get2_some _ _ _ section (VInt i)) by done.
    by rewrite Hnode.
  - rewrite (generate_address_ok _ _ _ section i address rest) by done.
    cbn [fst snd]. split; [done|].
    assert (forall key,
              get (dict_set settings "iota"
                     (VDict (dict_set section "addr_index"
                               (VInt (i + num_addrs))))) ["iota"; key]
              = Done (default VNone
                        (dict_get (dict_set section "addr_index"
                                     (VInt (i + num_addrs))) key))) as Hget.
    { intros key. apply get2. apply dict_get_set_eq. }
    split; [by rewrite Hget, dict_get_set_eq|]. split.
    + intros key Hne. rewrite Hget, dict_get_set_ne by done.
      by rewrite (get2 _ _ _ section).
    + intros key Hne. by rewrite dict_get_set_ne.
  - unfold generate_address.
    rewrite (get2_some _ _ _ section (VInt i)) by done.
    by rewrite Hnode.
Qed.

(** X22: when the address for the change is delivered and the transfer
    then fails, [send_iota] raises the exception of the transfer and the
    settings are exactly those from before the call: the index taken for
    the change address is given back. *)
Theorem send_iota_rolls_back
    (settings section : dict) (i : Z)
    (node : value -> Z -> res (list string))
    (transfer : value -> string -> res unit)
    (change_address : string) (rest : list string) (e : exc) :
  dict_get settings "iota" = Some (VDict section) ->
  dict_get section "addr_index" = Some (VInt i) ->
  node (VInt i) 1 = Done (change_address :: rest) ->
  transfer (VInt (i + 1)) change_address = Throw e ->
  send_iota settings (Done tt) node transfer = (settings, Throw e).
Proof.
  intros Hsec Hidx Hnode Hfail. unfold send_iota.
  rewrite (generate_address_ok _ _ _ section i change_address rest) by done.
  set (section' := dict_set section "addr_index" (VInt (i + 1))).
  set (settings' := dict_set settings "iota" (VDict section')).
  assert (dict_get settings' "iota" = Some (VDict section')) as Hsec'
    by apply dict_get_set_eq.
  rewrite (get2_some _ _ _ section' (VInt (i + 1)))
    by (done || apply dict_get_set_eq).
  rewrite Hfail. cbn [py_sub]. cbv beta iota. subst section'.
  rewrite (setval_and_save_leaf _ _ _ _ _ Hsec') by done.
  subst settings'. rewrite !dict_set_set.
  replace (i + 1 - 1) with i by lia.
  rewrite (dict_set_id section) by done. by rewrite dict_set_id.
Qed.

(** X23: when the transfer goes through, [send_iota] returns, the address
    index is one higher than before and the change address has become the
    receiving address; the other sections of the settings are untouched. *)
Theorem send_iota_success
    (settings section : dict) (i : Z)
    (node : value -> Z -> res (list string))
    (transfer : value -> string -> res unit)
    (change_address : string) (rest : list string) :
  dict_get settings "iota" = Some (VDict section) ->
  dict_get section "addr_index" = Some (VInt i) ->
  node (VInt i) 1 = Done (change_address :: rest) ->
  transfer (VInt (i + 1)) change_address = Done tt ->
  (send_iota settings (Done tt) node transfer).2 = Done tt /\
  get (send_iota settings (Done tt) node transfer).1 ["iota"; "addr_index"]
  = Done (VInt (i + 1)) /\
  get (send_iota settings (Done tt) node transfer).1
      ["iota"; "receive_address"]
  = Done (VStr change_address) /\
  (forall key, key <> "iota" ->
     dict_get (send_iota settings (Done tt) node transfer).1 key
     = dict_get settings key).
Proof.
  intros Hsec Hidx Hnode Hok. unfold send_iota.
  rewrite (generate_address_ok _ _ _ section i change_address rest) by done.
  set (section' := dict_set section "addr_index" (VInt (i + 1))).
  set (settings' := dict_set settings "iota" (VDict section')).
  assert (dict_get settings' "iota" = Some (VDict section')) as Hsec'
    by apply dict_get_set_eq.
  rewrite (get2_some _ _ _ section' (VInt (i + 1)))
    by (done || apply dict_get_set_eq).
  rewrite Hok. rewrite (setval_and_save_leaf _ _ _ _ _ Hsec') by done.
  subst section'.
  cbn [fst snd]. split; [done|].
  subst settings'. rewrite dict_set_set.
  set (section'' := dict_set (dict_set section _ _) _ _).
  assert (forall key,
            get (dict_set settings "iota" (VDict section'')) ["iota"; key]
            = Done (default VNone (dict_get section'' key))) as Hget.
  { intros key. apply get2. apply dict_get_set_eq. }
  rewrite !Hget. subst section''. split; [|split].
  - rewrite dict_get_set_ne by done. by rewrite dict_get_set_eq.
  - by rewrite dict_get_set_eq.
  - intros key Hne. by rewrite dict_get_set_ne.
Qed.

End ClientIotaFacts.

(** ** Refreshing the artwork *)

Section RefreshFacts.
Import Settings Refresh.

Lemma check_loop_exit fuel w url key k now last :
  ~ (last <> "completed" /\
     wall w (start_check w) + MAX_CHECK_TIME > wall w now /\
     stop_set w k = false) ->
  check_loop fuel w url key k now last = Some (Done last, k).
Proof.
  intros Hexit.
  assert (bool_decide (last <> "completed")
          && bool_decide (wall w (start_check w) + MAX_CHECK_TIME > wall w now)
          && negb (stop_set w k) = false) as Hcond.
  { destruct (bool_decide (last <> "completed")) eqn:H1; [|done].
    destruct (bool_decide (_ > _)) eqn:H2; [|done].
    destruct (stop_set w k) eqn:H3; [done|].
    apply bool_decide_eq_true in H1, H2. by destruct Hexit. }
  destruct fuel; cbn [check_loop]; by rewrite Hcond.
Qed.

Lemma check_loop_iterate fuel w url key k now last :
  last <> "completed" ->
  wall w (start_check w) + MAX_CHECK_TIME > wall w now ->
  stop_set w k = false ->
  check_loop (S fuel) w url key k now last =
  match post_status w k url key with
  | Throw e => Some (Throw e, S k)
  | Done last =>
      check_loop fuel w url key (S k)
        (now + (if stop_set w (S k) then Z.of_nat (early w k)
                else ART_CHECK_INTERVAL) + Z.of_nat (latency w k)) last
  end.
Proof.
  intros H1 H2 H3. cbn [check_loop].
  by rewrite !bool_decide_eq_true_2, H3 by done.
Qed.

Lemma check_loop_out_of_fuel w url key k now last :
  last <> "completed" ->
  wall w (start_check w) + MAX_CHECK_TIME > wall w now ->
  stop_set w k = false ->
  check_loop 0 w url key k now last = None.
Proof.
  intros H1 H2 H3. cbn [check_loop].
  by rewrite !bool_decide_eq_true_2, H3 by done.
Qed.

(** A loop that has ended ends in the same way with more fuel. *)
Lemma check_loop_more_fuel fuel w url key :
  forall fuel' k now last out,
  (fuel <= fuel')%nat ->
  check_loop fuel w url key k now last = Some out ->
  check_loop fuel' w url key k now last = Some out.
Proof.
  induction fuel as [|fuel IH]; intros fuel' k now last out Hle;
    (destruct (decide (last <> "completed" /\
                       wall w (start_check w) + MAX_CHECK_TIME > wall w now /\
                       stop_set w k = false)) as [(H1 & H2 & H3)|Hex];
     [|by rewrite !check_loop_exit by done]).
  - by rewrite check_loop_out_of_fuel.
  - destruct fuel' as [|fuel']; [lia|].
    rewrite !check_loop_iterate by done.
    destruct (post_status w k url key) as [last'|e]; [|done].
    apply IH. lia.
Qed.

(** While the clock is not stepped, the loop runs as long as fewer than
    [MAX_CHECK_TIME] seconds have passed. *)
Lemma unstepped_checking w now :
  unstepped w ->
  wall w (start_check w) + MAX_CHECK_TIME > wall w now <->
  start_check w + MAX_CHECK_TIME > now.
Proof. intros Hw. specialize (Hw (start_check w) now). lia. Qed.

(** An iteration that is followed by another costs 30 seconds. *)
Lemma check_loop_count fuel w url key :
  forall k now last r n,
  check_loop fuel w url key k now last = Some (r, n) ->
  (k <= n)%nat /\
  (unstepped w ->
   ART_CHECK_INTERVAL * (Z.of_nat n - Z.of_nat k)
   <= Z.max 0 (start_check w + MAX_CHECK_TIME - now) + 29).
Proof.
  unfold ART_CHECK_INTERVAL.
  induction fuel as [|fuel IH]; intros k now last r n;
    (destruct (decide (last <> "completed" /\
                       wall w (start_check w) + MAX_CHECK_TIME > wall w now /\
                       stop_set w k = false)) as [(H1 & H2 & H3)|Hex];
     [|rewrite check_loop_exit by done; intros [= <- <-]; lia]).
  - by rewrite check_loop_out_of_fuel.
  - rewrite check_loop_iterate by done.
    destruct (post_status w k url key) as [last'|e].
    + destruct (stop_set w (S k)) eqn:Hstop.
      * rewrite check_loop_exit by (intros (_ & _ & ?); congruence).
        intros [= <- <-]. split; [lia|]. intros Hw.
        apply unstepped_checking in H2; [|done]. lia.
      * intros Hrec. apply IH in Hrec as [Hle Hrec]. split; [lia|].
        intros Hw. specialize (Hrec Hw).
        apply unstepped_checking in H2; [|done].
        unfold ART_CHECK_INTERVAL in *. lia.
    + intros [= <- <-]. split; [lia|]. intros Hw.
      apply unstepped_checking in H2; [|done]. lia.
Qed.

Lemma check_loop_terminates fuel w url key :
  unstepped w ->
  forall k now last,
  (Z.to_nat (start_check w + MAX_CHECK_TIME - now) <= fuel)%nat ->
  is_Some (check_loop fuel w url key k now last).
Proof.
  intros Hw.
  induction fuel as [|fuel IH]; intros k now last Hfuel.
  - rewrite check_loop_exit; [by eexists|].
    intros (_ & H2 & _). apply unstepped_checking in H2; [lia|done].
  - destruct (decide (last <> "completed" /\
                      wall w (start_check w) + MAX_CHECK_TIME > wall w now /\
                      stop_set w k = false)) as [(H1 & H2 & H3)|Hex].
    + rewrite check_loop_iterate by done.
      destruct (post_status w k url key) as [last'|e]; [|by eexists].
      destruct (stop_set w (S k)) eqn:Hstop.
      * rewrite check_loop_exit by (intros (_ & _ & ?); congruence).
        by eexists.
      * apply IH. apply unstepped_checking in H2; [|done].
        unfold ART_CHECK_INTERVAL. lia.
    + rewrite check_loop_exit by done. by eexists.
Qed.


(** When every status request is answered and none finds the artwork
    completed, the loop ends with such a status if it ends. *)
Lemma check_loop_pending fuel w url key :
  (forall k, exists s, post_status w k url key = Done s /\ s <> "completed") ->
  forall k now last r n,
  last <> "completed" ->
  check_loop fuel w url key k now last = Some (r, n) ->
  exists last', r = Done last' /\ last' <> "completed".
Proof.
  intros Hpending.
  induction fuel as [|fuel IH]; intros k now last r n Hlast;
    (destruct (decide (last <> "completed" /\
                       wall w (start_check w) + MAX_CHECK_TIME > wall w now /\
                       stop_set w k = false)) as [(H1 & H2 & H3)|Hex];
     [|rewrite check_loop_exit by done; intros [= <- <-]; by exists last]).
  - by rewrite check_loop_out_of_fuel.
  - rewrite check_loop_iterate by done.
    destruct (Hpending k) as (s & -> & Hs). by apply IH.
Qed.




Lemma await_artwork_more_fuel fuel fuel' w marketplace art_request st out :
  (fuel <= fuel')%nat ->
  await_artwork fuel w marketplace art_request st = Some out ->
  await_artwork fuel' w marketplace art_request st = Some out.
Proof.
  intros Hle. unfold await_artwork.
  destruct (check_loop fuel _ _ _ _ _ _) as [looped|] eqn:Hloop; [|done].
  by rewrite (check_loop_more_fuel _ _ _ _ _ _ _ _ _ Hle Hloop).
Qed.

Lemma await_artwork_terminates fuel w marketplace art_request st :
  unstepped w ->
  (Z.to_nat MAX_CHECK_TIME <= fuel)%nat ->
  is_Some (await_artwork fuel w marketplace art_request st).
Proof.
  intros Hw Hfuel. unfold await_artwork.
  destruct (check_loop_terminates fuel w
              (marketplace +:+ status_addr art_request) (key art_request) Hw
              0%nat (start_check w) "unknown") as [[outcome k] ->]; [lia|].
  repeat case_match; by eexists.
Qed.

Lemma refresh_more_fuel fuel fuel' w st out :
  (fuel <= fuel')%nat ->
  _refresh_artwork fuel w st = Some out ->
  _refresh_artwork fuel' w st = Some out.
Proof.
  intros Hle. unfold _refresh_artwork.
  repeat (case_match; try done). by apply await_artwork_more_fuel.
Qed.

Lemma refresh_terminates fuel w st :
  unstepped w ->
  (Z.to_nat MAX_CHECK_TIME <= fuel)%nat ->
  is_Some (_refresh_artwork fuel w st).
Proof.
  intros Hw Hfuel. unfold _refresh_artwork.
  repeat (case_match; try by eexists); by apply await_artwork_terminates.
Qed.

(** While the clock is not stepped a refresh returns, and in one way. *)
Lemma refresh_returns w st :
  unstepped w ->
  exists st' r,
    forall fuel, (Z.to_nat MAX_CHECK_TIME <= fuel)%nat ->
      _refresh_artwork fuel w st = Some (st', r).
Proof.
  intros Hw.
  destruct (refresh_terminates (Z.to_nat MAX_CHECK_TIME) w st Hw)
    as [[st' r] Hrun]; [done|].
  exists st', r. intros fuel Hfuel. by apply (refresh_more_fuel _ _ _ _ _ Hfuel).
Qed.





(** When the clock is set back by an hour while the refresh waits (the
    end of daylight saving time), the wait lasts 75 minutes: 146 status
    requests of 31 seconds. *)
Example refresh_clock_set_back :
  let w := MoreSamples.marketplace Samples.three_artists
             (fun t => if bool_decide (t < 300) then t else t - 3600) in
  (checks ∘ fst <$> _refresh_artwork 200 w MoreSamples.idle) = Some 146%nat.
Proof. by vm_compute. Qed.


(** X28: when the marketplace lists no artist (an empty list or [null]),
    the refresh ends with the [ValueError] of [choose_artist]: no event is
    put, not even [ERROR], and nothing is paid. *)
Theorem refresh_empty_list
    (fuel : nat) (w : World) (st : State) (balance : Z) (marketplace : string)
    (l : option (list Canvas.Artist)) :
  get_balance w = Done balance ->
  LOW_BALANCE_AMOUNT <= balance ->
  get (app_settings st) ["user"; "ai_marketplace_url"]
  = Done (VStr marketplace) ->
  get_artist_list w (marketplace +:+ "/artist-list") = Done l ->
  default [] l = [] ->
  _refresh_artwork fuel w st
  = Some ({| app_settings := app_settings st; _event_q := _event_q st;
             _last_refresh_attempt := Some (attempt_time w);
             sent := sent st; checks := checks st |},
          Throw ValueError).
Proof.
  intros Hbal Hlow Hurl Hlist Hempty. unfold _refresh_artwork.
  rewrite Hbal. rewrite bool_decide_eq_false_2 by lia.
  cbn [app_settings]. rewrite Hurl, Hlist.
  by destruct l as [[|a l]|].
Qed.

(** X29: when the payment went through and no status request finds the
    artwork completed, a refresh that returns does so without an event
    and without touching the settings again, and the payment stays made.
    While the clock is not stepped the refresh returns, after
    [MAX_CHECK_TIME] or when the stop flag is set, with no more than 30
    status requests made. *)
Theorem refresh_gives_up_silently
    (w : World) (st : State) (balance : Z) (marketplace : string)
    (l : option (list Canvas.Artist)) (artist : Canvas.Artist)
    (art_request : ArtRequest) (settings : dict) :
  get_balance w = Done balance ->
  LOW_BALANCE_AMOUNT <= balance ->
  get (app_settings st) ["user"; "ai_marketplace_url"]
  = Done (VStr marketplace) ->
  get_artist_list w (marketplace +:+ "/artist-list") = Done l ->
  Canvas.choose_artist l = Ok artist ->
  get_request_art w (marketplace +:+ "/" +:+ pretty (Canvas.id artist)
                     +:+ "/request-art") = Done art_request ->
  send_iota w (Canvas.cost artist) (iota_addr art_request) (app_settings st)
  = (settings, Done tt) ->
  (forall k, exists s,
     post_status w k (marketplace +:+ status_addr art_request)
                 (key art_request) = Done s /\ s <> "completed") ->
  (forall fuel st' r,
     _refresh_artwork fuel w st = Some (st', r) ->
     r = Done tt /\
     exists n,
       st' = {| app_settings := settings; _event_q := _event_q st;
                _last_refresh_attempt := Some (attempt_time w);
                sent := sent st
                        ++ [(Canvas.cost artist, iota_addr art_request)];
                checks := checks st + n |}) /\
  (unstepped w ->
   exists n,
     (n <= 30)%nat /\
     forall fuel, (Z.to_nat MAX_CHECK_TIME <= fuel)%nat ->
       _refresh_artwork fuel w st
       = Some ({| app_settings := settings; _event_q := _event_q st;
                  _last_refresh_attempt := Some (attempt_time w);
                  sent := sent st
                          ++ [(Canvas.cost artist, iota_addr art_request)];
                  checks := checks st + n |},
               Done tt)).
Proof.
  intros Hbal Hlow Hurl Hlist Hchoose Hreq Hsend Hpending.
  assert (forall fuel st' r,
            _refresh_artwork fuel w st = Some (st', r) ->
            r = Done tt /\
            exists n,
              (unstepped w -> n <= 30)%nat /\
              st' = {| app_settings := settings; _event_q := _event_q st;
                       _last_refresh_attempt := Some (attempt_time w);
                       sent := sent st
                               ++ [(Canvas.cost artist,
                                    iota_addr art_request)];
                       checks := checks st + n |}) as Hsafe.
  { intros fuel st' r. unfold _refresh_artwork.
    rewrite Hbal. rewrite bool_decide_eq_false_2 by lia.
    cbn [app_settings]. rewrite Hurl, Hlist, Hchoose, Hreq, Hsend.
    unfold await_artwork.
    destruct (check_loop fuel _ _ _ _ _ _) as [[outcome n]|] eqn:Hloop;
      [|done].
    assert ("unknown" <> "completed") as Hunknown by done.
    destruct (check_loop_pending _ _ _ _ Hpending _ _ _ _ _ Hunknown Hloop)
      as (last & -> & Hlast).
    rewrite bool_decide_eq_true_2 by done. cbn. intros [= <- <-].
    split; [done|]. exists n. split; [|done].
    intros Hw. destruct (check_loop_count _ _ _ _ _ _ _ _ _ Hloop) as [_ Hn].
    specialize (Hn Hw). unfold ART_CHECK_INTERVAL, MAX_CHECK_TIME in Hn. lia. }
  split.
  - intros fuel st' r Hrun.
    destruct (Hsafe _ _ _ Hrun) as (-> & n & _ & ->). split; [done|by exists n].
  - intros Hw. destruct (refresh_returns w st Hw) as (st' & r & Hrun).
    destruct (Hsafe _ _ _ (Hrun _ (Nat.le_refl _))) as (-> & n & Hn & ->).
    exists n. split; [by apply Hn|done].
Qed.

End RefreshFacts.

(** ** Instances on the sample data *)

Section Instances.
Import Num Schema Artist Requests Ledger.

Lemma db2_indices_allocated :
  indices_allocated MoreSamples.allocator MoreSamples.db2.
Proof.
  exists 7. split; [reflexivity|]. split; [by vm_compute|].
  intros i j. cbn. rewrite !lookup_insert_Some, lookup_singleton_Some.
  intros [[_ <-]|[_ [[_ <-]|[_ [_ <-]]]]]; eexists; by split.
Qed.

Lemma db2_indices_distinct : indices_distinct MoreSamples.db2.
Proof.
  intros i1 i2 j1 j2. cbn. rewrite !lookup_insert_Some, !lookup_singleton_Some.
  intros [[<- <-]|[_ [[<- <-]|[_ [<- <-]]]]]
         [[<- <-]|[_ [[<- <-]|[_ [<- <-]]]]]; by intros [=].
Qed.

Lemma art_generator_finishes_paid_job_witness :
  exists out,
    art_generator 1 1 (MoreSamples.paid (Ok "a41c09be.png")) create_app
                  Samples.db1 = Some out /\
    ending out = Finished "a41c09be.png" /\
    polls out = 1%nat /\
    retrieve_status (final out) 1 "9f86d081884c7d65"
    = Ok {| status_code := 200; body_status := "completed" |} /\
    retrieve_art MoreSamples.art_dir (final out) 1 "9f86d081884c7d65"
    = Ok "a41c09be.png" /\
    retrieve_art (fun _ => false) (final out) 1 "9f86d081884c7d65"
    = Raise (HTTPException 404).
Proof.
  destruct (art_generator_finishes_paid_job 1
              (MoreSamples.paid (Ok "a41c09be.png")) create_app Samples.db1
              (Samples.pending_job 1) Samples.painter 1000 0 1000
              "a41c09be.png")
    as (out & Hrun & Hend & Hpolls & _ & _ & Hstatus & Hart).
  - by vm_compute.
  - reflexivity.
  - reflexivity.
  - reflexivity.
  - reflexivity.
  - intros i Hi. lia.
  - reflexivity.
  - vm_compute. discriminate.
  - intros i Hi. assert (i = 0%nat) as -> by lia. reflexivity.
  - reflexivity.
  - exists out. split; [apply Hrun; lia|]. split; [exact Hend|].
    split; [exact Hpolls|]. split; [exact Hstatus|].
    split; [exact (Hart MoreSamples.art_dir)|exact (Hart (fun _ => false))].
Defined.

Lemma art_generator_keeps_paid_job_pending_witness :
  art_generator 1 1 (MoreSamples.paid (Raise (External "artist crashed")))
                create_app Samples.db1
  = Some {| final := Samples.db1;
            ending := Failed (External "artist crashed");
            polls := 1;
            clock := clock_at (MoreSamples.paid
                                 (Raise (External "artist crashed"))) 1
                     + 5 |}.
Proof.
  apply (art_generator_keeps_paid_job_pending 1
           (MoreSamples.paid (Raise (External "artist crashed"))) create_app
           Samples.db1 (Samples.pending_job 1) Samples.painter 1000 0 1000).
  - by vm_compute.
  - reflexivity.
  - reflexivity.
  - reflexivity.
  - reflexivity.
  - intros i Hi. lia.
  - reflexivity.
  - vm_compute. discriminate.
  - intros i Hi. assert (i = 0%nat) as -> by lia. reflexivity.
  - reflexivity.
  - lia.
Defined.

Lemma art_generator_frame_witness :
  exists out j',
    art_generator 1 4 (MoreSamples.paid (Ok "a41c09be.png")) create_app
                  MoreSamples.db2 = Some out /\
    artist (final out) = artist MoreSamples.db2 /\
    iota (final out) = iota MoreSamples.db2 /\
    job (final out) !! 2 = job MoreSamples.db2 !! 2 /\
    job (final out) !! 6 = job MoreSamples.db2 !! 6 /\
    job (final out) !! 4 = Some j' /\
    completed j' = Some 37 /\
    exists j, job MoreSamples.db2 !! 4 = Some j /\
      access_key j' = access_key j /\
      addr_index j' = addr_index j /\
      ai_id j' = ai_id j.
Proof.
  eexists _, _. split; [reflexivity|].
  destruct (art_generator_frame 1 4 (MoreSamples.paid (Ok "a41c09be.png"))
              create_app MoreSamples.db2 _ eq_refl)
    as (Hartist & Hiota & Hother & Hrow).
  split; [exact Hartist|]. split; [exact Hiota|].
  split; [by apply Hother|]. split; [by apply Hother|].
  split; [reflexivity|]. split; [reflexivity|].
  apply Hrow. reflexivity.
Defined.


Lemma request_art_creates_pending_job_witness :
  exists db' r,
    request_art 3 MoreSamples.allocator MoreSamples.node_up
                "0cc175b9c0f1b6a8" 7 MoreSamples.db2 = (db', Ok r) /\
    job_id r = 7 /\
    job db' !! 7
    = Some {| access_key := "0cc175b9c0f1b6a8"; addr_index := Int 7;
              ai_id := 3; completed := None; filename := None |} /\
    job db' !! 4 = job MoreSamples.db2 !! 4 /\
    Iotautil.counter MoreSamples.allocator db' = Some (Int 8) /\
    retrieve_status db' 7 "0cc175b9c0f1b6a8"
    = Ok {| status_code := 409; body_status := "in_progress" |} /\
    retrieve_status db' 7 "5d41402abc4b2a76" = Raise (HTTPException 403).
Proof.
  destruct (request_art_creates_pending_job 3 MoreSamples.allocator
              MoreSamples.node_up "0cc175b9c0f1b6a8" 7 MoreSamples.db2
              7 "ADDR9")
    as (db' & r & Hrun & _ & Hid & _ & Hrow & Hother & _ & Hcounter &
        Hstatus & _ & Hwrong);
    [reflexivity|by vm_compute|by vm_compute|by vm_compute|reflexivity|].
  exists db', r. split; [exact Hrun|]. split; [exact Hid|].
  split; [exact Hrow|]. split; [by apply Hother|]. split; [exact Hcounter|].
  split; [exact Hstatus|]. by apply Hwrong.
Defined.

Lemma request_art_node_failure_witness :
  exists db',
    request_art 3 MoreSamples.allocator MoreSamples.node_down
                "0cc175b9c0f1b6a8" 7 MoreSamples.db2
    = (db', Raise (External "node unreachable")) /\
    job db' = job MoreSamples.db2 /\
    Iotautil.counter MoreSamples.allocator db' = Some (Int 8).
Proof.
  destruct (request_art_node_failure 3 MoreSamples.allocator
              MoreSamples.node_down "0cc175b9c0f1b6a8" 7 MoreSamples.db2
              7 (External "node unreachable"))
    as (db' & Hrun & Hjob & _ & Hcounter);
    [reflexivity|by vm_compute|reflexivity|].
  exists db'. split; [exact Hrun|]. split; [exact Hjob|exact Hcounter].
Defined.

Lemma request_art_keeps_indices_distinct_witness :
  size (job (request_art 3 MoreSamples.allocator MoreSamples.node_up
               "0cc175b9c0f1b6a8" 7 MoreSamples.db2).1) = 4%nat /\
  indices_allocated MoreSamples.allocator
    (request_art 3 MoreSamples.allocator MoreSamples.node_up
                 "0cc175b9c0f1b6a8" 7 MoreSamples.db2).1 /\
  indices_distinct
    (request_art 3 MoreSamples.allocator MoreSamples.node_up
                 "0cc175b9c0f1b6a8" 7 MoreSamples.db2).1.
Proof.
  split; [by vm_compute|].
  apply (request_art_keeps_indices_distinct 3 MoreSamples.allocator
           MoreSamples.node_up "0cc175b9c0f1b6a8" 7 MoreSamples.db2).
  - reflexivity.
  - exact db2_indices_allocated.
  - by intros [=].
  - exact db2_indices_distinct.
Defined.

Lemma request_then_timeout_restores_jobs_witness :
  exists db' r out,
    request_art 1 MoreSamples.allocator MoreSamples.node_up
                "0cc175b9c0f1b6a8" 7 MoreSamples.db2 = (db', Ok r) /\
    art_generator 20 (job_id r) (Samples.unpaid 0) create_app db'
    = Some out /\
    ending out = Cancelled /\
    job (final out) = job MoreSamples.db2 /\
    Iotautil.counter MoreSamples.allocator (final out) = Some (Int 8).
Proof.
  destruct (request_then_timeout_restores_jobs 1 MoreSamples.allocator
              MoreSamples.node_up "0cc175b9c0f1b6a8" 7 MoreSamples.db2
              7 "ADDR9" Samples.painter (Samples.unpaid 0) create_app
              1000 20)
    as (db' & r & out & Hreq & Hrun & Hend & Hjob & _ & Hcounter).
  - reflexivity.
  - by vm_compute.
  - by vm_compute.
  - by vm_compute.
  - reflexivity.
  - reflexivity.
  - reflexivity.
  - reflexivity.
  - reflexivity.
  - intros k. exists 0. split; reflexivity.
  - by vm_compute.
  - exists db', r, out. split; [exact Hreq|]. split; [apply Hrun; lia|].
    split; [exact Hend|]. split; [exact Hjob|exact Hcounter].
Defined.

Lemma choose_from_artist_list_witness :
  Canvas.choose_artist
    (Some [ {| Canvas.id := 1; Canvas.cost := 1000;
               Canvas.genre_name := "cubism" |};
            {| Canvas.id := 3; Canvas.cost := 750;
               Canvas.genre_name := "cubism" |};
            {| Canvas.id := 4; Canvas.cost := 750;
               Canvas.genre_name := "fauvism" |} ])
  = Ok {| Canvas.id := 3; Canvas.cost := 750;
          Canvas.genre_name := "cubism" |} /\
  exists row cost,
    row ∈ MoreSamples.listing /\
    calc_cost create_app (l_average_time row) (l_surcharge row) None
    = Ok cost /\
    Canvas.choose_artist
      (Some [ {| Canvas.id := 1; Canvas.cost := 1000;
                 Canvas.genre_name := "cubism" |};
              {| Canvas.id := 3; Canvas.cost := 750;
                 Canvas.genre_name := "cubism" |};
              {| Canvas.id := 4; Canvas.cost := 750;
                 Canvas.genre_name := "fauvism" |} ])
    = Ok {| Canvas.id := l_id row;
            Canvas.cost := cost;
            Canvas.genre_name := l_genre_name row |} /\
    forall row', row' ∈ MoreSamples.listing ->
      exists cost',
        calc_cost create_app (l_average_time row') (l_surcharge row') None
        = Ok cost' /\
        cost <= cost'.
Proof.
  split; [reflexivity|].
  apply (choose_from_artist_list create_app MoreSamples.listing);
    [discriminate|reflexivity].
Defined.

Lemma commission_completes_witness :
  exists db' r out,
    request_art 3 MoreSamples.allocator MoreSamples.node_up
                "0cc175b9c0f1b6a8" 7 MoreSamples.db2 = (db', Ok r) /\
    iota_addr r = "ADDR9" /\
    art_generator 1 (job_id r) MoreSamples.paid_750 create_app db'
    = Some out /\
    ending out = Finished "a41c09be.png" /\
    retrieve_status (final out) (job_id r) (Requests.key r)
    = Ok {| status_code := 200; body_status := "completed" |} /\
    retrieve_art MoreSamples.art_dir (final out) (job_id r) (Requests.key r)
    = Ok "a41c09be.png".
Proof.
  destruct (commission_completes create_app MoreSamples.listing
              [ {| Canvas.id := 1; Canvas.cost := 1000;
                   Canvas.genre_name := "cubism" |};
                {| Canvas.id := 3; Canvas.cost := 750;
                   Canvas.genre_name := "cubism" |};
                {| Canvas.id := 4; Canvas.cost := 750;
                   Canvas.genre_name := "fauvism" |} ]
              MoreSamples.db2
              {| Canvas.id := 3; Canvas.cost := 750;
                 Canvas.genre_name := "cubism" |}
              MoreSamples.allocator MoreSamples.node_up
              "0cc175b9c0f1b6a8" 7 7 "ADDR9"
              MoreSamples.paid_750 750 "a41c09be.png")
    as (db' & r & out & Hreq & Haddr & Hrun & Hend & _ & Hstatus & Hart).
  - repeat (constructor;
            [split; [by vm_compute|]; eexists;
             split; [reflexivity|]; split; reflexivity|]).
    constructor.
  - reflexivity.
  - reflexivity.
  - reflexivity.
  - by vm_compute.
  - by vm_compute.
  - reflexivity.
  - reflexivity.
  - reflexivity.
  - reflexivity.
  - vm_compute. discriminate.
  - reflexivity.
  - exists db', r, out. split; [exact Hreq|]. split; [exact Haddr|].
    split; [apply Hrun; lia|]. split; [exact Hend|].
    split; [exact Hstatus|exact (Hart MoreSamples.art_dir)].
Defined.

Lemma art_generator_keeps_indices_distinct_witness :
  exists out,
    art_generator 1 4 (MoreSamples.paid (Ok "a41c09be.png")) create_app
                  MoreSamples.db2 = Some out /\
    ending out = Finished "a41c09be.png" /\
    size (job (final out)) = 3%nat /\
    indices_allocated MoreSamples.allocator (final out) /\
    indices_distinct (final out).
Proof.
  eexists. split; [reflexivity|]. split; [reflexivity|].
  split; [by vm_compute|].
  apply (art_generator_keeps_indices_distinct MoreSamples.allocator 1 4
           (MoreSamples.paid (Ok "a41c09be.png")) create_app MoreSamples.db2
           _ db2_indices_allocated db2_indices_distinct eq_refl).
Defined.

End Instances.

Section ClientInstances.
Import Settings.

Lemma manage_monitor_window_witness :
  Monitor.manage_monitor true MoreSamples.half_past_ten MoreSamples.eight
    MoreSamples.half_past_nine true true false = true.
Proof.
  apply (manage_monitor_window MoreSamples.half_past_ten MoreSamples.eight
           MoreSamples.half_past_nine false).
  - unfold Monitor.valid. cbn. lia.
  - unfold Monitor.valid. cbn. lia.
  - unfold Monitor.valid. cbn. lia.
  - left. unfold Monitor.convert_time_minutes. cbn. lia.
Defined.

Lemma setval_get_roundtrip_witness :
  get (setval DEFAULT_SETTINGS
         (DItem "iota" (nested ["addr_index"] (VInt 3)) DNil)).1
      ["iota"; "addr_index"]
  = Done (VInt 3).
Proof.
  apply (setval_get_roundtrip ["addr_index"] "iota" (VInt 3)
           DEFAULT_SETTINGS).
  - reflexivity.
  - reflexivity.
Defined.

Lemma update_settings_only_user_witness :
  get (Webapp.at_return
         (Webapp.update_settings MoreSamples.posix (fun _ => Done tt)
            MoreSamples.settings (VDict (DItem "x_dir" (VInt 5) DNil)))).1
      ["iota"; "seed"]
  = get MoreSamples.settings ["iota"; "seed"] /\
  exists saved,
    Webapp.after_save
      (Webapp.update_settings MoreSamples.posix (fun _ => Done tt)
         MoreSamples.settings (VDict (DItem "x_dir" (VInt 5) DNil)))
    = Some saved /\
    saved.2 = Some TypeError /\
    get saved.1 ["iota"; "seed"] = Done (VStr "SEED9").
Proof.
  destruct (update_settings_only_user MoreSamples.posix (fun _ => Done tt)
              MoreSamples.settings (VDict (DItem "x_dir" (VInt 5) DNil))
              "iota" ["seed"]) as [Hreturn Hsaved]; [discriminate|].
  split; [exact Hreturn|].
  eexists. split; [reflexivity|]. split; [reflexivity|].
  apply Hsaved.
  - reflexivity.
  - reflexivity.
  - reflexivity.
  - intros k [= <-]. reflexivity.
Defined.

Lemma update_settings_not_a_dict_witness :
  Webapp.at_return
    (Webapp.update_settings MoreSamples.posix (fun _ => Done tt)
       MoreSamples.settings (VInt 5))
  = (dict_set MoreSamples.settings "user" (VInt 5), None) /\
  get (Webapp.at_return
         (Webapp.update_settings MoreSamples.posix (fun _ => Done tt)
            MoreSamples.settings (VInt 5))).1 ["user"]
  = Done (VInt 5) /\
  get (Webapp.at_return
         (Webapp.update_settings MoreSamples.posix (fun _ => Done tt)
            MoreSamples.settings (VInt 5))).1
      ["user"; "art_refresh_enabled"]
  = Throw AttributeError.
Proof.
  destruct (update_settings_not_a_dict MoreSamples.posix (fun _ => Done tt)
              MoreSamples.settings (VInt 5) "art_refresh_enabled" [])
    as (Hreturn & _ & Hsection & Hread); [reflexivity|].
  split; [exact Hreturn|]. split; [exact Hsection|exact Hread].
Defined.

Lemma iota_settings_hides_seed_witness :
  exists iota_config,
    Webapp.iota_settings MoreSamples.settings (fun _ => Throw TypeError)
                         (Done tt) = Done iota_config /\
    dict_get iota_config "seed" = None /\
    dict_get iota_config "addr_index" = Some (VInt 0).
Proof.
  eexists. split; [reflexivity|].
  destruct (iota_settings_hides_seed MoreSamples.settings
              (fun _ => Throw TypeError) (Done tt) _ eq_refl)
    as (Hseed & _).
  split; [exact Hseed|reflexivity].
Defined.

Lemma client_generate_address_witness :
  (ClientIota.generate_address MoreSamples.settings
     MoreSamples.node_addresses 1).2 = Done "CHANGE9" /\
  get (ClientIota.generate_address MoreSamples.settings
         MoreSamples.node_addresses 1).1 ["iota"; "addr_index"]
  = Done (VInt 1).
Proof.
  pose proof (client_generate_address MoreSamples.settings _ 0 1
                MoreSamples.node_addresses eq_refl eq_refl)
    as (Haddress & Hindex & _).
  split; [exact Haddress|exact Hindex].
Defined.

Lemma send_iota_rolls_back_witness :
  ClientIota.send_iota MoreSamples.settings (Done tt)
    MoreSamples.node_addresses (fun _ _ => Throw ValueError)
  = (MoreSamples.settings, Throw ValueError).
Proof.
  apply (send_iota_rolls_back MoreSamples.settings _ 0
           MoreSamples.node_addresses (fun _ _ => Throw ValueError)
           "CHANGE9" [] ValueError eq_refl eq_refl eq_refl eq_refl).
Defined.

Lemma send_iota_success_witness :
  get (ClientIota.send_iota MoreSamples.settings (Done tt)
         MoreSamples.node_addresses (fun _ _ => Done tt)).1
      ["iota"; "receive_address"]
  = Done (VStr "CHANGE9").
Proof.
  pose proof (send_iota_success MoreSamples.settings _ 0
                MoreSamples.node_addresses (fun _ _ => Done tt)
                "CHANGE9" [] eq_refl eq_refl eq_refl eq_refl)
    as (_ & _ & Hreceive & _).
  exact Hreceive.
Defined.


Lemma refresh_empty_list_witness :
  Refresh._refresh_artwork 0 (MoreSamples.marketplace [] (fun t => t))
    MoreSamples.idle
  = Some ({| Refresh.app_settings := MoreSamples.settings;
             Refresh._event_q := Synchro.EventQueue_init;
             Refresh._last_refresh_attempt := Some 0;
             Refresh.sent := [];
             Refresh.checks := 0 |},
          Throw ValueError).
Proof.
  apply (refresh_empty_list 0 (MoreSamples.marketplace [] (fun t => t))
           MoreSamples.idle 5000 "http://127.0.0.1:5000" (Some [])).
  - reflexivity.
  - vm_compute. discriminate.
  - reflexivity.
  - reflexivity.
  - reflexivity.
Defined.

Lemma refresh_gives_up_silently_witness :
  exists n,
    (n <= 30)%nat /\
    Refresh._refresh_artwork 900
      (MoreSamples.marketplace Samples.three_artists (fun t => t))
      MoreSamples.idle
    = Some ({| Refresh.app_settings := MoreSamples.settings;
               Refresh._event_q := Synchro.EventQueue_init;
               Refresh._last_refresh_attempt := Some 0;
               Refresh.sent := [] ++ [(3, "ADDR9")];
               Refresh.checks := 0 + n |},
            Done tt).
Proof.
  destruct (refresh_gives_up_silently
              (MoreSamples.marketplace Samples.three_artists (fun t => t))
              MoreSamples.idle
              5000 "http://127.0.0.1:5000" (Some Samples.three_artists)
              {| Canvas.id := 11; Canvas.cost := 3;
                 Canvas.genre_name := "pop art" |}
              {| Refresh.iota_addr := "ADDR9";
                 Refresh.status_addr := "/4/status";
                 Refresh.retrieve_addr := "/4/retrieve-art";
                 Refresh.key := "5d41402abc4b2a76" |}
              MoreSamples.settings) as [_ Hreturns].
  - reflexivity.
  - vm_compute. discriminate.
  - reflexivity.
  - reflexivity.
  - reflexivity.
  - reflexivity.
  - reflexivity.
  - intros k. exists "in_progress". split; [reflexivity|discriminate].
  - destruct Hreturns as (n & Hn & Hrun); [intros s t; reflexivity|].
    exists n. split; [exact Hn|].
    apply Hrun. unfold Refresh.MAX_CHECK_TIME. lia.
Defined.

End ClientInstances.
